(** * burger-shop: cart totals and checkout of [api/src/server.js]

    A shallow embedding of the Express handlers of the burger shop API and
    of the pure [computeTotals] function, with JavaScript numbers modelled
    as IEEE 754 binary64 values (the specification of the Standard Library,
    [SpecFloat]), so that every [+] and [*] of the source rounds exactly as
    it does in Node. *)

From Stdlib Require Import ZArith List String Ascii Bool Lia Permutation DecimalString.
From Stdlib Require Import SpecFloat QArith Qpower Qround.
Import ListNotations.
Open Scope Z_scope.

(** ** JavaScript numbers *)

Module Num.

Definition number := spec_float.

Definition prec : Z := 53.
Definition emax : Z := 1024.

(** [a + b], [a * b] and [a / b] on Numbers: round to nearest, ties to even. *)
Definition add : number -> number -> number := SFadd prec emax.
Definition mul : number -> number -> number := SFmul prec emax.
Definition div : number -> number -> number := SFdiv prec emax.

(** The Number denoted by an integer literal (the nearest binary64). *)
Definition ofZ (z : Z) : number := binary_normalize prec emax z 0 false.

(** The integer a Number is exactly equal to, if any ([Number.isInteger]). *)
Definition toZ (x : number) : option Z :=
  match x with
  | S754_zero _ => Some 0
  | S754_finite s m e =>
      if 0 <=? e then Some (cond_Zopp s (Zpos m * 2 ^ e))
      else if (Zpos m) mod 2 ^ (- e) =? 0
           then Some (cond_Zopp s (Zpos m / 2 ^ (- e)))
           else None
  | _ => None
  end.

(** [floor (x + 1/2)] for the finite value [(+/-) m * 2^e]. *)
Definition half_up (s : bool) (m : positive) (e : Z) : Z :=
  if 0 <=? e then cond_Zopp s (Zpos m * 2 ^ e)
  else (2 * cond_Zopp s (Zpos m) + 2 ^ (- e)) / 2 ^ (1 - e).

(** [Math.round(x)]: the integral Number closest to [x], the one closer to
    +infinity on a tie; NaN, the infinities and the zeros are returned as
    they are, and a result of zero keeps the sign of [x]. *)
Definition Math_round (x : number) : number :=
  match x with
  | S754_finite s m e =>
      if 0 <=? e then x
      else let h := half_up s m e in
           if h =? 0 then S754_zero s else ofZ h
  | _ => x
  end.

End Num.

Export Num.

(** [Number("0.13")], the rate when the environment sets none: the binary64
    nearest to 0.13, 4683743612465316 * 2^-55. *)
Definition HST_RATE_default : number := S754_finite false 4683743612465316 (-55).

(** [Number("0.0875")], the binary64 nearest to 7/80. *)
Definition HST_RATE_0875 : number := S754_finite false 6305039478318694 (-56).

(** ** Catalog, cart lines and totals *)

Record product := Product {
  p_sku : string;
  p_name : string;
  price_cents : number
}.

Definition PRODUCTS : list product :=
  [ Product "burger" "Burger" (ofZ 1000);
    Product "fries"  "Fries"  (ofZ 800);
    Product "coke"   "Coke"   (ofZ 300) ].

(** An element of [req.session.cart]. *)
Record cart_line := CartLine {
  sku : string;
  name : string;
  unit_price_cents : number;
  qty : number
}.

Definition add_qty (q : number) (it : cart_line) : cart_line :=
  CartLine (sku it) (name it) (unit_price_cents it) (add (qty it) q).

Record totals := Totals {
  subtotal : number;
  hst : number;
  total : number
}.

(** The result of [toFixed]: the decimal text, or [Number::toString(x)], kept
    symbolic, for the values [toFixed] hands over to it (NaN, the infinities
    and magnitudes of at least 10^21). *)
Inductive text :=
  | Txt (s : string)
  | ToString (x : number).

Definition decimal (n : Z) : string :=
  NilZero.string_of_uint (N.to_uint (Z.to_N n)).

Definition two_digits (k : Z) : string :=
  if k <? 10 then ("0" ++ decimal k)%string else decimal k.

(** [x.toFixed(2)]: [n] is the integer with [n / 100] closest to [|x|], the
    larger one on a tie. *)
Definition toFixed2 (x : number) : text :=
  match x with
  | S754_zero _ => Txt "0.00"
  | S754_finite s m e =>
      let n := if 0 <=? e then 100 * (Zpos m * 2 ^ e)
               else (200 * Zpos m + 2 ^ (- e)) / 2 ^ (1 - e) in
      let huge := if 0 <=? e then 10 ^ 21 <=? Zpos m * 2 ^ e
                  else 10 ^ 21 * 2 ^ (- e) <=? Zpos m in
      if huge then ToString x
      else Txt ((if s then "-" else "") ++ decimal (n / 100) ++ "." ++ two_digits (n mod 100))
  | _ => ToString x
  end.

Definition money (cents : number) : text := toFixed2 (div cents (ofZ 100)).

Section Totals.

(** [HST_RATE] is read from the environment when the process starts. *)
Variable HST_RATE : number.

Definition computeTotals (items : list cart_line) : totals :=
  let subtotal :=
    fold_left (fun sum it => add sum (mul (unit_price_cents it) (qty it))) items (ofZ 0) in
  let hst := Math_round (mul subtotal HST_RATE) in
  let total := add subtotal hst in
  Totals subtotal hst total.

End Totals.

(** ** Request bodies and [addSchema] *)

(** A parsed JSON request body ([express.json]). *)
#[local] Unset Elimination Schemes.
Inductive json :=
  | JNull
  | JBool (b : bool)
  | JNum (x : number)
  | JStr (s : string)
  | JArr (items : list json)
  | JObj (fields : list (string * json)).
#[local] Set Elimination Schemes.

(** [body[key]]: [None] is [undefined]; a repeated key keeps its last value,
    as [JSON.parse] does. *)
Definition field (key : string) (fields : list (string * json)) : option json :=
  option_map snd (find (fun kv => String.eqb (fst kv) key) (rev fields)).

(** [z.enum(["burger", "fries", "coke"])]. *)
Definition sku_enum : list string := ["burger"; "fries"; "coke"]%string.

Definition parse_sku (v : option json) : option string :=
  match v with
  | Some (JStr s) => if existsb (String.eqb s) sku_enum then Some s else None
  | _ => None
  end.

(** [z.number().int().min(1).max(10).default(1)]: the default replaces an
    input that is [undefined], and only that. *)
Definition parse_qty (v : option json) : option number :=
  match v with
  | None => Some (ofZ 1)
  | Some (JNum x) =>
      match toZ x with
      | Some z => if (1 <=? z) && (z <=? 10) then Some x else None
      | None => None
      end
  | Some _ => None
  end.

(** [addSchema.safeParse(req.body)]: [Some (sku, qty)] is [parsed.data] of a
    success. *)
Definition addSchema (body : json) : option (string * number) :=
  match body with
  | JObj fields =>
      match parse_sku (field "sku" fields), parse_qty (field "qty" fields) with
      | Some s, Some q => Some (s, q)
      | _, _ => None
      end
  | _ => None
  end.

(** ** Session and responses *)

(** [req.session]: [cart] is [undefined] until the first [getCart]. *)
Record session := Session { cart : option (list cart_line) }.

Definition getCart (s : session) : list cart_line * session :=
  match cart s with
  | Some c => (c, s)
  | None => ([], Session (Some []))
  end.

Record cart_view_line := CartViewLine {
  cv_line : cart_line;
  cv_unit_price : text
}.

Record totals_view := TotalsView {
  tv_subtotal : text;
  tv_hst : text;
  tv_total : text;
  tv_hst_rate : number
}.

Record receipt_line := ReceiptLine {
  r_sku : string;
  r_name : string;
  r_qty : number;
  r_unit_price : text;
  r_line_total : text
}.

Record receipt := Receipt {
  r_order_id : Z;
  r_items : list receipt_line;
  r_subtotal : text;
  r_hst_rate : number;
  r_hst : text;
  r_total : text
}.

Inductive response :=
  | RespOk                                   (* { ok: true } *)
  | RespError (status : Z) (error : string)  (* res.status(status).json({ error }) *)
  | RespCart (items : list cart_view_line) (t : totals_view)
  | RespReceipt (r : receipt)
  | RespUncaught.                            (* a synchronous throw: Express answers 500 *)

(** ** Cart handlers *)

(** [GET /api/cart]. *)
Definition get_cart (HST_RATE : number) (s : session) : response * session :=
  let '(c, s1) := getCart s in
  let t := computeTotals HST_RATE c in
  (RespCart (map (fun it => CartViewLine it (money (unit_price_cents it))) c)
            (TotalsView (money (subtotal t)) (money (hst t)) (money (total t)) HST_RATE),
   s1).

(** [existing.qty += qty] on the first line whose sku matches. *)
Fixpoint bump (k : string) (q : number) (c : list cart_line) : list cart_line :=
  match c with
  | [] => []
  | it :: rest =>
      if String.eqb (sku it) k then add_qty q it :: rest
      else it :: bump k q rest
  end.

(** [POST /api/cart/add]. *)
Definition post_cart_add (body : json) (s : session) : response * session :=
  match addSchema body with
  | None => (RespError 400 "invalid_input", s)
  | Some (k, q) =>
      let p := find (fun x => String.eqb (p_sku x) k) PRODUCTS in
      let '(c, s1) := getCart s in
      match find (fun x => String.eqb (sku x) k) c with
      | Some _ => (RespOk, Session (Some (bump k q c)))
      | None =>
          match p with
          | Some p =>
              (RespOk,
               Session (Some (c ++ [CartLine (p_sku p) (p_name p) (price_cents p) q])))
          | None => (RespUncaught, s1)
          end
      end
  end.

(** [POST /api/cart/clear]. *)
Definition post_cart_clear (s : session) : response * session :=
  (RespOk, Session (Some [])).

(** ** The relational store *)

(** A row of [orders]. *)
Record order_row := OrderRow {
  order_id : Z;
  subtotal_cents : number;
  hst_rate : number;
  hst_cents : number;
  total_cents : number
}.

(** A row of [order_items]. *)
Record order_item_row := OrderItemRow {
  oi_order_id : Z;
  oi_sku : string;
  oi_name : string;
  oi_unit_price_cents : number;
  oi_qty : number;
  line_total_cents : number
}.

(** The committed tables, and the next value of the [orders] key. *)
Record database := Database {
  orders : list order_row;
  order_items : list order_item_row;
  next_order_id : Z
}.

(** Modelled from the spec: which calls on the store of [./db] reject (section
    4.3, "any persistence failure"). [f_insert_item k] is the insert of the
    [k]-th cart line, counted from 0. *)
Record faults := Faults {
  f_connect : bool;
  f_begin : bool;
  f_insert_order : bool;
  f_insert_item : nat -> bool;
  f_commit : bool;
  f_rollback : bool
}.

(** Modelled from the spec: a connection of the pool of [./db], with the
    committed tables and the rows written by the open transaction, which
    only that connection sees. *)
Record conn := Conn {
  committed : database;
  tx_orders : list order_row;
  tx_items : list order_item_row
}.

(** An awaited call on the connection: [None] is a rejected promise. *)
Definition Tx (A : Type) : Type := conn -> option A * conn.

Definition ret {A} (a : A) : Tx A := fun c => (Some a, c).

Definition bind {A B} (m : Tx A) (k : A -> Tx B) : Tx B :=
  fun c => match m c with
           | (Some a, c') => k a c'
           | (None, c') => (None, c')
           end.

Declare Scope tx_scope.
Delimit Scope tx_scope with tx.
Notation "x <- m ;; k" := (bind m (fun x => k))
  (at level 61, m at next level, right associativity) : tx_scope.
Notation "m ;; k" := (bind m (fun _ => k))
  (at level 61, right associativity) : tx_scope.

(** Modelled from the spec: [conn.beginTransaction()] of the store of [./db]
    (section 6, "Relational store": begin transaction, parameterized insert
    returning a generated identifier, commit, rollback). A call that fails
    changes nothing. *)
Definition beginTransaction (f : faults) : Tx unit :=
  fun c => if f_begin f then (None, c)
           else (Some tt, Conn (committed c) [] []).

(** Modelled from the spec: the [INSERT INTO orders] of [conn.query], which
    returns the generated key as [insertId]. The row belongs to the open
    transaction; the key comes from a counter that a rollback does not
    rewind. *)
Definition insert_order (f : faults) (sub rate tax tot : number) : Tx Z :=
  fun c =>
    if f_insert_order f then (None, c)
    else
      let db := committed c in
      let id := next_order_id db in
      (Some id,
       Conn (Database (orders db) (order_items db) (id + 1))
            (tx_orders c ++ [OrderRow id sub rate tax tot])
            (tx_items c)).

(** Modelled from the spec: the [INSERT INTO order_items] of [conn.query]. *)
Definition insert_order_item (f : faults) (k : nat) (row : order_item_row) : Tx unit :=
  fun c =>
    if f_insert_item f k then (None, c)
    else (Some tt, Conn (committed c) (tx_orders c) (tx_items c ++ [row])).

(** Modelled from the spec: [conn.commit()], which makes the rows of the
    transaction part of the tables, or fails and publishes none. *)
Definition commit (f : faults) : Tx unit :=
  fun c =>
    if f_commit f then (None, c)
    else
      let db := committed c in
      (Some tt,
       Conn (Database (orders db ++ tx_orders c) (order_items db ++ tx_items c)
                      (next_order_id db))
            [] []).

(** Modelled from the spec: [conn.rollback()], which discards the rows of the
    transaction. *)
Definition rollback (f : faults) : Tx unit :=
  fun c => if f_rollback f then (None, c)
           else (Some tt, Conn (committed c) [] []).

(** Modelled from the spec: [pool.getConnection()]. *)
Definition getConnection (db : database) : conn := Conn db [] [].

(** Modelled from the spec: [conn.release()]; rows that were not committed
    are not part of the tables. *)
Definition release (c : conn) : database := committed c.

(** ** Checkout *)

Open Scope tx_scope.

(** The [for (const it of cart)] loop; [k] is the index of the head of [c]. *)
Fixpoint insert_lines (f : faults) (orderId : Z) (k : nat) (c : list cart_line) : Tx unit :=
  match c with
  | [] => ret tt
  | it :: rest =>
      let lineTotal := mul (unit_price_cents it) (qty it) in
      insert_order_item f k
        (OrderItemRow orderId (sku it) (name it) (unit_price_cents it) (qty it) lineTotal) ;;
      insert_lines f orderId (S k) rest
  end.

(** The body of [try] up to and including [conn.commit()]. *)
Definition checkout_tx (HST_RATE : number) (f : faults)
    (c : list cart_line) (t : totals) : Tx Z :=
  beginTransaction f ;;
  orderId <- insert_order f (subtotal t) HST_RATE (hst t) (total t) ;;
  insert_lines f orderId 0 c ;;
  commit f ;;
  ret orderId.

Close Scope tx_scope.

Definition receipt_of (HST_RATE : number) (orderId : Z)
    (c : list cart_line) (t : totals) : receipt :=
  Receipt orderId
    (map (fun it => ReceiptLine (sku it) (name it) (qty it)
                      (money (unit_price_cents it))
                      (money (mul (unit_price_cents it) (qty it)))) c)
    (money (subtotal t)) HST_RATE (money (hst t)) (money (total t)).

(** The [try] and [catch] blocks of [POST /api/checkout], on the connection
    [cn0]: the response ([None] when [rollback] rejects, so that the promise
    of the handler rejects and it sends nothing itself), whether
    [req.session.cart] was reset, and the connection as [finally] hands it
    to [conn.release()]. *)
Definition checkout_attempt (HST_RATE : number) (f : faults)
    (c : list cart_line) (t : totals) (cn0 : conn) : option response * bool * conn :=
  match checkout_tx HST_RATE f c t cn0 with
  | (Some orderId, cn) =>
      (Some (RespReceipt (receipt_of HST_RATE orderId c t)), true, cn)
  | (None, cn) =>
      match rollback f cn with
      | (Some _, cn') => (Some (RespError 500 "checkout_failed"), false, cn')
      | (None, cn') => (None, false, cn')
      end
  end.

(** [POST /api/checkout]. The response is [None] when the handler's promise
    rejects ([getConnection] or [rollback] failed): the handler then sends
    nothing itself. *)
Definition post_checkout (HST_RATE : number) (f : faults)
    (s : session) (db : database) : option response * session * database :=
  let '(c, s1) := getCart s in
  match c with
  | [] => (Some (RespError 400 "cart_empty"), s1, db)
  | _ :: _ =>
      let t := computeTotals HST_RATE c in
      if f_connect f then (None, s1, db)
      else
        let '(resp, cleared, cn) := checkout_attempt HST_RATE f c t (getConnection db) in
        (resp, if cleared then Session (Some []) else s1, release cn)
  end.

(** ** Integers as Numbers, and the words of the specification *)

(** The binary64 value [(+/-) k] with its mantissa normalised to 53 bits. *)
Definition canon (s : bool) (k : positive) : number :=
  let d := Zpos (digits2_pos k) in
  S754_finite s (Z.to_pos (Zpos k * 2 ^ (53 - d))) (d - 53).

(** [x] is the Number of the integer [z]; a zero may carry either sign. *)
Definition is_int (x : number) (z : Z) : Prop :=
  x = ofZ z \/ (z = 0 /\ x = S754_zero true).

(** A cart line whose unit price and quantity are the integers [fst aq] and
    [snd aq], the price being non-negative and both below [2^53]. *)
Definition int_line (it : cart_line) (aq : Z * Z) : Prop :=
  unit_price_cents it = ofZ (fst aq) /\ qty it = ofZ (snd aq) /\
  0 <= fst aq < 2 ^ 53 /\ Z.abs (snd aq) < 2 ^ 53.

(** The sum over the lines of unit price times quantity, in the integers. *)
Definition sum_products (l : list (Z * Z)) : Z :=
  fold_right (fun aq acc => fst aq * snd aq + acc) 0 l.

Definition sum_magnitudes (l : list (Z * Z)) : Z :=
  fold_right (fun aq acc => Z.abs (fst aq * snd aq) + acc) 0 l.

(** The rational value of a finite Number. *)
Definition toQ (x : number) : option Q :=
  match x with
  | S754_zero _ => Some 0%Q
  | S754_finite s m e => Some (inject_Z (cond_Zopp s (Zpos m)) * Qpower 2 e)%Q
  | _ => None
  end.

(** Round half up, in the words of section 4.1: the nearest integer, the
    greater one when two are as near. *)
Definition round_half_up (v : Q) : Z := Qfloor (v + (1 # 2))%Q.

(** The body of the call [add(sku, quantity)]. *)
Definition add_request (k : string) (q : number) : json :=
  JObj [("sku"%string, JStr k); ("qty"%string, JNum q)].

(** The two errors section 4.2 of the specification gives to [add]. *)
Inductive add_error := UnknownProduct | InvalidQuantity.

(** The rows of [order_items] that reference the order [id]. *)
Definition items_of (db : database) (id : Z) : list order_item_row :=
  filter (fun i => oi_order_id i =? id) (order_items db).

(** The three equations of section 3 of an order and its lines, in integer
    minor units: every stored amount is a Number that is an integer, the
    total is the subtotal plus the tax, the subtotal is the sum of the line
    totals, and every line total is its unit price times its quantity. *)
Definition order_exact (db : database) (o : order_row) : Prop :=
  exists (sub tax : Z) (l : list (Z * Z)),
    toZ (subtotal_cents o) = Some sub /\
    toZ (hst_cents o) = Some tax /\
    toZ (total_cents o) = Some (sub + tax) /\
    Forall2 (fun i aq => toZ (oi_unit_price_cents i) = Some (fst aq) /\
                         toZ (oi_qty i) = Some (snd aq) /\
                         toZ (line_total_cents i) = Some (fst aq * snd aq))
            (items_of db (order_id o)) l /\
    sub = sum_products l.

(** Every order of the store satisfies the equations, and the keys in use
    are below the next key. *)
Definition store_exact (db : database) : Prop :=
  Forall (order_exact db) (orders db) /\
  Forall (fun o => order_id o < next_order_id db) (orders db) /\
  Forall (fun i => oi_order_id i < next_order_id db) (order_items db).

Definition no_faults : faults := Faults false false false (fun _ => false) false false.

(** The rows of [order_items] that the loop of the checkout writes. *)
Definition line_rows (orderId : Z) (c : list cart_line) : list order_item_row :=
  map (fun it => OrderItemRow orderId (sku it) (name it) (unit_price_cents it) (qty it)
                   (mul (unit_price_cents it) (qty it))) c.

(** Some call between [beginTransaction] and [commit] rejects, for a cart of
    [n] lines. *)
Definition tx_fails (f : faults) (n : nat) : Prop :=
  f_begin f = true \/ f_insert_order f = true \/
  (exists j, (j < n)%nat /\ f_insert_item f j = true) \/ f_commit f = true.

Definition tx_succeeds (f : faults) (n : nat) : Prop :=
  f_begin f = false /\ f_insert_order f = false /\
  (forall j, (j < n)%nat -> f_insert_item f j = false) /\ f_commit f = false.

(** The cart of section 8: a burger, a fries and two cokes. *)
Definition sample_cart : list cart_line :=
  [ CartLine "burger" "Burger" (ofZ 1000) (ofZ 1);
    CartLine "fries" "Fries" (ofZ 800) (ofZ 1);
    CartLine "coke" "Coke" (ofZ 300) (ofZ 2) ].

Definition empty_store : database := Database [] [] 1.

(** ** Sessions as sequences of requests *)

(** A body as [express.json] delivers it: its Numbers are binary64 values in
    canonical form. *)
Definition wire_body (body : json) : Prop :=
  match body with
  | JObj fields =>
      Forall (fun kv => match snd kv with
                        | JNum x => valid_binary prec emax x = true
                        | _ => True
                        end) fields
  | _ => True
  end.

Inductive request :=
  | CartView
  | CartAdd (body : json)
  | CartClear
  | Checkout (f : faults).

Definition handle (HST_RATE : number) (w : session * database) (r : request)
    : session * database :=
  match r with
  | CartView => (snd (get_cart HST_RATE (fst w)), snd w)
  | CartAdd body => (snd (post_cart_add body (fst w)), snd w)
  | CartClear => (snd (post_cart_clear (fst w)), snd w)
  | Checkout f =>
      let '(_, s', db') := post_checkout HST_RATE f (fst w) (snd w) in (s', db')
  end.

Definition run (HST_RATE : number) (rs : list request) (w : session * database)
    : session * database :=
  fold_left (handle HST_RATE) rs w.

Definition wire_request (r : request) : Prop :=
  match r with
  | CartAdd body => wire_body body
  | _ => True
  end.

Fixpoint adds (rs : list request) : Z :=
  match rs with
  | [] => 0
  | CartAdd _ :: rest => 1 + adds rest
  | _ :: rest => adds rest
  end.

(** A cart of integer lines with prices of the catalog's range and positive
    quantities, worth at most [bound] cents. *)
Definition cart_within (bound : Z) (c : list cart_line) : Prop :=
  exists l, Forall2 int_line c l /\
            Forall (fun aq => 1 <= fst aq <= 1000 /\ 1 <= snd aq) l /\
            sum_magnitudes l <= bound.

(** ** The catalog listing *)

Record product_view := ProductView {
  pv_product : product;
  pv_price : text
}.

(** [GET /api/products]: every product with its price as text. *)
Definition get_products : list product_view :=
  map (fun p => ProductView p (money (price_cents p))) PRODUCTS.

(** A cart line that carries the sku, the name and the price of a product of
    the catalog. *)
Definition catalog_line (it : cart_line) : Prop :=
  exists p, In p PRODUCTS /\
            sku it = p_sku p /\ name it = p_name p /\
            unit_price_cents it = price_cents p.

(** One line per sku, each line from the catalog. *)
Definition cart_sound (c : list cart_line) : Prop :=
  NoDup (map sku c) /\ Forall catalog_line c.

(** The price, in cents, the catalog gives to a sku. *)
Definition catalog_cents (k : string) : Z :=
  if String.eqb k "burger" then 1000
  else if String.eqb k "fries" then 800
  else if String.eqb k "coke" then 300
  else 0.

(** Dollars, a point and two digits of cents. *)
Definition dollars (c : Z) : text :=
  Txt (decimal (c / 100) ++ "." ++ two_digits (c mod 100)).

(** The store of an order: its ids are distinct, every order has lines and
    every line belongs to an order. *)
Definition store_linked (db : database) : Prop :=
  NoDup (map order_id (orders db)) /\
  Forall (fun o => items_of db (order_id o) <> []) (orders db) /\
  Forall (fun i => In (oi_order_id i) (map order_id (orders db))) (order_items db).

(** The sum of a list of integers. *)
Definition total_of (zs : list Z) : Z := fold_right Z.add 0 zs.

(** A body that [addSchema] accepts: an object whose [sku] is a string of the
    enumeration and whose [qty] is missing or a Number that is an integer
    from 1 to 10. *)
Definition valid_add_body (body : json) : Prop :=
  exists fields k,
    body = JObj fields /\ field "sku" fields = Some (JStr k) /\ In k sku_enum /\
    (field "qty" fields = None \/
     exists x z, field "qty" fields = Some (JNum x) /\ toZ x = Some z /\ 1 <= z <= 10).

(** The number of checkout requests of a sequence. *)
Fixpoint checkouts (rs : list request) : nat :=
  match rs with
  | [] => 0%nat
  | Checkout _ :: rest => S (checkouts rest)
  | _ :: rest => checkouts rest
  end.

(** The lines of a cart response. *)
Definition view_items (r : response) : list cart_view_line :=
  match r with
  | RespCart items _ => items
  | _ => []
  end.

(** Closed side conditions of the examples. *)
Ltac closed_bounds :=
  vm_compute; repeat split; (reflexivity || congruence || discriminate).

Ltac int_lines :=
  repeat (apply Forall2_cons || apply Forall2_nil); closed_bounds.

(** * Properties *)

(** ** Shifting and rounding to 53 bits *)

Section Binary64.

Lemma iter_pos_nat {A} (f : A -> A) (p : positive) (x : A) :
  SpecFloat.iter_pos f p x = Nat.iter (Pos.to_nat p) f x.
Proof.
  revert x; induction p as [p IH | p IH |]; intro x; cbn [SpecFloat.iter_pos].
  - rewrite !IH, Pos2Nat.inj_xI.
    replace (2 * Pos.to_nat p)%nat with (Pos.to_nat p + Pos.to_nat p)%nat by lia.
    rewrite Nat.iter_succ_r, Nat.iter_add. reflexivity.
  - rewrite !IH, Pos2Nat.inj_xO.
    replace (2 * Pos.to_nat p)%nat with (Pos.to_nat p + Pos.to_nat p)%nat by lia.
    rewrite Nat.iter_add. reflexivity.
  - reflexivity.
Qed.

Lemma digits2_pos_bounds (p : positive) :
  2 ^ (Zpos (digits2_pos p) - 1) <= Zpos p < 2 ^ Zpos (digits2_pos p).
Proof.
  induction p as [p IH | p IH |]; simpl digits2_pos.
  - rewrite Pos2Z.inj_succ, Z.pow_succ_r by lia.
    replace (Z.succ (Zpos (digits2_pos p)) - 1) with (Z.succ (Zpos (digits2_pos p) - 1)) by lia.
    rewrite Z.pow_succ_r by lia. lia.
  - rewrite Pos2Z.inj_succ, Z.pow_succ_r by lia.
    replace (Z.succ (Zpos (digits2_pos p)) - 1) with (Z.succ (Zpos (digits2_pos p) - 1)) by lia.
    rewrite Z.pow_succ_r by lia. lia.
  - simpl. lia.
Qed.

(** The number of binary digits of [k] is the [d] with [2^(d-1) <= k < 2^d]. *)
Lemma digits2_pos_unique (p : positive) (d : Z) :
  2 ^ (d - 1) <= Zpos p < 2 ^ d -> Zpos (digits2_pos p) = d.
Proof.
  intros [Hlo Hhi].
  pose proof (digits2_pos_bounds p) as [Hlo' Hhi'].
  assert (0 < d).
  { destruct (Z.lt_ge_cases 0 d) as [|Hd]; [assumption|].
    destruct (Z.eq_dec d 0) as [->|]; [simpl in Hhi; lia|].
    rewrite Z.pow_neg_r in Hhi by lia. lia. }
  destruct (Z.lt_trichotomy (Zpos (digits2_pos p)) d) as [Hlt | [Heq | Hgt]].
  - assert (2 ^ Zpos (digits2_pos p) <= 2 ^ (d - 1)) by (apply Z.pow_le_mono_r; lia). lia.
  - assumption.
  - assert (2 ^ d <= 2 ^ (Zpos (digits2_pos p) - 1)) by (apply Z.pow_le_mono_r; lia). lia.
Qed.

Lemma digits2_pos_shift (p q : positive) (j : Z) :
  0 <= j -> Zpos q = Zpos p * 2 ^ j ->
  Zpos (digits2_pos q) = Zpos (digits2_pos p) + j.
Proof.
  intros Hj Hq. apply digits2_pos_unique.
  pose proof (digits2_pos_bounds p) as [Hlo Hhi].
  rewrite Hq.
  replace (Zpos (digits2_pos p) + j - 1) with ((Zpos (digits2_pos p) - 1) + j) by lia.
  rewrite !Z.pow_add_r by lia.
  assert (0 < 2 ^ j) by (apply Z.pow_pos_nonneg; lia).
  nia.
Qed.

Lemma iter_xO (p d : positive) :
  Zpos (Pos.iter xO p d) = Zpos p * 2 ^ Zpos d.
Proof.
  induction d as [|d IH] using Pos.peano_ind.
  - simpl. lia.
  - rewrite Pos.iter_succ, Pos2Z.inj_succ, Z.pow_succ_r by lia.
    rewrite Pos2Z.inj_xO, IH. ring.
Qed.

(** [k] right shifts of a mantissa whose [k] low bits are zero. *)
Lemma shr_1_exact (m : Z) :
  0 <= m -> m mod 2 = 0 ->
  shr_1 (Build_shr_record m false false) = Build_shr_record (m / 2) false false.
Proof.
  intros Hm Hmod. destruct m as [|p|p]; [reflexivity | | lia].
  destruct p as [p|p|].
  - rewrite Pos2Z.inj_xI in Hmod. exfalso.
    rewrite Z.add_comm, Z.mul_comm, Z.mod_add in Hmod by lia. discriminate.
  - simpl shr_1. f_equal. rewrite Pos2Z.inj_xO, Z.mul_comm, Z.div_mul; lia.
  - discriminate.
Qed.

Lemma shr_iter_exact (k : nat) (m : Z) :
  0 <= m -> m mod 2 ^ Z.of_nat k = 0 ->
  Nat.iter k shr_1 (Build_shr_record m false false)
  = Build_shr_record (m / 2 ^ Z.of_nat k) false false.
Proof.
  revert m; induction k as [|k IH]; intros m Hm Hmod.
  - simpl. rewrite Z.div_1_r. reflexivity.
  - rewrite Nat.iter_succ_r.
    rewrite Nat2Z.inj_succ, Z.pow_succ_r in * by lia.
    assert (Hp : 0 < 2 ^ Z.of_nat k) by (apply Z.pow_pos_nonneg; lia).
    assert (H2 : m mod 2 = 0).
    { apply Z.mod_divide in Hmod; [|lia]. apply Z.mod_divide; [lia|].
      destruct Hmod as [c Hc]. exists (c * 2 ^ Z.of_nat k). lia. }
    rewrite shr_1_exact by assumption.
    rewrite IH.
    + rewrite Z.div_div by lia. reflexivity.
    + apply Z.div_pos; lia.
    + apply Z.mod_divide in Hmod; [|lia]. apply Z.mod_divide; [lia|].
      destruct Hmod as [c Hc]. exists c.
      rewrite Hc. replace (c * (2 * 2 ^ Z.of_nat k)) with (c * 2 ^ Z.of_nat k * 2) by ring.
      rewrite Z.div_mul by lia. reflexivity.
Qed.

Lemma shr_exact (m e n : Z) :
  0 <= m -> 0 <= n -> m mod 2 ^ n = 0 ->
  shr (Build_shr_record m false false) e n
  = (Build_shr_record (m / 2 ^ n) false false, e + n).
Proof.
  intros Hm Hn Hmod. destruct n as [|p|p]; [| | lia].
  - simpl. rewrite Z.div_1_r, Z.add_0_r. reflexivity.
  - unfold shr. rewrite iter_pos_nat.
    rewrite <- (positive_nat_Z p) in Hmod |- * at 1.
    rewrite shr_iter_exact by assumption.
    rewrite positive_nat_Z. reflexivity.
Qed.


Lemma fexp_normal (d : Z) : -1021 <= d -> fexp prec emax d = d - 53.
Proof. intros Hd. unfold fexp, emin, prec, emax. lia. Qed.

(** Rounding a mantissa that carries [k < 2^53] followed by zeros only. *)
Lemma binary_round_aux_exact (s : bool) (m k : positive) (e n : Z) :
  let d := Zpos (digits2_pos k) in
  Zpos k < 2 ^ 53 -> 0 <= n ->
  Zpos m = Zpos k * 2 ^ (53 - d + n) -> e = d - 53 - n ->
  binary_round_aux prec emax s (Zpos m) e loc_Exact = canon s k.
Proof.
  intros d Hk Hn Hm He.
  pose proof (digits2_pos_bounds k) as [Hlo Hhi]. fold d in Hlo, Hhi.
  assert (Hd1 : 1 <= d) by (unfold d; lia).
  assert (Hd53 : d <= 53).
  { destruct (Z.le_gt_cases d 53) as [|Hgt]; [assumption|].
    assert (2 ^ 53 <= 2 ^ (d - 1)) by (apply Z.pow_le_mono_r; lia). lia. }
  assert (Hdm : Zpos (digits2_pos m) = 53 + n).
  { rewrite (digits2_pos_shift k m (53 - d + n)) by (fold d; lia). fold d. lia. }
  set (m' := Zpos k * 2 ^ (53 - d)).
  assert (Hm'pos : 0 < m').
  { unfold m'. assert (0 < 2 ^ (53 - d)) by (apply Z.pow_pos_nonneg; lia). lia. }
  assert (Hmm' : Zpos m = m' * 2 ^ n).
  { rewrite Hm. unfold m'. rewrite Z.pow_add_r by lia. ring. }
  assert (H2n : 0 < 2 ^ n) by (apply Z.pow_pos_nonneg; lia).
  unfold binary_round_aux, shr_fexp.
  cbn [Zdigits2 shr_record_of_loc]. rewrite Hdm.
  replace (53 + n + e) with d by lia.
  rewrite fexp_normal by lia.
  replace (d - 53 - e) with n by lia.
  rewrite shr_exact; [| lia | assumption |].
  2:{ rewrite Hmm'. apply Z.mod_mul. lia. }
  rewrite Hmm', Z.div_mul by lia.
  cbn [shr_m loc_of_shr_record round_nearest_even].
  destruct m' as [|p'|p'] eqn:Em'; [lia | | lia].
  assert (Hdp : Zpos (digits2_pos p') = 53).
  { rewrite (digits2_pos_shift k p' (53 - d)) by (fold d; lia). fold d. lia. }
  cbn [Zdigits2]. rewrite Hdp.
  replace (53 + (e + n)) with d by lia.
  rewrite fexp_normal by lia.
  replace (d - 53 - (e + n)) with 0 by lia.
  cbn [shr shr_m].
  replace (e + n <=? emax - prec) with true
    by (symmetry; apply Z.leb_le; unfold emax, prec; lia).
  unfold canon. fold d. fold m'. rewrite Em'. cbn [Z.to_pos].
  f_equal. lia.
Qed.

Lemma binary_round_exact (s : bool) (m k : positive) (e : Z) :
  Zpos k < 2 ^ 53 -> e <= 0 -> Zpos m = Zpos k * 2 ^ (- e) ->
  binary_round prec emax s m e = canon s k.
Proof.
  intros Hk He Hm.
  pose proof (digits2_pos_bounds k) as [Hlo Hhi].
  set (d := Zpos (digits2_pos k)) in *.
  assert (Hd1 : 1 <= d) by (unfold d; lia).
  assert (Hdm : Zpos (digits2_pos m) = d - e).
  { rewrite (digits2_pos_shift k m (- e)) by lia. fold d. lia. }
  unfold binary_round. rewrite Hdm.
  replace (d - e + e) with d by lia.
  rewrite fexp_normal by lia.
  unfold shl_align.
  destruct (d - 53 - e) as [|p|p] eqn:Esh.
  - apply (binary_round_aux_exact s m k e 0); fold d; try lia.
    rewrite Hm. do 2 f_equal. lia.
  - apply (binary_round_aux_exact s m k e (Zpos p)); fold d; try lia.
    rewrite Hm. do 2 f_equal. lia.
  - apply (binary_round_aux_exact s (Pos.iter xO m p) k (d - 53) 0); fold d; try lia.
    rewrite iter_xO, Hm, <- Z.mul_assoc, <- Z.pow_add_r by lia.
    f_equal. f_equal. lia.
Qed.

(** An integer below [2^53] in magnitude is a Number, in canonical form. *)
Lemma ofZ_pos (k : positive) :
  Zpos k < 2 ^ 53 -> ofZ (Zpos k) = canon false k.
Proof.
  intros Hk. unfold ofZ, binary_normalize.
  apply binary_round_exact; [assumption | lia | simpl; lia].
Qed.

Lemma ofZ_neg (k : positive) :
  Zpos k < 2 ^ 53 -> ofZ (Zneg k) = canon true k.
Proof.
  intros Hk. unfold ofZ, binary_normalize.
  apply binary_round_exact; [assumption | lia | simpl; lia].
Qed.


Lemma digits_le_53 (k : positive) :
  Zpos k < 2 ^ 53 -> 1 <= Zpos (digits2_pos k) <= 53.
Proof.
  intros Hk. pose proof (digits2_pos_bounds k) as [Hlo Hhi].
  split; [lia|].
  destruct (Z.le_gt_cases (Zpos (digits2_pos k)) 53) as [|Hgt]; [assumption|].
  assert (2 ^ 53 <= 2 ^ (Zpos (digits2_pos k) - 1)) by (apply Z.pow_le_mono_r; lia). lia.
Qed.

Lemma canon_mantissa (k : positive) :
  Zpos k < 2 ^ 53 ->
  Zpos (Z.to_pos (Zpos k * 2 ^ (53 - Zpos (digits2_pos k))))
  = Zpos k * 2 ^ (53 - Zpos (digits2_pos k)).
Proof.
  intros Hk. pose proof (digits_le_53 k Hk).
  assert (0 < 2 ^ (53 - Zpos (digits2_pos k))) by (apply Z.pow_pos_nonneg; lia).
  rewrite Z2Pos.id; lia.
Qed.

Lemma toZ_canon (s : bool) (k : positive) :
  Zpos k < 2 ^ 53 -> toZ (canon s k) = Some (cond_Zopp s (Zpos k)).
Proof.
  intros Hk. pose proof (digits_le_53 k Hk) as Hd.
  unfold canon, toZ. rewrite canon_mantissa by assumption.
  set (d := Zpos (digits2_pos k)) in *.
  assert (0 < 2 ^ (53 - d)) by (apply Z.pow_pos_nonneg; lia).
  destruct (0 <=? d - 53) eqn:E.
  - apply Z.leb_le in E. replace (53 - d) with 0 by lia.
    replace (d - 53) with 0 by lia. simpl (2 ^ 0). rewrite !Z.mul_1_r. reflexivity.
  - replace (- (d - 53)) with (53 - d) by lia.
    rewrite Z.mod_mul by lia. rewrite Z.eqb_refl, Z.div_mul by lia. reflexivity.
Qed.

Lemma ofZ_canon (z : Z) :
  z <> 0 -> Z.abs z < 2 ^ 53 -> ofZ z = canon (z <? 0) (Z.to_pos (Z.abs z)).
Proof.
  intros Hz Hb. destruct z as [|p|p]; [congruence | |].
  - apply ofZ_pos. exact Hb.
  - apply ofZ_neg. exact Hb.
Qed.

(** Every integer below [2^53] in magnitude is represented exactly. *)
Lemma toZ_ofZ (z : Z) : Z.abs z < 2 ^ 53 -> toZ (ofZ z) = Some z.
Proof.
  intros Hb. destruct z as [|p|p]; [reflexivity | |].
  - rewrite ofZ_pos by exact Hb. apply toZ_canon. exact Hb.
  - rewrite ofZ_neg by exact Hb. apply toZ_canon. exact Hb.
Qed.

Lemma digits_mul_lower (a b : positive) :
  Zpos (digits2_pos a) + Zpos (digits2_pos b) - 1 <= Zpos (digits2_pos (a * b)).
Proof.
  pose proof (digits2_pos_bounds a) as [Ha _].
  pose proof (digits2_pos_bounds b) as [Hb _].
  pose proof (digits2_pos_bounds (a * b)) as [_ Hab].
  rewrite Pos2Z.inj_mul in Hab.
  set (da := Zpos (digits2_pos a)) in *. set (db := Zpos (digits2_pos b)) in *.
  set (dab := Zpos (digits2_pos (a * b))) in *.
  assert (1 <= da) by (unfold da; lia). assert (1 <= db) by (unfold db; lia).
  assert (Hlow : 2 ^ (da - 1 + (db - 1)) <= Zpos a * Zpos b).
  { rewrite Z.pow_add_r by lia.
    assert (0 < 2 ^ (da - 1)) by (apply Z.pow_pos_nonneg; lia).
    assert (0 < 2 ^ (db - 1)) by (apply Z.pow_pos_nonneg; lia). nia. }
  assert (Hlt : 2 ^ (da - 1 + (db - 1)) < 2 ^ dab) by lia.
  apply Z.pow_lt_mono_r_iff in Hlt; [lia | lia | unfold dab; lia].
Qed.

Lemma mul_canon (sa sb : bool) (ka kb : positive) :
  Zpos ka * Zpos kb < 2 ^ 53 ->
  mul (canon sa ka) (canon sb kb) = canon (xorb sa sb) (ka * kb).
Proof.
  intros Hb.
  assert (Hka : Zpos ka < 2 ^ 53) by nia.
  assert (Hkb : Zpos kb < 2 ^ 53) by nia.
  pose proof (digits_le_53 ka Hka) as Hda.
  pose proof (digits_le_53 kb Hkb) as Hdb.
  assert (Hkab : Zpos (ka * kb) < 2 ^ 53) by (rewrite Pos2Z.inj_mul; exact Hb).
  pose proof (digits_le_53 _ Hkab) as Hdab.
  pose proof (digits_mul_lower ka kb) as Hlow.
  unfold mul, canon at 1 2, SFmul.
  set (da := Zpos (digits2_pos ka)) in *. set (db := Zpos (digits2_pos kb)) in *.
  set (dab := Zpos (digits2_pos (ka * kb))) in *.
  apply (binary_round_aux_exact _ _ (ka * kb) _ (dab + 53 - da - db)); fold dab.
  - exact Hkab.
  - lia.
  - rewrite Pos2Z.inj_mul. unfold da, db. rewrite !canon_mantissa by assumption.
    fold da db. rewrite Pos2Z.inj_mul.
    replace (53 - dab + (dab + 53 - da - db)) with ((53 - da) + (53 - db)) by lia.
    rewrite Z.pow_add_r by lia. ring.
  - lia.
Qed.

Lemma shl_align_fst (m : positive) (e e' : Z) :
  e' <= e -> Zpos (fst (shl_align m e e')) = Zpos m * 2 ^ (e - e').
Proof.
  intros He. unfold shl_align.
  destruct (e' - e) as [|p|p] eqn:E; cbn [fst].
  - replace (e - e') with 0 by lia. simpl. lia.
  - lia.
  - rewrite iter_xO. do 2 f_equal. lia.
Qed.

Lemma add_canon (sa sb : bool) (ka kb : positive) :
  Zpos ka < 2 ^ 53 -> Zpos kb < 2 ^ 53 ->
  Z.abs (cond_Zopp sa (Zpos ka) + cond_Zopp sb (Zpos kb)) < 2 ^ 53 ->
  add (canon sa ka) (canon sb kb)
  = ofZ (cond_Zopp sa (Zpos ka) + cond_Zopp sb (Zpos kb)).
Proof.
  intros Hka Hkb Hsum.
  pose proof (digits_le_53 ka Hka) as Hda.
  pose proof (digits_le_53 kb Hkb) as Hdb.
  unfold add, canon, SFadd.
  set (da := Zpos (digits2_pos ka)) in *. set (db := Zpos (digits2_pos kb)) in *.
  set (ez := Z.min (da - 53) (db - 53)).
  assert (Hez : ez <= 0) by (unfold ez; lia).
  rewrite !shl_align_fst by (unfold ez; lia).
  unfold da, db. rewrite !canon_mantissa by assumption. fold da db.
  rewrite <- !Z.mul_assoc, <- !Z.pow_add_r by (unfold ez; lia).
  replace (53 - da + (da - 53 - ez)) with (- ez) by lia.
  replace (53 - db + (db - 53 - ez)) with (- ez) by lia.
  set (za := cond_Zopp sa (Zpos ka)) in *. set (zb := cond_Zopp sb (Zpos kb)) in *.
  assert (H2 : 0 < 2 ^ (- ez)) by (apply Z.pow_pos_nonneg; lia).
  replace (cond_Zopp sa (Zpos ka * 2 ^ (- ez)) + cond_Zopp sb (Zpos kb * 2 ^ (- ez)))
    with ((za + zb) * 2 ^ (- ez))
    by (unfold za, zb; destruct sa, sb; cbn [cond_Zopp]; ring).
  destruct (za + zb) as [|p|p] eqn:Ez.
  - reflexivity.
  - rewrite ofZ_pos by exact Hsum.
    destruct (Zpos p * 2 ^ (- ez)) as [|q|q] eqn:Eq; [lia | | lia].
    cbn [binary_normalize]. apply binary_round_exact; [exact Hsum | exact Hez | symmetry; exact Eq].
  - rewrite ofZ_neg by exact Hsum.
    destruct (Zneg p * 2 ^ (- ez)) as [|q|q] eqn:Eq; [lia | lia |].
    cbn [binary_normalize]. apply binary_round_exact; [exact Hsum | exact Hez |].
    lia.
Qed.


Lemma cond_Zopp_abs (z : Z) : cond_Zopp (z <? 0) (Z.abs z) = z.
Proof. destruct z; reflexivity. Qed.

Lemma mul_ofZ (a b : Z) :
  Z.abs a < 2 ^ 53 -> Z.abs b < 2 ^ 53 -> Z.abs (a * b) < 2 ^ 53 ->
  is_int (mul (ofZ a) (ofZ b)) (a * b).
Proof.
  intros Ha Hb Hab.
  destruct (Z.eq_dec a 0) as [->|Na].
  { destruct b as [|p|p].
    - left; reflexivity.
    - left. rewrite ofZ_pos by exact Hb. reflexivity.
    - right. rewrite ofZ_neg by exact Hb. split; reflexivity. }
  destruct (Z.eq_dec b 0) as [->|Nb].
  { rewrite Z.mul_0_r. destruct a as [|p|p]; [congruence | |].
    - left. rewrite ofZ_pos by exact Ha. reflexivity.
    - right. rewrite ofZ_neg by exact Ha. split; reflexivity. }
  left.
  rewrite (ofZ_canon a), (ofZ_canon b), (ofZ_canon (a * b)) by (assumption || lia).
  rewrite mul_canon.
  - f_equal.
    + destruct a, b; try congruence; reflexivity.
    + rewrite Z.abs_mul. rewrite Z2Pos.inj_mul by lia. reflexivity.
  - rewrite !Z2Pos.id by lia. rewrite <- Z.abs_mul. exact Hab.
Qed.

Lemma add_ofZ (a b : Z) :
  Z.abs a < 2 ^ 53 -> Z.abs b < 2 ^ 53 -> Z.abs (a + b) < 2 ^ 53 ->
  add (ofZ a) (ofZ b) = ofZ (a + b).
Proof.
  intros Ha Hb Hab.
  destruct (Z.eq_dec a 0) as [->|Na].
  { rewrite Z.add_0_l. destruct b as [|p|p]; [reflexivity | |].
    - rewrite ofZ_pos by exact Hb. reflexivity.
    - rewrite ofZ_neg by exact Hb. reflexivity. }
  destruct (Z.eq_dec b 0) as [->|Nb].
  { rewrite Z.add_0_r. destruct a as [|p|p]; [congruence | |].
    - rewrite ofZ_pos by exact Ha. reflexivity.
    - rewrite ofZ_neg by exact Ha. reflexivity. }
  rewrite (ofZ_canon a), (ofZ_canon b) by assumption.
  rewrite add_canon; rewrite ?Z2Pos.id, ?cond_Zopp_abs by lia; try assumption.
  reflexivity.
Qed.

Lemma add_is_int (u v : Z) (y : number) :
  is_int y v ->
  Z.abs u < 2 ^ 53 -> Z.abs v < 2 ^ 53 -> Z.abs (u + v) < 2 ^ 53 ->
  add (ofZ u) y = ofZ (u + v).
Proof.
  intros [-> | [-> ->]] Hu Hv Huv.
  - apply add_ofZ; assumption.
  - rewrite Z.add_0_r. destruct u as [|p|p]; [reflexivity | |].
    + rewrite ofZ_pos by exact Hu. reflexivity.
    + rewrite ofZ_neg by exact Hu. reflexivity.
Qed.

End Binary64.

(** ** Rounding a product to 53 bits *)

Section Rounding.

Lemma shr_1_spec (m : Z) (r s : bool) :
  0 <= m ->
  shr_1 (Build_shr_record m r s) = Build_shr_record (m / 2) (Z.odd m) (r || s).
Proof.
  intros Hm. destruct m as [|p|p]; [reflexivity | | lia].
  destruct p as [p|p|]; cbn [shr_1].
  - f_equal. rewrite Pos2Z.inj_xI. symmetry.
    rewrite Z.add_comm, Z.mul_comm, Z.div_add by lia. reflexivity.
  - f_equal. rewrite Pos2Z.inj_xO. symmetry.
    rewrite Z.mul_comm, Z.div_mul by lia. reflexivity.
  - reflexivity.
Qed.

(** [k + 1] right shifts: the quotient, the last bit shifted out, and
    whether a bit shifted out before it was set. *)
Lemma shr_iter_spec (k : nat) (m : Z) :
  0 <= m ->
  Nat.iter (S k) shr_1 (Build_shr_record m false false)
  = Build_shr_record (m / 2 ^ Z.of_nat (S k)) (Z.testbit m (Z.of_nat k))
                     (negb (m mod 2 ^ Z.of_nat k =? 0)).
Proof.
  intros Hm. induction k as [|k IH].
  - cbn [Nat.iter]. rewrite shr_1_spec by assumption.
    change (Z.of_nat 1) with 1. change (Z.of_nat 0) with 0.
    rewrite Z.pow_1_r, Z.bit0_odd, Z.pow_0_r, Z.mod_1_r. reflexivity.
  - change (Nat.iter (S (S k)) shr_1 ?x) with (shr_1 (Nat.iter (S k) shr_1 x)).
    rewrite IH.
    assert (Hp : 0 < 2 ^ Z.of_nat (S k)) by (apply Z.pow_pos_nonneg; lia).
    assert (Hp' : 0 < 2 ^ Z.of_nat k) by (apply Z.pow_pos_nonneg; lia).
    rewrite shr_1_spec by (apply Z.div_pos; lia).
    f_equal.
    + rewrite Z.div_div by lia.
      rewrite (Nat2Z.inj_succ (S k)), Z.pow_succ_r by lia.
      f_equal. ring.
    + rewrite Z.testbit_odd, Z.shiftr_div_pow2 by lia. reflexivity.
    + rewrite (Nat2Z.inj_succ k), Z.pow_succ_r by lia.
      rewrite (Z.mul_comm 2), Z.rem_mul_r by lia.
      rewrite <- Z.testbit_spec' by lia.
      destruct (Z.testbit m (Z.of_nat k)); cbn [Z.b2z orb].
      * pose proof (Z.mod_pos_bound m (2 ^ Z.of_nat k) Hp').
        symmetry. apply negb_true_iff, Z.eqb_neq. lia.
      * rewrite Z.mul_0_r, Z.add_0_r. reflexivity.
Qed.

Lemma shr_spec (m e n : Z) :
  0 <= m -> 0 < n ->
  shr (Build_shr_record m false false) e n
  = (Build_shr_record (m / 2 ^ n) (Z.testbit m (n - 1)) (negb (m mod 2 ^ (n - 1) =? 0)),
     e + n).
Proof.
  intros Hm Hn. destruct n as [|p|p]; try lia.
  unfold shr. rewrite iter_pos_nat.
  destruct (Pos.to_nat p) as [|k] eqn:Ek; [lia|].
  rewrite shr_iter_spec by assumption.
  assert (Hk : Z.of_nat k = Zpos p - 1) by lia.
  assert (Hk' : Z.of_nat (S k) = Zpos p) by lia.
  rewrite Hk, Hk'. reflexivity.
Qed.

Lemma testbit_high_remainder (m n : Z) :
  0 <= m -> 0 < n -> Z.testbit m (n - 1) = true -> 2 ^ n <= 2 * (m mod 2 ^ n).
Proof.
  intros Hm Hn Hb.
  assert (Hp : 0 < 2 ^ (n - 1)) by (apply Z.pow_pos_nonneg; lia).
  replace n with (Z.succ (n - 1)) at 1 2 by lia.
  rewrite Z.pow_succ_r by lia.
  rewrite (Z.mul_comm 2 (2 ^ (n - 1))), Z.rem_mul_r by lia.
  rewrite <- Z.testbit_spec', Hb by lia. cbn [Z.b2z].
  pose proof (Z.mod_pos_bound m (2 ^ (n - 1)) Hp). lia.
Qed.

Lemma round_nearest_even_bounds (q : Z) (r s : bool) :
  let q' := round_nearest_even q (loc_of_shr_record (Build_shr_record q r s)) in
  q <= q' <= q + 1 /\ (q' = q + 1 -> r = true).
Proof.
  destruct r, s; cbn [loc_of_shr_record round_nearest_even];
    try destruct (Z.even q); split; (lia || auto || (intros; lia)).
Qed.

(** The rounding of an exact mantissa of more than 53 bits, in the range of
    the normal numbers: [M1] is the rounded mantissa at the exponent
    [e + n], at most half a unit away from [m / 2^n]. *)
Lemma binary_round_aux_normal (s : bool) (m : positive) (e : Z) :
  let n := Zpos (digits2_pos m) - 53 in
  0 < n -> -1074 <= e + n -> e + n < 971 ->
  exists m1 e1 M1,
    binary_round_aux prec emax s (Zpos m) e loc_Exact = S754_finite s m1 e1 /\
    Zpos m1 < 2 ^ 53 /\ e + n <= e1 <= e + n + 1 /\
    M1 = Zpos m1 * 2 ^ (e1 - (e + n)) /\
    Zpos m / 2 ^ n <= M1 <= Zpos m / 2 ^ n + 1 /\
    2 ^ n * (2 * M1) <= 2 * Zpos m + 2 ^ n.
Proof.
  intros n Hn Hlo Hhi.
  pose proof (digits2_pos_bounds m) as [Hdlo Hdhi].
  set (d := Zpos (digits2_pos m)) in *.
  assert (Hd : d = 53 + n) by (unfold n; lia).
  assert (H2n : 0 < 2 ^ n) by (apply Z.pow_pos_nonneg; lia).
  set (q := Zpos m / 2 ^ n).
  assert (Hq : 2 ^ 52 <= q < 2 ^ 53).
  { unfold q. rewrite Hd in Hdlo, Hdhi.
    replace (53 + n - 1) with (52 + n) in Hdlo by lia.
    rewrite Z.pow_add_r in Hdlo, Hdhi by lia. split.
    - apply Z.div_le_lower_bound; lia.
    - apply Z.div_lt_upper_bound; lia. }
  assert (H1 : shr_fexp prec emax (Zpos m) e loc_Exact
               = (Build_shr_record q (Z.testbit (Zpos m) (n - 1))
                                   (negb (Zpos m mod 2 ^ (n - 1) =? 0)), e + n)).
  { unfold shr_fexp. cbn [Zdigits2 shr_record_of_loc]. fold d.
    rewrite fexp_normal by lia.
    replace (d + e - 53 - e) with n by lia. apply shr_spec; lia. }
  unfold binary_round_aux. rewrite H1. cbn [shr_m].
  pose proof (round_nearest_even_bounds q (Z.testbit (Zpos m) (n - 1))
                (negb (Zpos m mod 2 ^ (n - 1) =? 0))) as [Hq' Hup].
  set (q' := round_nearest_even q _) in *.
  assert (Hmod : Zpos m = 2 ^ n * q + Zpos m mod 2 ^ n) by (apply Z.div_mod; lia).
  pose proof (Z.mod_pos_bound (Zpos m) (2 ^ n) H2n) as Hr.
  assert (Herr : 2 ^ n * (2 * q') <= 2 * Zpos m + 2 ^ n).
  { destruct (Z.eq_dec q' (q + 1)) as [Hq1 | Hq1].
    - pose proof (testbit_high_remainder (Zpos m) n ltac:(lia) Hn (Hup Hq1)). nia.
    - assert (q' = q) by lia. nia. }
  destruct q' as [|p'|p'] eqn:Eq'; [lia | | lia].
  destruct (Z.eq_dec (Zpos p') (2 ^ 53)) as [Htop | Htop].
  - (* the mantissa overflowed to 2^53: one more shift *)
    assert (Hdp : Zpos (digits2_pos p') = 54).
    { apply digits2_pos_unique. rewrite Htop. split; [reflexivity | lia]. }
    assert (H2 : shr_fexp prec emax (Zpos p') (e + n) loc_Exact
                 = (Build_shr_record (2 ^ 52) false false, e + n + 1)).
    { unfold shr_fexp. cbn [Zdigits2 shr_record_of_loc]. rewrite Hdp.
      rewrite fexp_normal by lia.
      replace (54 + (e + n) - 53 - (e + n)) with 1 by lia.
      rewrite shr_spec by lia. rewrite Htop. reflexivity. }
    rewrite H2. cbn [shr_m].
    change (2 ^ 52) with (Zpos 4503599627370496). cbv iota.
    replace (e + n + 1 <=? emax - prec) with true
      by (symmetry; apply Z.leb_le; unfold emax, prec; lia).
    exists 4503599627370496%positive, (e + n + 1), (2 ^ 53).
    repeat split; try lia.
    replace (e + n + 1 - (e + n)) with 1 by lia. reflexivity.
  - assert (Hdp : Zpos (digits2_pos p') = 53).
    { apply digits2_pos_unique. lia. }
    assert (H2 : shr_fexp prec emax (Zpos p') (e + n) loc_Exact
                 = (Build_shr_record (Zpos p') false false, e + n)).
    { unfold shr_fexp. cbn [Zdigits2 shr_record_of_loc]. rewrite Hdp.
      rewrite fexp_normal by lia.
      replace (53 + (e + n) - 53 - (e + n)) with 0 by lia. reflexivity. }
    rewrite H2. cbn [shr_m].
    replace (e + n <=? emax - prec) with true
      by (symmetry; apply Z.leb_le; unfold emax, prec; lia).
    exists p', (e + n), (Zpos p').
    repeat split; try lia.
    replace (e + n - (e + n)) with 0 by lia. simpl. lia.
Qed.

Lemma fexp_lower (x : Z) : x - 53 <= fexp prec emax x.
Proof. unfold fexp, prec. lia. Qed.

(** Whatever comes in, [shr_fexp] leaves a mantissa of at most 53 bits. *)
Lemma shr_fexp_mantissa (z e : Z) :
  0 <= z ->
  0 <= shr_m (fst (shr_fexp prec emax z e loc_Exact)) < 2 ^ 53 /\
  shr_m (fst (shr_fexp prec emax z e loc_Exact)) <= z.
Proof.
  intros Hz. unfold shr_fexp. cbn [shr_record_of_loc].
  set (n := fexp prec emax (Zdigits2 z + e) - e).
  assert (Hn : Zdigits2 z - 53 <= n) by (unfold n; pose proof (fexp_lower (Zdigits2 z + e)); lia).
  assert (Hdig : z < 2 ^ Zdigits2 z).
  { destruct z as [|p|p]; [reflexivity | | lia].
    cbn [Zdigits2]. apply digits2_pos_bounds. }
  assert (Hdnn : 0 <= Zdigits2 z) by (destruct z; cbn [Zdigits2]; lia).
  destruct (Z.lt_ge_cases 0 n) as [Hpos | Hneg].
  - rewrite shr_spec by assumption. cbn [fst shr_m].
    assert (H2n : 0 < 2 ^ n) by (apply Z.pow_pos_nonneg; lia).
    assert (z < 2 ^ (53 + n)).
    { eapply Z.lt_le_trans; [exact Hdig|]. apply Z.pow_le_mono_r; lia. }
    rewrite Z.pow_add_r in H by lia.
    repeat split.
    + apply Z.div_pos; lia.
    + apply Z.div_lt_upper_bound; lia.
    + apply Z.div_le_upper_bound; nia.
  - assert (Hsh : shr (Build_shr_record z false false) e n
                  = (Build_shr_record z false false, e)).
    { unfold shr. destruct n; try reflexivity; lia. }
    rewrite Hsh. cbn [fst shr_m]. repeat split; try lia.
    eapply Z.lt_le_trans; [exact Hdig|]. apply Z.pow_le_mono_r; lia.
Qed.

Lemma binary_round_aux_mantissa (s s' : bool) (m m' : positive) (e e' : Z) :
  binary_round_aux prec emax s (Zpos m) e loc_Exact = S754_finite s' m' e' ->
  Zpos m' < 2 ^ 53.
Proof.
  unfold binary_round_aux.
  destruct (shr_fexp prec emax (Zpos m) e loc_Exact) as [mrs1 e1] eqn:E1.
  pose proof (shr_fexp_mantissa (Zpos m) e ltac:(lia)) as [[H1 _] _].
  rewrite E1 in H1. cbn [fst] in H1.
  assert (Hz : 0 <= round_nearest_even (shr_m mrs1) (loc_of_shr_record mrs1)).
  { destruct mrs1 as [q r t]. cbn [shr_m] in *.
    pose proof (round_nearest_even_bounds q r t) as [Hb _]. cbv zeta in Hb. lia. }
  pose proof (shr_fexp_mantissa _ e1 Hz) as [[_ H2] _].
  destruct (shr_fexp prec emax (round_nearest_even _ _) e1 loc_Exact) as [mrs2 e2].
  cbn [fst] in H2.
  destruct (shr_m mrs2) as [|p|p]; try discriminate.
  destruct (e2 <=? emax - prec); [|discriminate].
  intros [= _ <- _]. exact H2.
Qed.

(** A finite product has a mantissa of at most 53 bits. *)
Lemma mul_mantissa (x y : number) (s : bool) (m : positive) (e : Z) :
  mul x y = S754_finite s m e -> Zpos m < 2 ^ 53.
Proof.
  unfold mul, SFmul.
  destruct x as [sx|sx| |sx mx ex], y as [sy|sy| |sy my ey]; try discriminate.
  apply binary_round_aux_mantissa.
Qed.

End Rounding.

(** ** [Math.round] *)

Lemma Qpower_2_neg (k : Z) :
  (0 <= k)%Z -> (Qpower 2 (- k) == / inject_Z (2 ^ k))%Q.
Proof.
  intros Hk. rewrite Qpower_opp. apply Qinv_comp.
  symmetry. apply (Zpower_Qpower 2 k Hk).
Qed.

Lemma half_up_bound (s : bool) (m : positive) (e : Z) :
  Zpos m < 2 ^ 53 -> e < 0 -> Z.abs (half_up s m e) < 2 ^ 53.
Proof.
  intros Hm He. unfold half_up.
  replace (0 <=? e) with false by (symmetry; apply Z.leb_gt; lia).
  set (k := - e). assert (Hk : 1 <= k) by (unfold k; lia).
  replace (1 - e) with (Z.succ k) by (unfold k; lia).
  rewrite Z.pow_succ_r by lia.
  assert (H2k : 2 <= 2 ^ k).
  { change 2 with (2 ^ 1) at 1. apply Z.pow_le_mono_r; lia. }
  set (sm := cond_Zopp s (Zpos m)).
  assert (Hsm : - 2 ^ 53 < sm < 2 ^ 53) by (unfold sm; destruct s; cbn [cond_Zopp]; lia).
  assert (Hlo : - 2 ^ 52 <= (2 * sm + 2 ^ k) / (2 * 2 ^ k)).
  { apply Z.div_le_lower_bound; [lia | nia]. }
  assert (Hhi : (2 * sm + 2 ^ k) / (2 * 2 ^ k) <= 2 ^ 52).
  { apply Z.div_le_upper_bound; [lia | nia]. }
  lia.
Qed.

(** [Math.round] rounds half up: on a finite Number of value [v] it returns
    the integer [floor (v + 1/2)]. *)
Lemma Math_round_half_up (x : number) (v : Q) :
  (forall s m e, x = S754_finite s m e -> Zpos m < 2 ^ 53) ->
  toQ x = Some v ->
  toZ (Math_round x) = Some (round_half_up v).
Proof.
  intros Hvalid Hv. destruct x as [s|s| |s m e]; try discriminate.
  - injection Hv as <-. reflexivity.
  - injection Hv as <-. specialize (Hvalid s m e eq_refl).
    set (sm := cond_Zopp s (Zpos m)).
    cbn [Math_round]. destruct (0 <=? e) eqn:Ee.
    + apply Z.leb_le in Ee. cbn [toZ]. rewrite (proj2 (Z.leb_le 0 e) Ee).
      f_equal. unfold round_half_up.
      assert (Hq : (inject_Z sm * Qpower 2 e + (1 # 2)
                    == inject_Z (2 * (sm * 2 ^ e) + 1) / inject_Z 2)%Q).
      { rewrite inject_Z_plus, !inject_Z_mult, (Zpower_Qpower 2 e Ee).
        change (inject_Z 2) with 2%Q. change (inject_Z 1) with 1%Q. field. }
      rewrite Hq, <- Zdiv_Qdiv.
      replace (cond_Zopp s (Zpos m * 2 ^ e)) with (sm * 2 ^ e)
        by (unfold sm; destruct s; cbn [cond_Zopp]; ring).
      replace (2 * (sm * 2 ^ e) + 1) with (sm * 2 ^ e * 2 + 1) by ring.
      rewrite Z.div_add_l by lia. change (1 / 2) with 0. lia.
    + apply Z.leb_gt in Ee.
      assert (Hh : half_up s m e = round_half_up (inject_Z sm * Qpower 2 e)).
      { unfold half_up, round_half_up.
        replace (0 <=? e) with false by (symmetry; apply Z.leb_gt; lia).
        fold sm. set (k := - e). assert (Hk : 0 <= k) by (unfold k; lia).
        replace e with (- k) at 2 by (unfold k; lia).
        replace (1 - e) with (Z.succ k) by (unfold k; lia).
        rewrite Z.pow_succ_r by lia.
        assert (H2k : 0 < 2 ^ k) by (apply Z.pow_pos_nonneg; lia).
        assert (Hq : (inject_Z sm * Qpower 2 (- k) + (1 # 2)
                      == inject_Z (2 * sm + 2 ^ k) / inject_Z (2 * 2 ^ k))%Q).
        { rewrite Qpower_2_neg by exact Hk.
          rewrite inject_Z_plus, !inject_Z_mult.
          change (inject_Z 2) with 2%Q.
          assert (Hnz : ~ (inject_Z (2 ^ k) == 0)%Q).
          { intros H0. change 0%Q with (inject_Z 0) in H0.
            apply (proj1 (inject_Z_injective _ _)) in H0. lia. }
          field. exact Hnz. }
        rewrite Hq, <- Zdiv_Qdiv. reflexivity. }
      rewrite <- Hh.
      destruct (half_up s m e =? 0) eqn:E0.
      * apply Z.eqb_eq in E0. rewrite E0. reflexivity.
      * apply toZ_ofZ. apply half_up_bound; assumption.
Qed.

(** ** The tax at the default rate *)

(** [HST_RATE_default] is the binary64 nearest to 13/100: the quotient of the
    Numbers 13 and 100, 16 / (100 * 2^55) above 13/100. *)
Lemma HST_RATE_default_value :
  div (ofZ 13) (ofZ 100) = HST_RATE_default /\
  100 * 4683743612465316 = 13 * 2 ^ 55 + 16.
Proof. split; vm_compute; reflexivity. Qed.

(** With the rate 0.13 and a subtotal of at most 2^48 cents, the rounding of
    the binary64 product never moves the tax: it is 13 % of the subtotal,
    rounded half up. *)
Lemma hst_default_exact (s : Z) :
  0 <= s <= 2 ^ 48 ->
  Math_round (mul (ofZ s) HST_RATE_default) = ofZ ((13 * s + 50) / 100).
Proof.
  intros [Hs0 Hs48].
  destruct (Z.eq_dec s 0) as [-> | Hsnz]; [reflexivity|].
  set (T := (13 * s + 50) / 100).
  assert (HT : 100 * T <= 13 * s + 50 < 100 * T + 100).
  { unfold T. pose proof (Z.div_mod (13 * s + 50) 100 ltac:(lia)).
    pose proof (Z.mod_pos_bound (13 * s + 50) 100 ltac:(lia)). lia. }
  destruct s as [|p|p]; try lia.
  rewrite ofZ_pos by lia.
  pose proof (digits_le_53 p ltac:(lia)) as Hds.
  pose proof (digits2_pos_bounds p) as [Hplo Hphi].
  set (ds := Zpos (digits2_pos p)) in *.
  assert (Hds49 : ds <= 49).
  { destruct (Z.le_gt_cases ds 49) as [|Hgt]; [assumption|].
    assert (2 ^ 49 <= 2 ^ (ds - 1)) by (apply Z.pow_le_mono_r; lia). lia. }
  set (W := 2 ^ (53 - ds)).
  set (Y := 2 ^ (ds - 1)) in *.
  assert (HW : 0 < W) by (apply Z.pow_pos_nonneg; lia).
  assert (HY : 0 < Y) by (apply Z.pow_pos_nonneg; lia).
  assert (HWY : W * Y = 2 ^ 52).
  { unfold W, Y. rewrite <- Z.pow_add_r by lia. f_equal. lia. }
  assert (Hp2Y : Zpos p < 2 * Y).
  { unfold Y. rewrite <- Z.pow_succ_r by lia. replace (Z.succ (ds - 1)) with ds by lia.
    exact Hphi. }
  unfold mul, canon, SFmul, HST_RATE_default. fold ds. fold W.
  cbn [xorb].
  set (mP := (Z.to_pos (Zpos p * W) * 4683743612465316)%positive).
  assert (HmP : Zpos mP = Zpos p * W * 4683743612465316).
  { unfold mP. rewrite Pos2Z.inj_mul, Z2Pos.id by nia. reflexivity. }
  pose proof (digits2_pos_bounds mP) as [HDlo HDhi].
  set (D := Zpos (digits2_pos mP)) in *.
  assert (HP104 : 2 ^ 104 <= Zpos mP) by (rewrite HmP; nia).
  assert (HP106 : Zpos mP < 2 ^ 106) by (rewrite HmP; nia).
  assert (HD : 105 <= D <= 106).
  { split.
    - assert (Hlt : 2 ^ 104 < 2 ^ D) by lia.
      apply Z.pow_lt_mono_r_iff in Hlt; lia.
    - assert (Hlt : 2 ^ (D - 1) < 2 ^ 106) by lia.
      apply Z.pow_lt_mono_r_iff in Hlt; lia. }
  destruct (binary_round_aux_normal false mP (ds - 53 + -55))
    as (m1 & e1 & M1 & Hbra & Hm1 & He1 & HM1 & Hq & Herr); fold D; try lia.
  rewrite Hbra. clear Hbra.
  fold D in He1, HM1, Hq, Herr.
  set (n := D - 53) in *.
  set (E := - (ds - 53 + -55 + n)) in *.
  assert (HE : 5 <= E <= 55) by (unfold E, n; lia).
  replace (ds - 53 + -55 + n) with (- E) in * by (unfold E; lia).
  set (pn := 2 ^ n) in *. set (pE := 2 ^ E).
  assert (Hpn : 0 < pn) by (apply Z.pow_pos_nonneg; unfold n; lia).
  assert (HpE : 0 < pE) by (apply Z.pow_pos_nonneg; lia).
  assert (HnE : pn * pE = 2 ^ 55 * W).
  { unfold pn, pE, W. rewrite <- !Z.pow_add_r by (unfold n; lia). f_equal.
    unfold E, n. lia. }
  assert (Hpn53 : pn <= 2 * (W * Y)).
  { rewrite HWY. change (2 * 2 ^ 52) with (2 ^ 53). apply Z.pow_le_mono_r; unfold n; lia. }
  (* the rounded mantissa lies in the half-open unit interval around T *)
  set (pE' := 2 ^ (E - 1)).
  assert (HpE' : 0 < pE') by (apply Z.pow_pos_nonneg; lia).
  assert (HpE2 : pE = 2 * pE').
  { unfold pE, pE'. rewrite <- Z.pow_succ_r by lia. f_equal. lia. }
  assert (HnE' : pn * pE' = 2 ^ 54 * W).
  { assert (2 * (pn * pE') = 2 * (2 ^ 54 * W)); [|lia].
    replace (2 * (pn * pE')) with (pn * pE) by (rewrite HpE2; ring).
    rewrite HnE. change (2 ^ 55) with (2 * 2 ^ 54). ring. }
  assert (HA : (2 * T - 1) * pE <= 2 * M1).
  { assert (HL : (2 * T - 1) * pE' <= Zpos mP / pn).
    { apply Z.div_le_lower_bound; [exact Hpn|].
      replace (pn * ((2 * T - 1) * pE')) with ((2 * T - 1) * 2 ^ 54 * W)
        by (rewrite <- Z.mul_assoc, <- HnE'; ring).
      rewrite HmP.
      replace (Zpos p * W * 4683743612465316) with (Zpos p * 4683743612465316 * W) by ring.
      apply Z.mul_le_mono_nonneg_r; lia. }
    rewrite HpE2.
    replace ((2 * T - 1) * (2 * pE')) with (2 * ((2 * T - 1) * pE')) by ring.
    lia. }
  assert (HB : 2 * M1 < (2 * T + 1) * pE).
  { destruct (Z.lt_ge_cases (2 * M1) ((2 * T + 1) * pE)) as [|Hge]; [assumption|].
    exfalso.
    assert (H1 : pn * ((2 * T + 1) * pE) <= pn * (2 * M1))
      by (apply Z.mul_le_mono_nonneg_l; lia).
    replace (pn * ((2 * T + 1) * pE)) with ((2 * T + 1) * 2 ^ 55 * W) in H1
      by (rewrite <- Z.mul_assoc, <- HnE; ring).
    assert (H2 : W * Y <= W * Zpos p) by (apply Z.mul_le_mono_nonneg_l; lia).
    assert (H3 : W * (Zpos p * 4683743612465316 + Zpos p) < W * ((2 * T + 1) * 2 ^ 54))
      by (apply Z.mul_lt_mono_pos_l; lia).
    rewrite HmP in Herr.
    replace (2 * (Zpos p * W * 4683743612465316))
      with (2 * (W * (Zpos p * 4683743612465316))) in Herr by ring.
    rewrite Z.mul_add_distr_l in H3.
    replace (W * ((2 * T + 1) * 2 ^ 54)) with ((2 * T + 1) * 2 ^ 54 * W) in H3 by ring.
    change (2 ^ 55) with (2 * 2 ^ 54) in H1.
    replace ((2 * T + 1) * (2 * 2 ^ 54) * W) with (2 * ((2 * T + 1) * 2 ^ 54 * W)) in H1 by ring.
    lia. }
  assert (Hh : half_up false m1 e1 = T).
  { unfold half_up. replace (0 <=? e1) with false by (symmetry; apply Z.leb_gt; lia).
    cbn [cond_Zopp].
    destruct (Z.eq_dec e1 (- E)) as [-> | Hne].
    - replace (- E - - E) with 0 in HM1 by lia. rewrite Z.pow_0_r, Z.mul_1_r in HM1.
      subst M1. replace (- - E) with E by lia. replace (1 - - E) with (Z.succ E) by lia.
      rewrite Z.pow_succ_r by lia. fold pE.
      apply Z.le_antisymm.
      + apply Z.lt_succ_r. apply Z.div_lt_upper_bound; lia.
      + apply Z.div_le_lower_bound; lia.
    - assert (e1 = - E + 1) by lia. subst e1.
      replace (- E + 1 - - E) with 1 in HM1 by lia. rewrite Z.pow_1_r in HM1.
      subst M1. replace (1 - (- E + 1)) with E by lia.
      replace (- (- E + 1)) with (E - 1) by lia.
      fold pE. fold pE'.
      apply Z.le_antisymm.
      + apply Z.lt_succ_r. apply Z.div_lt_upper_bound; lia.
      + apply Z.div_le_lower_bound; lia. }
  cbn [Math_round]. replace (0 <=? e1) with false by (symmetry; apply Z.leb_gt; lia).
  rewrite Hh. destruct (T =? 0) eqn:ET; [|reflexivity].
  apply Z.eqb_eq in ET. rewrite ET. reflexivity.
Qed.

(** ** The totals computation *)

Section TotalsFacts.

Variable HST_RATE : number.

Lemma sum_magnitudes_nonneg (l : list (Z * Z)) : 0 <= sum_magnitudes l.
Proof. induction l as [|x l IH]; simpl; lia. Qed.

Lemma sum_products_bound (l : list (Z * Z)) :
  Z.abs (sum_products l) <= sum_magnitudes l.
Proof. induction l as [|x l IH]; simpl; lia. Qed.

(** The [reduce] of [computeTotals] on a cart of integers, from an integer
    accumulator, as long as no partial sum leaves the 53 bits. *)
Lemma fold_products_exact (c : list cart_line) (l : list (Z * Z)) :
  Forall2 int_line c l ->
  forall u, Z.abs u + sum_magnitudes l < 2 ^ 53 ->
  fold_left (fun sum it => add sum (mul (unit_price_cents it) (qty it))) c (ofZ u)
  = ofZ (u + sum_products l).
Proof.
  induction 1 as [|it aq c l Hit _ IH]; intros u Hu.
  - simpl. rewrite Z.add_0_r. reflexivity.
  - destruct Hit as (Hp & Hq & Ha & Hb).
    pose proof (sum_magnitudes_nonneg l) as Hl.
    cbn [fold_left sum_products sum_magnitudes fold_right] in *.
    fold (sum_products l). fold (sum_magnitudes l) in Hu.
    rewrite Hp, Hq.
    rewrite (add_is_int u (fst aq * snd aq)); try lia.
    + rewrite IH by lia. f_equal. lia.
    + apply mul_ofZ; lia.
Qed.

Lemma subtotal_exact (c : list cart_line) (l : list (Z * Z)) :
  Forall2 int_line c l -> sum_magnitudes l < 2 ^ 53 ->
  subtotal (computeTotals HST_RATE c) = ofZ (sum_products l).
Proof.
  intros Hc Hl. unfold computeTotals; cbn [subtotal].
  rewrite (fold_products_exact c l Hc 0) by (simpl; lia). reflexivity.
Qed.

Lemma sum_products_perm (l l' : list (Z * Z)) :
  Permutation l l' -> sum_products l = sum_products l'.
Proof. induction 1; simpl; lia. Qed.

Lemma sum_magnitudes_perm (l l' : list (Z * Z)) :
  Permutation l l' -> sum_magnitudes l = sum_magnitudes l'.
Proof. induction 1; simpl; lia. Qed.

End TotalsFacts.

(** C3 (as the code has it): for every cart whose lines have integer unit
    prices (non-negative) and integer quantities, and for which the sum of
    the magnitudes of the line products stays below 2^53, [computeTotals]
    returns the subtotal exactly equal to the sum over the lines of unit
    price times quantity; the total is the Number sum of subtotal and tax,
    and is exactly subtotal plus tax whenever the tax is an integer [h] and
    that sum is below 2^53 in magnitude. *)
Theorem computeTotals_exact (HST_RATE : number) (c : list cart_line) (l : list (Z * Z)) :
  Forall2 int_line c l ->
  sum_magnitudes l < 2 ^ 53 ->
  let t := computeTotals HST_RATE c in
  toZ (subtotal t) = Some (sum_products l) /\
  total t = add (subtotal t) (hst t) /\
  (forall h, is_int (hst t) h -> Z.abs h < 2 ^ 53 ->
             Z.abs (sum_products l + h) < 2 ^ 53 ->
             toZ (total t) = Some (sum_products l + h)).
Proof.
  intros Hc Hl t.
  pose proof (sum_products_bound l) as Hb.
  assert (Hs : subtotal t = ofZ (sum_products l)) by (apply subtotal_exact; assumption).
  split; [| split].
  - rewrite Hs. apply toZ_ofZ. lia.
  - reflexivity.
  - intros h Hh Hhb Hsum.
    change (total t) with (add (subtotal t) (hst t)).
    rewrite Hs, (add_is_int _ h) by (assumption || lia).
    apply toZ_ofZ. exact Hsum.
Qed.

(** The lines [(1000,1), (800,1), (300,2)] give the subtotal 2400, and with
    the rate 0.13 the total 2712. *)
Lemma computeTotals_exact_witness :
  let t := computeTotals HST_RATE_default sample_cart in
  toZ (subtotal t) = Some 2400 /\
  total t = add (subtotal t) (hst t) /\
  (forall h, is_int (hst t) h -> Z.abs h < 2 ^ 53 ->
             Z.abs (2400 + h) < 2 ^ 53 -> toZ (total t) = Some (2400 + h)).
Proof.
  apply (computeTotals_exact HST_RATE_default sample_cart [(1000, 1); (800, 1); (300, 2)]).
  - int_lines.
  - closed_bounds.
Defined.

(** C3, as stated, fails: one line of 9007199254740991 cokes at 300 has an
    exact product that is not a Number, and the subtotal is rounded. *)
Lemma subtotal_rounds_beyond_53_bits :
  let c := [CartLine "coke" "Coke" (ofZ 300) (ofZ 9007199254740991)] in
  let l := [(300, 9007199254740991)] in
  Forall2 int_line c l /\
  sum_products l = 2702159776422297300 /\
  toZ (subtotal (computeTotals HST_RATE_default c)) = Some 2702159776422297088 /\
  toZ (subtotal (computeTotals HST_RATE_default c)) <> Some (sum_products l).
Proof.
  split; [int_lines | split; [| split]]; vm_compute; (reflexivity || discriminate).
Qed.

(** C10 (as the code has it): on a cart of integer lines for which the sum
    of the magnitudes of the line products stays below 2^53, every
    permutation of the lines gives the same subtotal, tax and total. *)
Theorem computeTotals_permutation (HST_RATE : number)
    (c c' : list cart_line) (l : list (Z * Z)) :
  Forall2 int_line c l ->
  sum_magnitudes l < 2 ^ 53 ->
  Permutation c c' ->
  computeTotals HST_RATE c' = computeTotals HST_RATE c.
Proof.
  intros Hc Hl Hp.
  destruct (Permutation_Forall2 Hp Hc) as (l' & Hll' & Hc').
  assert (Hsub : subtotal (computeTotals HST_RATE c') = subtotal (computeTotals HST_RATE c)).
  { rewrite (subtotal_exact HST_RATE c l), (subtotal_exact HST_RATE c' l'); try assumption.
    - f_equal. symmetry. apply sum_products_perm. exact Hll'.
    - rewrite <- (sum_magnitudes_perm l l'); assumption. }
  unfold computeTotals in *. cbn [subtotal] in Hsub. rewrite Hsub. reflexivity.
Qed.

Lemma computeTotals_permutation_witness :
  computeTotals HST_RATE_default (rev sample_cart)
  = computeTotals HST_RATE_default sample_cart.
Proof.
  apply (computeTotals_permutation HST_RATE_default sample_cart (rev sample_cart)
           [(1000, 1); (800, 1); (300, 2)]).
  - int_lines.
  - closed_bounds.
  - apply Permutation_rev.
Defined.

(** C10, as stated, fails: with 2^50 burgers in the cart, summing the burgers
    last gives another subtotal than summing them first. *)
Lemma computeTotals_order_sensitive :
  let burgers := CartLine "burger" "Burger" (ofZ 1000) (ofZ 1125899906842624) in
  let fries := CartLine "fries" "Fries" (ofZ 800) (ofZ 1) in
  let coke := CartLine "coke" "Coke" (ofZ 300) (ofZ 1) in
  Forall2 int_line [burgers; fries; coke] [(1000, 1125899906842624); (800, 1); (300, 1)] /\
  Permutation [burgers; fries; coke] [fries; coke; burgers] /\
  toZ (subtotal (computeTotals HST_RATE_default [burgers; fries; coke]))
  = Some 1125899906842625024 /\
  toZ (subtotal (computeTotals HST_RATE_default [fries; coke; burgers]))
  = Some 1125899906842625152 /\
  computeTotals HST_RATE_default [fries; coke; burgers]
  <> computeTotals HST_RATE_default [burgers; fries; coke].
Proof.
  split; [int_lines | split; [| split; [| split]]].
  - apply (Permutation_cons_app [_; _] [] _). apply Permutation_refl.
  - vm_compute. reflexivity.
  - vm_compute. reflexivity.
  - vm_compute. discriminate.
Qed.

(** ** The tax *)

Lemma round_half_up_13_percent (s : Z) :
  round_half_up (inject_Z s * (13 # 100)) = (13 * s + 50) / 100.
Proof.
  unfold round_half_up, Qfloor, Qplus, Qmult, inject_Z. cbn [Qnum Qden].
  change (Zpos (1 * 100 * 2)) with (2 * 100).
  replace (s * 13 * 2 + 1 * Zpos (1 * 100)) with (2 * (13 * s + 50)) by lia.
  apply Z.div_mul_cancel_l; lia.
Qed.

Lemma round_half_up_half (k : Z) : round_half_up (inject_Z k + (1 # 2)) = k + 1.
Proof.
  unfold round_half_up, Qfloor, Qplus, inject_Z. cbn [Qnum Qden].
  change (Zpos (1 * 2 * 2)) with 4.
  replace ((k * 2 + 1 * 1) * 2 + 1 * Zpos (1 * 2)) with ((k + 1) * 4) by lia.
  apply Z.div_mul. lia.
Qed.

(** X2: with the default rate 0.13 and a cart of integer lines whose subtotal is
    at most 2^48, the tax is 13 % of the subtotal rounded half up, exactly,
    and the total is the subtotal plus that tax. *)
Lemma tax_default_rate_exact (c : list cart_line) (l : list (Z * Z)) :
  Forall2 int_line c l ->
  sum_magnitudes l <= 2 ^ 48 -> 0 <= sum_products l ->
  let t := computeTotals HST_RATE_default c in
  let tax := round_half_up (inject_Z (sum_products l) * (13 # 100)) in
  toZ (hst t) = Some tax /\ toZ (total t) = Some (sum_products l + tax).
Proof.
  intros Hc Hmag Hpos t tax.
  pose proof (sum_products_bound l) as Hb.
  assert (Hs : subtotal t = ofZ (sum_products l)) by (apply subtotal_exact; [exact Hc | lia]).
  assert (Htax : tax = (13 * sum_products l + 50) / 100)
    by apply round_half_up_13_percent.
  assert (Hh : hst t = ofZ tax).
  { change (hst t) with (Math_round (mul (subtotal t) HST_RATE_default)).
    rewrite Hs, Htax. apply hst_default_exact. lia. }
  assert (Hrange : 0 <= tax <= sum_products l + 1).
  { rewrite Htax. split.
    - apply Z.div_pos; lia.
    - apply Z.div_le_upper_bound; lia. }
  split.
  - rewrite Hh. apply toZ_ofZ. lia.
  - change (total t) with (add (subtotal t) (hst t)).
    rewrite Hs, Hh, add_ofZ by lia. apply toZ_ofZ. lia.
Qed.

(** Far beyond that range the binary64 product of the subtotal and 0.13 can
    land on the other side of a half: 13 % of 543366064810273 is
    70637588425335.49, and the product rounds to 70637588425335.5. *)
Lemma hst_default_product_rounded :
  Math_round (mul (ofZ 543366064810273) HST_RATE_default) = ofZ 70637588425336 /\
  round_half_up (inject_Z 543366064810273 * (13 # 100)) = 70637588425335.
Proof. split; vm_compute; reflexivity. Qed.

(** C4 (as the code has it): the tax of [computeTotals] is [Math.round] of
    the binary64 product of the subtotal and the rate, and [Math.round]
    rounds half up to the nearest integer: when that product is a finite
    Number of value [v], the tax is the integer [floor (v + 1/2)], which for
    a value [k + 1/2] is [k + 1]. With the default rate 0.13 and a cart of
    integer lines whose subtotal is non-negative and at most 2^48, the tax
    is the exact product of the subtotal and 13/100, rounded half up. With
    the rate 0.13 and the subtotal 2400 the tax is 312 and the total 2712;
    with the subtotal 50 the product is 6.5 and the tax 7. *)
Theorem tax_rounds_half_up :
  (forall (HST_RATE : number) (c : list cart_line),
      let t := computeTotals HST_RATE c in
      hst t = Math_round (mul (subtotal t) HST_RATE) /\
      forall v, toQ (mul (subtotal t) HST_RATE) = Some v ->
                toZ (hst t) = Some (round_half_up v)) /\
  (forall k : Z, round_half_up (inject_Z k + (1 # 2)) = k + 1) /\
  (forall (c : list cart_line) (l : list (Z * Z)),
      Forall2 int_line c l -> sum_magnitudes l <= 2 ^ 48 -> 0 <= sum_products l ->
      let t := computeTotals HST_RATE_default c in
      toZ (subtotal t) = Some (sum_products l) /\
      toZ (hst t) = Some (round_half_up (inject_Z (sum_products l) * (13 # 100)))) /\
  (let t := computeTotals HST_RATE_default sample_cart in
   toZ (subtotal t) = Some 2400 /\ toZ (hst t) = Some 312 /\ toZ (total t) = Some 2712) /\
  (let t := computeTotals HST_RATE_default [CartLine "coke" "Coke" (ofZ 50) (ofZ 1)] in
   option_map Qred (toQ (mul (subtotal t) HST_RATE_default)) = Some (13 # 2)%Q /\
   toZ (hst t) = Some 7).
Proof.
  split; [| split; [exact round_half_up_half | split; [| split]]].
  - intros rate c t. split; [reflexivity|].
    intros v Hv. change (hst t) with (Math_round (mul (subtotal t) rate)).
    apply Math_round_half_up; [|exact Hv].
    intros s m e Hx. eapply mul_mantissa. exact Hx.
  - intros c l Hc Hmag Hpos t.
    pose proof (sum_products_bound l) as Hb.
    assert (Hs : subtotal t = ofZ (sum_products l))
      by (apply subtotal_exact; [exact Hc | lia]).
    split; [rewrite Hs; apply toZ_ofZ; lia|].
    rewrite round_half_up_13_percent.
    change (hst t) with (Math_round (mul (subtotal t) HST_RATE_default)).
    rewrite Hs, hst_default_exact by lia.
    apply toZ_ofZ.
    assert (0 <= (13 * sum_products l + 50) / 100 <= sum_products l + 1)
      by (split; [apply Z.div_pos; lia | apply Z.div_le_upper_bound; lia]).
    lia.
  - repeat split; vm_compute; reflexivity.
  - split; vm_compute; reflexivity.
Qed.

(** Two burgers and one coke at the default rate: 2300 and 299. *)
Lemma tax_rounds_half_up_witness :
  let t := computeTotals HST_RATE_default
             [CartLine "burger" "Burger" (ofZ 1000) (ofZ 2);
              CartLine "coke" "Coke" (ofZ 300) (ofZ 1)] in
  toZ (subtotal t) = Some 2300 /\
  toZ (hst t) = Some (round_half_up (inject_Z 2300 * (13 # 100))).
Proof.
  apply (proj1 (proj2 (proj2 tax_rounds_half_up))
           [CartLine "burger" "Burger" (ofZ 1000) (ofZ 2);
            CartLine "coke" "Coke" (ofZ 300) (ofZ 1)] [(1000, 2); (300, 1)]).
  - int_lines.
  - closed_bounds.
  - closed_bounds.
Defined.

(** C4, as stated, fails: with the rate 0.0875 and one fries and two cokes
    the subtotal is 1400 and the exact product 122.5, which rounds half up
    to 123; the Number nearest to 0.0875 lies below it, the binary64 product
    is below 122.5, and the tax is 122. *)
Lemma tax_follows_binary_product :
  let c := [CartLine "fries" "Fries" (ofZ 800) (ofZ 1);
            CartLine "coke" "Coke" (ofZ 300) (ofZ 2)] in
  let t := computeTotals HST_RATE_0875 c in
  div (ofZ 875) (ofZ 10000) = HST_RATE_0875 /\
  toZ (subtotal t) = Some 1400 /\
  round_half_up (inject_Z 1400 * (875 # 10000)) = 123 /\
  toZ (hst t) = Some 122 /\
  money (hst t) = Txt "1.22".
Proof. repeat split; vm_compute; reflexivity. Qed.

(** ** Adding to the cart *)

Lemma parse_sku_catalog (v : option json) (k : string) :
  parse_sku v = Some k ->
  exists p, find (fun x => String.eqb (p_sku x) k) PRODUCTS = Some p /\
            In p PRODUCTS /\ p_sku p = k.
Proof.
  unfold parse_sku. destruct v as [[| | |s| |]|]; try discriminate.
  destruct (existsb (String.eqb s) sku_enum) eqn:E; [|discriminate].
  intros [= <-].
  cbn [existsb sku_enum] in E.
  destruct (String.eqb s "burger") eqn:E1.
  { apply String.eqb_eq in E1; subst s. eexists; repeat split; simpl; auto. }
  destruct (String.eqb s "fries") eqn:E2.
  { apply String.eqb_eq in E2; subst s. eexists; repeat split; simpl; auto. }
  destruct (String.eqb s "coke") eqn:E3; [|discriminate].
  apply String.eqb_eq in E3; subst s. eexists; repeat split; simpl; auto.
Qed.

Lemma addSchema_catalog (body : json) (k : string) (q : number) :
  addSchema body = Some (k, q) ->
  exists p, find (fun x => String.eqb (p_sku x) k) PRODUCTS = Some p /\
            In p PRODUCTS /\ p_sku p = k.
Proof.
  unfold addSchema. destruct body; try discriminate.
  destruct (parse_sku (field "sku" fields)) as [s|] eqn:Es; [|discriminate].
  destruct (parse_qty (field "qty" fields)); [|discriminate].
  intros [= <- _]. eapply parse_sku_catalog; eassumption.
Qed.

Lemma find_first (k : string) (pre post : list cart_line) (it : cart_line) :
  sku it = k -> (forall x, In x pre -> sku x <> k) ->
  find (fun x => String.eqb (sku x) k) (pre ++ it :: post) = Some it.
Proof.
  intros Hit Hpre. induction pre as [|x pre IH]; simpl.
  - rewrite Hit, String.eqb_refl. reflexivity.
  - destruct (String.eqb (sku x) k) eqn:E.
    + apply String.eqb_eq in E. exfalso. apply (Hpre x); simpl; auto.
    + apply IH. intros y Hy. apply Hpre. simpl; auto.
Qed.

Lemma find_absent (k : string) (c : list cart_line) :
  (forall x, In x c -> sku x <> k) ->
  find (fun x => String.eqb (sku x) k) c = None.
Proof.
  intros Hc. induction c as [|x c IH]; simpl; [reflexivity|].
  destruct (String.eqb (sku x) k) eqn:E.
  - apply String.eqb_eq in E. exfalso. apply (Hc x); simpl; auto.
  - apply IH. intros y Hy. apply Hc. simpl; auto.
Qed.

Lemma bump_first (k : string) (q : number) (pre post : list cart_line) (it : cart_line) :
  sku it = k -> (forall x, In x pre -> sku x <> k) ->
  bump k q (pre ++ it :: post) = pre ++ add_qty q it :: post.
Proof.
  intros Hit Hpre. induction pre as [|x pre IH]; simpl.
  - rewrite Hit, String.eqb_refl. reflexivity.
  - destruct (String.eqb (sku x) k) eqn:E.
    + apply String.eqb_eq in E. exfalso. apply (Hpre x); simpl; auto.
    + f_equal. apply IH. intros y Hy. apply Hpre. simpl; auto.
Qed.

(** A parsed request whose sku is in the cart already. *)
Lemma post_cart_add_existing (body : json) (s : session) (k : string) (q : number)
    (pre post : list cart_line) (it : cart_line) :
  addSchema body = Some (k, q) ->
  fst (getCart s) = pre ++ it :: post ->
  sku it = k -> (forall x, In x pre -> sku x <> k) ->
  post_cart_add body s = (RespOk, Session (Some (pre ++ add_qty q it :: post))).
Proof.
  intros Hparse Hc Hit Hpre. unfold post_cart_add. rewrite Hparse.
  destruct (getCart s) as [c s1]. cbn [fst] in Hc. subst c.
  rewrite find_first, bump_first by assumption. reflexivity.
Qed.

(** A parsed request whose sku is not in the cart yet. *)
Lemma post_cart_add_new (body : json) (s : session) (k : string) (q : number) :
  addSchema body = Some (k, q) ->
  (forall x, In x (fst (getCart s)) -> sku x <> k) ->
  exists p, In p PRODUCTS /\ p_sku p = k /\
    post_cart_add body s
    = (RespOk, Session (Some (fst (getCart s) ++ [CartLine k (p_name p) (price_cents p) q]))).
Proof.
  intros Hparse Hc. unfold post_cart_add. rewrite Hparse.
  destruct (addSchema_catalog _ _ _ Hparse) as (p & Hfind & Hin & Hk).
  exists p. split; [exact Hin | split; [exact Hk|]].
  rewrite Hfind. destruct (getCart s) as [c s1]. cbn [fst] in *.
  rewrite find_absent by assumption. rewrite Hk. reflexivity.
Qed.

(** The lookup of the product never comes back empty: [p.sku] does not
    throw. *)
Lemma post_cart_add_answers (body : json) (s : session) :
  fst (post_cart_add body s) <> RespUncaught.
Proof.
  unfold post_cart_add. destruct (addSchema body) as [[k q]|] eqn:Hparse; [|discriminate].
  destruct (addSchema_catalog _ _ _ Hparse) as (p & Hfind & _).
  rewrite Hfind. destruct (getCart s) as [c s1].
  destruct (find (fun x => String.eqb (sku x) k) c); discriminate.
Qed.

Lemma addSchema_add_request (k : string) (q : number) (z : Z) :
  In k sku_enum -> toZ q = Some z -> 1 <= z <= 10 ->
  addSchema (add_request k q) = Some (k, q).
Proof.
  intros Hk Hq Hz. unfold addSchema, add_request.
  change (field "sku" _) with (Some (JStr k)).
  change (field "qty" _) with (Some (JNum q)).
  cbn [parse_sku parse_qty]. rewrite Hq.
  replace (existsb (String.eqb k) sku_enum) with true.
  - replace ((1 <=? z) && (z <=? 10)) with true; [reflexivity|].
    symmetry. apply andb_true_iff. split; apply Z.leb_le; lia.
  - symmetry. apply existsb_exists. exists k. split; [exact Hk | apply String.eqb_refl].
Qed.

(** C5 (as the code has it): a valid [add(sku, quantity)] (sku of the
    catalog, quantity an integer from 1 to 10) on a cart that holds a line
    with that sku, whose quantity is an integer [n >= 0] with
    [n + quantity < 2^53], makes the quantity of that line [n + quantity],
    whatever [n] has reached below that, and leaves the number and order of
    the lines as they are; on a cart without such a line it appends one line
    with the requested quantity and the name and price of the catalog
    entry. *)
Theorem add_accumulates (k : string) (z : Z) (s : session) :
  In k (map p_sku PRODUCTS) ->
  1 <= z <= 10 ->
  let c := fst (getCart s) in
  (forall pre it post n,
      c = pre ++ it :: post -> sku it = k -> (forall x, In x pre -> sku x <> k) ->
      qty it = ofZ n -> 0 <= n -> n + z < 2 ^ 53 ->
      post_cart_add (add_request k (ofZ z)) s
      = (RespOk,
         Session (Some (pre ++ CartLine (sku it) (name it) (unit_price_cents it) (ofZ (n + z))
                            :: post)))) /\
  ((forall x, In x c -> sku x <> k) ->
   exists p, In p PRODUCTS /\ p_sku p = k /\
     post_cart_add (add_request k (ofZ z)) s
     = (RespOk, Session (Some (c ++ [CartLine k (p_name p) (price_cents p) (ofZ z)])))).
Proof.
  intros Hk Hz c.
  assert (Hb : Z.abs z < 2 ^ 53).
  { lia. }
  assert (Hparse : addSchema (add_request k (ofZ z)) = Some (k, ofZ z)).
  { apply (addSchema_add_request k (ofZ z) z); [exact Hk | apply toZ_ofZ; exact Hb | exact Hz]. }
  split.
  - intros pre it post n Hc Hit Hpre Hn Hn0 Hnz.
    rewrite (post_cart_add_existing _ s k (ofZ z) pre post it) by assumption.
    unfold add_qty. rewrite Hn, add_ofZ by lia. reflexivity.
  - intros Hc. apply post_cart_add_new; assumption.
Qed.

(** [add("burger", 1)] then [add("burger", 2)] on a fresh session: one line,
    of quantity 3. *)
Lemma add_accumulates_witness :
  post_cart_add (add_request "burger" (ofZ 2))
    (snd (post_cart_add (add_request "burger" (ofZ 1)) (Session None)))
  = (RespOk, Session (Some [CartLine "burger" "Burger" (ofZ 1000) (ofZ 3)])).
Proof.
  refine (proj1 (add_accumulates "burger" 2
            (snd (post_cart_add (add_request "burger" (ofZ 1)) (Session None))) _ _)
            [] (CartLine "burger" "Burger" (ofZ 1000) (ofZ 1)) [] 1 _ _ _ _ _ _).
  - simpl; auto.
  - lia.
  - reflexivity.
  - reflexivity.
  - intros x [].
  - reflexivity.
  - lia.
  - lia.
Defined.

(** C5, as stated, fails: on a line of 2^53 burgers a valid [add("burger", 1)]
    answers [{ ok: true }] and leaves the quantity at 2^53, since
    [2^53 + 1] is not a Number. *)
Lemma add_lost_beyond_53_bits :
  let s := Session (Some [CartLine "burger" "Burger" (ofZ 1000) (ofZ 9007199254740992)]) in
  post_cart_add (add_request "burger" (ofZ 1)) s = (RespOk, s) /\
  toZ (ofZ 9007199254740992) = Some 9007199254740992 /\
  9007199254740992 <> 9007199254740992 + 1.
Proof. repeat split; try (vm_compute; reflexivity). discriminate. Qed.

(** C9 (as the code has it): a request without a [qty] field and with a sku
    of the catalog passes validation with the quantity 1: the line of that
    sku, when its quantity is an integer [n >= 0] with [n + 1 < 2^53], gets
    the quantity [n + 1], or a new line of quantity 1 is appended. *)
Theorem add_default_quantity (k : string) (fields : list (string * json)) (s : session) :
  In k (map p_sku PRODUCTS) ->
  field "sku" fields = Some (JStr k) ->
  field "qty" fields = None ->
  let c := fst (getCart s) in
  addSchema (JObj fields) = Some (k, ofZ 1) /\
  (forall pre it post n,
      c = pre ++ it :: post -> sku it = k -> (forall x, In x pre -> sku x <> k) ->
      qty it = ofZ n -> 0 <= n -> n + 1 < 2 ^ 53 ->
      post_cart_add (JObj fields) s
      = (RespOk,
         Session (Some (pre ++ CartLine (sku it) (name it) (unit_price_cents it) (ofZ (n + 1))
                            :: post)))) /\
  ((forall x, In x c -> sku x <> k) ->
   exists p, In p PRODUCTS /\ p_sku p = k /\
     post_cart_add (JObj fields) s
     = (RespOk, Session (Some (c ++ [CartLine k (p_name p) (price_cents p) (ofZ 1)])))).
Proof.
  intros Hk Hsku Hqty c.
  assert (Hparse : addSchema (JObj fields) = Some (k, ofZ 1)).
  { unfold addSchema. rewrite Hsku, Hqty. cbn [parse_sku parse_qty].
    replace (existsb (String.eqb k) sku_enum) with true; [reflexivity|].
    symmetry. apply existsb_exists. exists k. split; [exact Hk | apply String.eqb_refl]. }
  split; [exact Hparse | split].
  - intros pre it post n Hc Hit Hpre Hn Hn0 Hn1.
    rewrite (post_cart_add_existing _ s k (ofZ 1) pre post it) by assumption.
    unfold add_qty. rewrite Hn, add_ofZ by lia. reflexivity.
  - intros Hc. apply post_cart_add_new; assumption.
Qed.

(** A request for cokes without a quantity, on a fresh session and then on
    the cart it leaves: one coke, then two. *)
Lemma add_default_quantity_witness :
  post_cart_add (JObj [("sku"%string, JStr "coke")]) (Session None)
  = (RespOk, Session (Some [CartLine "coke" "Coke" (ofZ 300) (ofZ 1)])) /\
  post_cart_add (JObj [("sku"%string, JStr "coke")])
    (Session (Some [CartLine "coke" "Coke" (ofZ 300) (ofZ 1)]))
  = (RespOk, Session (Some [CartLine "coke" "Coke" (ofZ 300) (ofZ 2)])).
Proof.
  split.
  - destruct (add_default_quantity "coke" [("sku"%string, JStr "coke")] (Session None))
      as (_ & _ & Hnew).
    + simpl; auto.
    + reflexivity.
    + reflexivity.
    + destruct Hnew as (p & Hp & Hk & Hadd).
      * intros x [].
      * rewrite Hadd. cbn [getCart cart fst app].
        destruct Hp as [<- | [<- | [<- | []]]]; try discriminate Hk. reflexivity.
  - refine (proj1 (proj2 (add_default_quantity "coke" [("sku"%string, JStr "coke")]
              (Session (Some [CartLine "coke" "Coke" (ofZ 300) (ofZ 1)])) _ _ _))
              [] (CartLine "coke" "Coke" (ofZ 300) (ofZ 1)) [] 1 _ _ _ _ _ _).
    + simpl; auto.
    + reflexivity.
    + reflexivity.
    + reflexivity.
    + reflexivity.
    + intros x [].
    + reflexivity.
    + lia.
    + lia.
Defined.

(** C9, as stated, fails: on a line of 2^53 cokes a request without [qty]
    answers [{ ok: true }] and the line gains nothing. *)
Lemma default_add_lost_beyond_53_bits :
  let s := Session (Some [CartLine "coke" "Coke" (ofZ 300) (ofZ 9007199254740992)]) in
  post_cart_add (JObj [("sku"%string, JStr "coke")]) s = (RespOk, s) /\
  toZ (ofZ 9007199254740992) = Some 9007199254740992 /\
  9007199254740992 <> 9007199254740992 + 1.
Proof. repeat split; try (vm_compute; reflexivity). discriminate. Qed.

(** C6 (as the code has it): [add(sku, quantity)] with a sku that is not in
    the catalog, or with a quantity that is not an integer from 1 to 10, is
    answered 400 [invalid_input], the one error of the handler, and the
    session is left as it was. *)
Theorem add_rejects_invalid (k : string) (q : number) (s : session) :
  ~ In k (map p_sku PRODUCTS) \/ (forall z, toZ q = Some z -> z < 1 \/ 10 < z) ->
  post_cart_add (add_request k q) s = (RespError 400 "invalid_input", s).
Proof.
  intros H.
  assert (Hparse : addSchema (add_request k q) = None).
  { unfold addSchema, add_request.
    change (field "sku" _) with (Some (JStr k)).
    change (field "qty" _) with (Some (JNum q)).
    cbn [parse_sku parse_qty].
    destruct (existsb (String.eqb k) sku_enum) eqn:Ek; [|reflexivity].
    destruct H as [Hk | Hq].
    - exfalso. apply Hk. apply existsb_exists in Ek. destruct Ek as (x & Hx & Ex).
      apply String.eqb_eq in Ex. subst x. exact Hx.
    - destruct (toZ q) as [z|]; [|reflexivity].
      destruct (Hq z eq_refl) as [Hlo | Hhi].
      + replace (1 <=? z) with false by (symmetry; apply Z.leb_gt; lia). reflexivity.
      + replace (z <=? 10) with false by (symmetry; apply Z.leb_gt; lia).
        rewrite andb_false_r. reflexivity. }
  unfold post_cart_add. rewrite Hparse. reflexivity.
Qed.

Lemma add_rejects_invalid_witness :
  post_cart_add (add_request "pizza" (ofZ 1)) (Session (Some sample_cart))
  = (RespError 400 "invalid_input", Session (Some sample_cart)).
Proof.
  apply (add_rejects_invalid "pizza" (ofZ 1) (Session (Some sample_cart))).
  left. simpl. intros [H | [H | [H | []]]]; discriminate H.
Defined.

(** C6, as stated, fails: an unknown sku and a quantity out of bounds get the
    same answer, so no reading of the answers tells [UnknownProduct] from
    [InvalidQuantity]. *)
Lemma add_errors_not_distinguished :
  ~ exists classify : response -> add_error,
      classify (fst (post_cart_add (add_request "pizza" (ofZ 1)) (Session None)))
      = UnknownProduct /\
      classify (fst (post_cart_add (add_request "burger" (ofZ 0)) (Session None)))
      = InvalidQuantity.
Proof.
  intros (classify & H1 & H2).
  change (classify (RespError 400 "invalid_input") = UnknownProduct) in H1.
  change (classify (RespError 400 "invalid_input") = InvalidQuantity) in H2.
  congruence.
Qed.

(** ** Checkout *)

Section CheckoutFacts.

Variable HST_RATE : number.
Variable f : faults.

Lemma insert_lines_committed (id : Z) (c : list cart_line) :
  forall k cn, committed (snd (insert_lines f id k c cn)) = committed cn
               /\ tx_orders (snd (insert_lines f id k c cn)) = tx_orders cn.
Proof.
  induction c as [|it c IH]; intros k cn; [split; reflexivity|].
  cbn [insert_lines]. unfold bind, insert_order_item.
  destruct (f_insert_item f k); [split; reflexivity|].
  destruct (IH (S k) (Conn (committed cn) (tx_orders cn)
     (tx_items cn ++ [OrderItemRow id (sku it) (name it) (unit_price_cents it) (qty it)
                        (mul (unit_price_cents it) (qty it))]))) as [H1 H2].
  split; [rewrite H1 | rewrite H2]; reflexivity.
Qed.

Lemma insert_lines_ok (id : Z) (c : list cart_line) :
  forall k cn,
    (forall j, (j < List.length c)%nat -> f_insert_item f (k + j) = false) ->
    insert_lines f id k c cn
    = (Some tt, Conn (committed cn) (tx_orders cn) (tx_items cn ++ line_rows id c)).
Proof.
  induction c as [|it c IH]; intros k cn Hok.
  - cbn. rewrite app_nil_r. destruct cn; reflexivity.
  - cbn [insert_lines]. unfold bind, insert_order_item.
    rewrite <- (Nat.add_0_r k) at 1. rewrite Hok by (simpl; lia).
    rewrite IH.
    + cbn [committed tx_orders tx_items line_rows map].
      rewrite <- app_assoc. reflexivity.
    + intros j Hj. replace (S k + j)%nat with (k + S j)%nat by lia.
      apply Hok. simpl; lia.
Qed.

Lemma insert_lines_fail (id : Z) (c : list cart_line) :
  forall k cn j,
    (j < List.length c)%nat -> f_insert_item f (k + j) = true ->
    fst (insert_lines f id k c cn) = None.
Proof.
  induction c as [|it c IH]; intros k cn j Hj Hf; [simpl in Hj; lia|].
  cbn [insert_lines]. unfold bind, insert_order_item.
  destruct (f_insert_item f k) eqn:Ek; [reflexivity|].
  destruct j as [|j].
  - rewrite Nat.add_0_r in Hf. congruence.
  - apply (IH (S k) _ j); [simpl in Hj; lia|].
    replace (S k + j)%nat with (k + S j)%nat by lia. exact Hf.
Qed.

(** The transaction either commits the order row and one row per cart
    line, or rejects with the tables as they were. *)
Lemma checkout_tx_cases (c : list cart_line) (t : totals) (db : database) :
  let r := checkout_tx HST_RATE f c t (getConnection db) in
  let id := next_order_id db in
  (tx_succeeds f (List.length c) /\
   r = (Some id,
        Conn (Database (orders db ++ [OrderRow id (subtotal t) HST_RATE (hst t) (total t)])
                       (order_items db ++ line_rows id c) (id + 1)) [] []))
  \/
  (tx_fails f (List.length c) /\ fst r = None /\
   orders (committed (snd r)) = orders db /\
   order_items (committed (snd r)) = order_items db /\
   next_order_id db <= next_order_id (committed (snd r))).
Proof.
  intros r id. subst r. unfold checkout_tx, bind, beginTransaction, getConnection.
  cbn [committed].
  destruct (f_begin f) eqn:Eb.
  { right. unfold tx_fails. cbn. repeat split; auto; lia. }
  unfold insert_order. cbn [committed tx_orders tx_items app].
  destruct (f_insert_order f) eqn:Eo.
  { right. unfold tx_fails. cbn. repeat split; auto; lia. }
  fold id.
  set (cn := Conn (Database (orders db) (order_items db) (id + 1))
                  [OrderRow id (subtotal t) HST_RATE (hst t) (total t)] []).
  pose proof (insert_lines_committed id c 0%nat cn) as [Hcm Hto].
  destruct (insert_lines f id 0 c cn) as [[u|] cn'] eqn:El.
  - cbn [snd] in Hcm, Hto.
    assert (Hall : forall j, (j < List.length c)%nat -> f_insert_item f j = false).
    { intros j Hj. destruct (f_insert_item f j) eqn:Ej; [|reflexivity].
      pose proof (insert_lines_fail id c 0%nat cn j Hj Ej) as Hn.
      rewrite El in Hn. discriminate Hn. }
    rewrite (insert_lines_ok id c 0%nat cn Hall) in El.
    injection El as _ <-.
    unfold commit, ret. cbn [committed tx_orders tx_items cn orders order_items
                             next_order_id app].
    destruct (f_commit f) eqn:Ec.
    + right. unfold tx_fails. cbn. repeat split; auto; lia.
    + left. unfold tx_succeeds. repeat split; auto.
  - right. cbn [fst snd]. cbn [snd] in Hcm. rewrite Hcm. cbn.
    repeat split; try lia.
    unfold tx_fails. right. right. left.
    destruct (Exists_dec (fun j => f_insert_item f j = true) (seq 0 (List.length c)))
      as [Hex | Hno].
    { intros j. destruct (f_insert_item f j); [left | right]; congruence. }
    + apply Exists_exists in Hex. destruct Hex as (j & Hj & Hfj).
      apply in_seq in Hj. exists j. split; [lia | exact Hfj].
    + exfalso.
      rewrite (insert_lines_ok id c 0%nat cn) in El; [discriminate El|].
      intros j Hj. cbn [Nat.add].
      destruct (f_insert_item f j) eqn:Ej; [|reflexivity].
      exfalso. apply Hno. apply Exists_exists. exists j. split; [|exact Ej].
      apply in_seq. lia.
Qed.


Lemma tx_fails_not_succeeds (n : nat) : tx_fails f n -> tx_succeeds f n -> False.
Proof.
  intros [Hb | [Ho | [(j & Hj & Hi) | Hc]]] (Hb' & Ho' & Hi' & Hc'); try congruence.
  rewrite (Hi' j Hj) in Hi. discriminate Hi.
Qed.

(** Every run of the handler: the order and its lines are committed and the
    receipt is sent, or the tables keep their rows and no receipt is sent. *)
Lemma post_checkout_cases (s : session) (db : database) :
  let c := fst (getCart s) in
  let t := computeTotals HST_RATE c in
  let id := next_order_id db in
  (c <> [] /\ f_connect f = false /\ tx_succeeds f (List.length c) /\
   post_checkout HST_RATE f s db
   = (Some (RespReceipt (receipt_of HST_RATE id c t)), Session (Some []),
      Database (orders db ++ [OrderRow id (subtotal t) HST_RATE (hst t) (total t)])
               (order_items db ++ line_rows id c) (id + 1)))
  \/
  (exists resp db',
      post_checkout HST_RATE f s db = (resp, snd (getCart s), db') /\
      orders db' = orders db /\ order_items db' = order_items db /\
      next_order_id db <= next_order_id db' /\
      (forall r, resp <> Some (RespReceipt r))).
Proof.
  intros c t id. subst c t. unfold post_checkout, checkout_attempt.
  destruct (getCart s) as [c s1]. cbn [fst snd].
  destruct c as [|it c'].
  { right. do 2 eexists. repeat split; try reflexivity; intros r; discriminate. }
  set (c := it :: c') in *.
  destruct (f_connect f) eqn:Econ.
  { right. do 2 eexists. repeat split; try reflexivity; intros r; discriminate. }
  destruct (checkout_tx_cases c (computeTotals HST_RATE c) db)
    as [[Hok Hr] | (Hfail & Hr & Ho & Hi & Hn)].
  - left. rewrite Hr. cbn [release committed].
    split; [discriminate|]. split; [reflexivity|]. split; [exact Hok | reflexivity].
  - right.
    destruct (checkout_tx HST_RATE f c (computeTotals HST_RATE c) (getConnection db))
      as [[x|] cn]; [discriminate Hr|]. cbn [snd] in *.
    unfold rollback. destruct (f_rollback f); cbn [release committed];
      do 2 eexists; repeat split; try eassumption; try reflexivity; discriminate.
Qed.

End CheckoutFacts.

Lemma items_of_app (db : database) (rows : list order_item_row) (o : list order_row)
    (n id : Z) :
  items_of (Database o (order_items db ++ rows) n) id
  = items_of db id ++ filter (fun i => oi_order_id i =? id) rows.
Proof. unfold items_of. cbn [order_items]. apply filter_app. Qed.

Lemma filter_line_rows_same (id : Z) (c : list cart_line) :
  filter (fun i => oi_order_id i =? id) (line_rows id c) = line_rows id c.
Proof.
  induction c as [|it c IH]; [reflexivity|].
  cbn [line_rows map filter oi_order_id]. rewrite Z.eqb_refl. f_equal. exact IH.
Qed.

Lemma filter_line_rows_other (id id' : Z) (c : list cart_line) :
  id <> id' -> filter (fun i => oi_order_id i =? id') (line_rows id c) = [].
Proof.
  intros Hne. induction c as [|it c IH]; [reflexivity|].
  cbn [line_rows map filter oi_order_id].
  replace (id =? id') with false by (symmetry; apply Z.eqb_neq; exact Hne). exact IH.
Qed.

Lemma items_of_fresh (db : database) (id : Z) :
  Forall (fun i => oi_order_id i < id) (order_items db) -> items_of db id = [].
Proof.
  unfold items_of. induction (order_items db) as [|i l IH]; intros H; [reflexivity|].
  inversion H; subst. cbn [filter].
  replace (oi_order_id i =? id) with false by (symmetry; apply Z.eqb_neq; lia).
  apply IH. assumption.
Qed.




(** C7: checkout on a session whose cart is absent or empty answers 400
    [cart_empty] before any call on the store: the store is the one it was
    and the cart is still empty. And no run of the handler adds an order
    without adding at least one line that references it. *)
Theorem checkout_empty_cart (HST_RATE : number) (f : faults) (db : database) :
  post_checkout HST_RATE f (Session None) db
  = (Some (RespError 400 "cart_empty"), Session (Some []), db) /\
  post_checkout HST_RATE f (Session (Some [])) db
  = (Some (RespError 400 "cart_empty"), Session (Some []), db) /\
  (forall s,
      let db' := snd (post_checkout HST_RATE f s db) in
      (orders db' = orders db /\ order_items db' = order_items db) \/
      (exists o rows,
          rows <> [] /\ orders db' = orders db ++ [o] /\
          order_items db' = order_items db ++ rows /\
          Forall (fun i => oi_order_id i = order_id o) rows)).
Proof.
  split; [reflexivity | split; [reflexivity|]].
  intros s db'. subst db'.
  destruct (post_checkout_cases HST_RATE f s db)
    as [(Hne & _ & _ & ->) | (resp & db' & -> & Ho & Hi & _)]; cbn [snd].
  - right. do 2 eexists. cbn [orders order_items].
    split; [| split; [reflexivity | split; [reflexivity|]]].
    + destruct (fst (getCart s)); [congruence | discriminate].
    + unfold line_rows. apply Forall_map. apply Forall_forall. intros it _. reflexivity.
  - left. split; assumption.
Qed.

(** The run in which every call on the store succeeds. *)
Lemma post_checkout_committed (HST_RATE : number) (f : faults)
    (s : session) (db : database) (c : list cart_line) :
  cart s = Some c -> c <> [] ->
  f_connect f = false -> tx_succeeds f (List.length c) ->
  post_checkout HST_RATE f s db
  = (Some (RespReceipt (receipt_of HST_RATE (next_order_id db) c (computeTotals HST_RATE c))),
     Session (Some []),
     Database (orders db ++ [OrderRow (next_order_id db) (subtotal (computeTotals HST_RATE c))
                               HST_RATE (hst (computeTotals HST_RATE c))
                               (total (computeTotals HST_RATE c))])
              (order_items db ++ line_rows (next_order_id db) c) (next_order_id db + 1)).
Proof.
  intros Hs Hne Hcon Hok. unfold post_checkout, checkout_attempt, getCart. rewrite Hs.
  destruct c as [|it c']; [congruence|]. rewrite Hcon.
  destruct (checkout_tx_cases HST_RATE f (it :: c')
              (computeTotals HST_RATE (it :: c')) db)
    as [[_ ->] | (Hfail & _)].
  - reflexivity.
  - exfalso. eapply tx_fails_not_succeeds; eassumption.
Qed.



(** ** The committed order, in the integers *)

Lemma toZ_is_int (x : number) (z : Z) :
  is_int x z -> Z.abs z < 2 ^ 53 -> toZ x = Some z.
Proof.
  intros [-> | [-> ->]] Hz; [apply toZ_ofZ; exact Hz | reflexivity].
Qed.

Lemma line_rows_exact (id : Z) (c : list cart_line) (l : list (Z * Z)) :
  Forall2 int_line c l -> sum_magnitudes l < 2 ^ 53 ->
  Forall2 (fun row aq => toZ (oi_unit_price_cents row) = Some (fst aq) /\
                         toZ (oi_qty row) = Some (snd aq) /\
                         toZ (line_total_cents row) = Some (fst aq * snd aq))
          (line_rows id c) l.
Proof.
  induction 1 as [|it aq c l (Hp & Hq & Ha & Hb) _ IH]; intros Hl; [constructor|].
  pose proof (sum_magnitudes_nonneg l).
  cbn [sum_magnitudes fold_right] in Hl. fold (sum_magnitudes l) in Hl.
  cbn [line_rows map]. constructor; [|apply IH; lia].
  cbn [oi_unit_price_cents oi_qty line_total_cents]. rewrite Hp, Hq.
  repeat split.
  - apply toZ_ofZ. lia.
  - apply toZ_ofZ. lia.
  - apply toZ_is_int; [apply mul_ofZ|]; lia.
Qed.

(** An order whose lines are the same in two stores satisfies the
    equations in both. *)
Lemma order_exact_items (db db' : database) (o : order_row) :
  items_of db' (order_id o) = items_of db (order_id o) ->
  order_exact db o -> order_exact db' o.
Proof.
  intros E (sub & tax & l & H). exists sub, tax, l. rewrite E. exact H.
Qed.

Lemma post_checkout_exact (HST_RATE : number) (f : faults) (s : session) (db : database)
    (l : list (Z * Z)) (h : Z) :
  Forall2 int_line (fst (getCart s)) l ->
  sum_magnitudes l < 2 ^ 53 ->
  is_int (hst (computeTotals HST_RATE (fst (getCart s)))) h ->
  Z.abs h < 2 ^ 53 -> Z.abs (sum_products l + h) < 2 ^ 53 ->
  store_exact db ->
  store_exact (snd (post_checkout HST_RATE f s db)).
Proof.
  intros Hc Hmag Hh Hhb Htb (Hex & Hord & Hitm).
  pose proof (sum_products_bound l) as Hsp.
  destruct (post_checkout_cases HST_RATE f s db)
    as [(Hne & _ & _ & ->) | (resp & db' & -> & Ho & Hi & Hn & _)]; cbn [snd].
  - set (c := fst (getCart s)) in *. set (id := next_order_id db).
    set (t := computeTotals HST_RATE c) in *.
    unfold store_exact. cbn [orders order_items next_order_id].
    split; [| split].
    + apply Forall_app. split.
      * rewrite Forall_forall in *. intros o Hoo.
        specialize (Hord o Hoo). cbv beta in Hord. fold id in Hord.
        apply (order_exact_items db); [|exact (Hex o Hoo)].
        rewrite items_of_app, filter_line_rows_other, app_nil_r by lia. reflexivity.
      * constructor; [|constructor].
        assert (Hsub : subtotal t = ofZ (sum_products l))
          by (apply subtotal_exact; assumption).
        exists (sum_products l), h, l.
        cbn [order_id total_cents subtotal_cents hst_cents].
        split; [rewrite Hsub; apply toZ_ofZ; lia|].
        split; [apply toZ_is_int; assumption|].
        split.
        { change (total t) with (add (subtotal t) (hst t)). rewrite Hsub.
          rewrite (add_is_int (sum_products l) h) by (assumption || lia).
          apply toZ_ofZ. exact Htb. }
        split; [|reflexivity].
        rewrite items_of_app, filter_line_rows_same, items_of_fresh by exact Hitm.
        cbn [app]. apply line_rows_exact; assumption.
    + apply Forall_app. split.
      * eapply Forall_impl; [|exact Hord]. cbv beta. intros o Hoo. fold id in Hoo. lia.
      * constructor; [cbn; lia | constructor].
    + apply Forall_app. split.
      * eapply Forall_impl; [|exact Hitm]. cbv beta. intros i Hii. fold id in Hii. lia.
      * unfold line_rows. apply Forall_map. apply Forall_forall. intros it _. cbn. lia.
  - unfold store_exact. rewrite Ho, Hi. split; [| split].
    + eapply Forall_impl; [|exact Hex]. intros o Hoe.
      apply (order_exact_items db); [|exact Hoe]. unfold items_of. rewrite Hi. reflexivity.
    + eapply Forall_impl; [|exact Hord]. cbv beta. intros; lia.
    + eapply Forall_impl; [|exact Hitm]. cbv beta. intros; lia.
Qed.




(** X14: with the default rate and a cart of integer lines whose subtotal is at
    most 2^48, the rows a successful checkout commits hold exact integers, and
    the equations of section 3 hold of them in the integers. *)
Lemma checkout_order_exact (f : faults) (s : session) (db : database)
    (c : list cart_line) (l : list (Z * Z)) :
  cart s = Some c -> c <> [] ->
  f_connect f = false -> tx_succeeds f (List.length c) ->
  Forall2 int_line c l -> sum_magnitudes l <= 2 ^ 48 -> 0 <= sum_products l ->
  exists o rows tax,
    snd (post_checkout HST_RATE_default f s db)
    = Database (orders db ++ [o]) (order_items db ++ rows) (next_order_id db + 1) /\
    Forall2 (fun row aq => toZ (oi_unit_price_cents row) = Some (fst aq) /\
                           toZ (oi_qty row) = Some (snd aq) /\
                           toZ (line_total_cents row) = Some (fst aq * snd aq)) rows l /\
    toZ (subtotal_cents o) = Some (sum_products l) /\
    toZ (hst_cents o) = Some tax /\
    tax = round_half_up (inject_Z (sum_products l) * (13 # 100)) /\
    toZ (total_cents o) = Some (sum_products l + tax).
Proof.
  intros Hs Hne Hcon Hok Hc Hmag Hpos.
  rewrite (post_checkout_committed HST_RATE_default f s db c) by assumption.
  cbn [snd]. do 3 eexists. split; [reflexivity|].
  cbn [subtotal_cents hst_cents total_cents].
  pose proof (sum_products_bound l) as Hb.
  set (t := computeTotals HST_RATE_default c).
  assert (Hsub : subtotal t = ofZ (sum_products l)) by (apply subtotal_exact; [exact Hc | lia]).
  assert (Hh : hst t = ofZ ((13 * sum_products l + 50) / 100)).
  { change (hst t) with (Math_round (mul (subtotal t) HST_RATE_default)).
    rewrite Hsub. apply hst_default_exact. lia. }
  assert (Hrange : 0 <= (13 * sum_products l + 50) / 100 <= sum_products l + 1).
  { split; [apply Z.div_pos; lia | apply Z.div_le_upper_bound; lia]. }
  split; [apply line_rows_exact; [exact Hc | lia] |].
  split; [rewrite Hsub; apply toZ_ofZ; lia |].
  split; [rewrite Hh; apply toZ_ofZ; lia |].
  split; [symmetry; apply round_half_up_13_percent |].
  change (total t) with (add (subtotal t) (hst t)).
  rewrite Hsub, Hh, add_ofZ by lia. apply toZ_ofZ. lia.
Qed.

(** ** The carts a session can hold *)

(** A canonical Number that is a positive integer below 2^53 is the Number of
    that integer. *)
Lemma valid_int_canonical (x : number) (z : Z) :
  valid_binary prec emax x = true -> toZ x = Some z -> 0 < z < 2 ^ 53 ->
  x = ofZ z.
Proof.
  intros Hv Hz Hb. destruct x as [s|s| |s m e]; try discriminate.
  { injection Hz as <-. lia. }
  cbn [valid_binary] in Hv. unfold bounded, canonical_mantissa in Hv.
  apply andb_true_iff in Hv. destruct Hv as [Hc _]. apply Z.eqb_eq in Hc.
  pose proof (digits2_pos_bounds m) as [Hmlo Hmhi].
  set (d := Zpos (digits2_pos m)) in *.
  unfold fexp, emin, prec, emax in Hc.
  cbn [toZ] in Hz.
  destruct (0 <=? e) eqn:Ee.
  - apply Z.leb_le in Ee.
    assert (Hz' : cond_Zopp s (Zpos m * 2 ^ e) = z) by congruence.
    clear Hz. rename Hz' into Hz.
    assert (H2e : 0 < 2 ^ e) by (apply Z.pow_pos_nonneg; lia).
    assert (Hs : s = false) by (destruct s; [cbn [cond_Zopp] in Hz; nia | reflexivity]).
    subst s. cbn [cond_Zopp] in Hz.
    assert (Hd : d = 53 + e - e) by lia.
    assert (Hm52 : 2 ^ 52 <= Zpos m).
    { replace (d - 1) with 52 in Hmlo by lia. exact Hmlo. }
    assert (He0 : e = 0).
    { destruct (Z.eq_dec e 0) as [|Hne]; [assumption|].
      assert (2 <= 2 ^ e).
      { change 2 with (2 ^ 1) at 1. apply Z.pow_le_mono_r; lia. }
      nia. }
    subst e. rewrite Z.pow_0_r, Z.mul_1_r in Hz. subst z.
    rewrite ofZ_pos by lia. unfold canon. fold d.
    replace (53 - d) with 0 by lia. replace (d - 53) with 0 by lia.
    rewrite Z.pow_0_r, Z.mul_1_r. reflexivity.
  - apply Z.leb_gt in Ee.
    destruct (Zpos m mod 2 ^ (- e) =? 0) eqn:Emod; [|discriminate].
    apply Z.eqb_eq in Emod.
    assert (Hz' : cond_Zopp s (Zpos m / 2 ^ (- e)) = z) by congruence.
    clear Hz. rename Hz' into Hz.
    assert (H2e : 0 < 2 ^ (- e)) by (apply Z.pow_pos_nonneg; lia).
    assert (Hm : Zpos m = Zpos m / 2 ^ (- e) * 2 ^ (- e)).
    { pose proof (Z.div_mod (Zpos m) (2 ^ (- e)) ltac:(lia)). lia. }
    assert (Hs : s = false).
    { destruct s; [|reflexivity]. cbn [cond_Zopp] in Hz.
      assert (0 <= Zpos m / 2 ^ (- e)) by (apply Z.div_pos; lia). lia. }
    subst s. cbn [cond_Zopp] in Hz. rewrite Hz in Hm.
    destruct z as [|k|k]; try lia.
    assert (Hdk : Zpos (digits2_pos m) = Zpos (digits2_pos k) + - e)
      by (apply digits2_pos_shift; [lia | exact Hm]).
    fold d in Hdk.
    pose proof (digits_le_53 k ltac:(lia)) as Hk53.
    assert (Hnormal : d = 53).
    { destruct (Z.max_spec (d + e - 53) (3 - 1024 - 53)) as [[_ Hmax] | [_ Hmax]];
        rewrite Hmax in Hc; [|lia].
      exfalso. subst e.
      assert (2 ^ 53 <= 2 ^ (- (3 - 1024 - 53))) by (apply Z.pow_le_mono_r; lia).
      assert (Zpos m < 2 ^ 53).
      { eapply Z.lt_le_trans; [exact Hmhi|]. apply Z.pow_le_mono_r; lia. }
      nia. }
    rewrite ofZ_pos by lia. unfold canon.
    replace (53 - Zpos (digits2_pos k)) with (- e) by lia.
    replace (Zpos (digits2_pos k) - 53) with e by lia.
    rewrite <- Hm. reflexivity.
Qed.

Lemma field_wire (fields : list (string * json)) (key : string) (x : number) :
  wire_body (JObj fields) -> field key fields = Some (JNum x) ->
  valid_binary prec emax x = true.
Proof.
  cbn [wire_body]. intros Hw Hf. unfold field in Hf.
  destruct (find (fun kv => String.eqb (fst kv) key) (rev fields)) as [[k v]|] eqn:Efind;
    [|discriminate].
  injection Hf as ->. apply find_some in Efind. destruct Efind as [Hin _].
  apply in_rev in Hin. rewrite Forall_forall in Hw. exact (Hw _ Hin).
Qed.

(** The quantity a wire body parses to is the Number of an integer from 1 to
    10. *)
Lemma addSchema_wire (body : json) (k : string) (q : number) :
  wire_body body -> addSchema body = Some (k, q) ->
  exists z, q = ofZ z /\ 1 <= z <= 10.
Proof.
  intros Hw. unfold addSchema. destruct body as [| | | | |fields]; try discriminate.
  destruct (parse_sku (field "sku" fields)); [|discriminate].
  destruct (field "qty" fields) as [v|] eqn:Eq; cbn [parse_qty].
  - destruct v as [| |x| | |]; try discriminate.
    destruct (toZ x) as [z|] eqn:Ez; [|discriminate].
    destruct ((1 <=? z) && (z <=? 10)) eqn:Er; [|discriminate].
    apply andb_true_iff in Er. destruct Er as [H1 H2].
    apply Z.leb_le in H1. apply Z.leb_le in H2.
    intros [= _ <-]. exists z. split; [|lia].
    apply valid_int_canonical; [eapply field_wire; eassumption | exact Ez | lia].
  - intros [= _ <-]. exists 1. split; [reflexivity | lia].
Qed.

Lemma sum_magnitudes_app (l l' : list (Z * Z)) :
  sum_magnitudes (l ++ l') = sum_magnitudes l + sum_magnitudes l'.
Proof. induction l as [|x l IH]; simpl; [reflexivity|]. fold (sum_magnitudes (l ++ l')). lia. Qed.

Lemma line_bound (l : list (Z * Z)) (aq : Z * Z) :
  Forall (fun aq => 1 <= fst aq <= 1000 /\ 1 <= snd aq) l -> In aq l ->
  snd aq <= sum_magnitudes l.
Proof.
  induction 1 as [|x l Hx _ IH]; intros Hin; [destruct Hin|].
  pose proof (sum_magnitudes_nonneg l).
  cbn [sum_magnitudes fold_right]. fold (sum_magnitudes l).
  destruct Hin as [-> | Hin]; [nia | specialize (IH Hin); lia].
Qed.

Lemma bump_within (k : string) (z bound : Z) (c : list cart_line) :
  1 <= z <= 10 -> bound + 10000 < 2 ^ 53 ->
  cart_within bound c -> cart_within (bound + 10000) (bump k (ofZ z) c).
Proof.
  intros Hz Hb (l & Hc & Hok & Hsum). revert bound Hb Hsum.
  induction Hc as [|it aq c l Hit Hc IH]; intros bound Hb Hsum.
  - exists []. cbn [bump]. repeat split; [constructor | constructor | simpl in *; lia].
  - inversion Hok as [|? ? Haq Hok']; subst.
    pose proof (sum_magnitudes_nonneg l) as Hl.
    cbn [sum_magnitudes fold_right] in Hsum. fold (sum_magnitudes l) in Hsum.
    destruct Hit as (Hp & Hq & Ha & Hqb).
    cbn [bump]. destruct (String.eqb (sku it) k).
    + exists ((fst aq, snd aq + z) :: l). split; [| split].
      * constructor; [|exact Hc]. unfold int_line. cbn [add_qty unit_price_cents qty fst snd].
        rewrite Hq, add_ofZ by nia. repeat split; try assumption; try lia. nia.
      * constructor; [cbn [fst snd]; lia | exact Hok'].
      * cbn [sum_magnitudes fold_right fst snd]. fold (sum_magnitudes l). nia.
    + destruct (IH Hok' (bound - Z.abs (fst aq * snd aq)) ltac:(lia) ltac:(lia))
        as (l' & Hc' & Hok'' & Hsum').
      exists (aq :: l'). split; [| split].
      * constructor; [exact (conj Hp (conj Hq (conj Ha Hqb))) | exact Hc'].
      * constructor; assumption.
      * cbn [sum_magnitudes fold_right]. fold (sum_magnitudes l'). lia.
Qed.

Lemma cart_within_mono (b b' : Z) (c : list cart_line) :
  b <= b' -> cart_within b c -> cart_within b' c.
Proof. intros Hb (l & Hc & Hok & Hsum). exists l. repeat split; try assumption. lia. Qed.

Lemma cart_within_nil (b : Z) : 0 <= b -> cart_within b [].
Proof. intros Hb. exists []. repeat split; [constructor | constructor | exact Hb]. Qed.

(** One [POST /api/cart/add] raises the worth of the cart by at most ten
    units of the dearest product. *)
Lemma post_cart_add_within (body : json) (s : session) (bound : Z) :
  wire_body body -> 0 <= bound -> bound + 10000 < 2 ^ 53 ->
  cart_within bound (fst (getCart s)) ->
  cart_within (bound + 10000) (fst (getCart (snd (post_cart_add body s)))).
Proof.
  intros Hw Hb0 Hb Hin. unfold post_cart_add.
  destruct (addSchema body) as [[k q]|] eqn:Hparse.
  2:{ cbn [snd]. apply (cart_within_mono bound); [lia | exact Hin]. }
  destruct (addSchema_wire _ _ _ Hw Hparse) as (z & -> & Hz).
  destruct (addSchema_catalog _ _ _ Hparse) as (p & Hfind & Hp & Hk).
  rewrite Hfind. destruct (getCart s) as [c s1]. cbn [fst] in Hin.
  destruct (find (fun x => String.eqb (sku x) k) c); cbn [snd getCart cart fst].
  - apply bump_within; assumption.
  - destruct Hin as (l & Hc & Hok & Hsum).
    assert (Hprice : exists a, price_cents p = ofZ a /\ 1 <= a <= 1000).
    { destruct Hp as [<- | [<- | [<- | []]]]; eexists; (split; [reflexivity | lia]). }
    destruct Hprice as (a & Ha & Har).
    exists (l ++ [(a, z)]). split; [| split].
    + apply Forall2_app; [exact Hc|]. constructor; [|constructor].
      unfold int_line. cbn [unit_price_cents qty fst snd]. repeat split; try assumption; lia.
    + apply Forall_app. split; [exact Hok|]. constructor; [cbn [fst snd]; lia | constructor].
    + rewrite sum_magnitudes_app. cbn [sum_magnitudes fold_right fst snd]. nia.
Qed.

Lemma handle_within (HST_RATE : number) (r : request) (w : session * database) (bound : Z) :
  wire_request r -> 0 <= bound -> bound + 10000 * adds [r] < 2 ^ 53 ->
  cart_within bound (fst (getCart (fst w))) ->
  cart_within (bound + 10000 * adds [r]) (fst (getCart (fst (handle HST_RATE w r)))).
Proof.
  intros Hw Hb0 Hb Hin. destruct r as [|body| |f]; cbn [handle adds fst] in *.
  - rewrite Z.mul_0_r, Z.add_0_r. unfold get_cart.
    destruct (getCart (fst w)) as [c s1] eqn:Eg. cbn [snd fst] in *.
    replace (fst (getCart s1)) with c; [exact Hin|].
    unfold getCart in Eg |- *. destruct (cart (fst w)) eqn:Ec; injection Eg as <- <-.
    + rewrite Ec. reflexivity.
    + reflexivity.
  - replace (10000 * (1 + 0)) with 10000 in * by lia.
    apply post_cart_add_within; assumption.
  - rewrite Z.mul_0_r, Z.add_0_r. apply cart_within_nil. exact Hb0.
  - rewrite Z.mul_0_r, Z.add_0_r.
    destruct (post_checkout_cases HST_RATE f (fst w) (snd w))
      as [(_ & _ & _ & Hr) | (resp & db' & Hr & _)]; rewrite Hr; cbn [fst].
    + apply cart_within_nil. exact Hb0.
    + replace (fst (getCart (snd (getCart (fst w))))) with (fst (getCart (fst w)));
        [exact Hin|].
      unfold getCart. destruct (cart (fst w)) eqn:Ec; cbn [snd fst cart];
        [rewrite Ec|]; reflexivity.
Qed.

Lemma adds_nonneg (rs : list request) : 0 <= adds rs.
Proof. induction rs as [|[| | |] rs IH]; cbn [adds]; lia. Qed.

Lemma run_within (HST_RATE : number) (rs : list request) :
  Forall wire_request rs ->
  forall (w : session * database) (bound : Z),
    0 <= bound -> bound + 10000 * adds rs < 2 ^ 53 ->
    cart_within bound (fst (getCart (fst w))) ->
    cart_within (bound + 10000 * adds rs) (fst (getCart (fst (run HST_RATE rs w)))).
Proof.
  induction 1 as [|r rs Hr _ IH]; intros w bound Hb0 Hb Hin.
  - cbn [run fold_left adds]. rewrite Z.mul_0_r, Z.add_0_r. exact Hin.
  - pose proof (adds_nonneg rs) as Hrs. pose proof (adds_nonneg [r]) as Hr1.
    assert (Hsplit : adds (r :: rs) = adds [r] + adds rs)
      by (destruct r; cbn [adds]; lia).
    rewrite Hsplit in Hb |- *.
    cbn [run fold_left]. fold (run HST_RATE rs (handle HST_RATE w r)).
    replace (bound + 10000 * (adds [r] + adds rs))
      with ((bound + 10000 * adds [r]) + 10000 * adds rs) by lia.
    apply IH; [lia | lia |].
    apply handle_within; try assumption; lia.
Qed.

(** X9: whatever requests a session has sent, as long as fewer than 2^53 / 10000
    of them were adds, its cart is a cart of integer lines worth at most
    10000 cents per add: [computeTotals] is exact on it and does not depend on
    the order of its lines. *)
Lemma session_cart_exact (HST_RATE : number) (rs : list request) (db : database) :
  Forall wire_request rs -> 10000 * adds rs < 2 ^ 53 ->
  let c := fst (getCart (fst (run HST_RATE rs (Session None, db)))) in
  exists l,
    Forall2 int_line c l /\ sum_magnitudes l <= 10000 * adds rs /\
    toZ (subtotal (computeTotals HST_RATE c)) = Some (sum_products l) /\
    forall c', Permutation c c' -> computeTotals HST_RATE c' = computeTotals HST_RATE c.
Proof.
  intros Hw Hb c.
  destruct (run_within HST_RATE rs Hw (Session None, db) 0 ltac:(lia) ltac:(lia)
              (cart_within_nil 0 ltac:(lia))) as (l & Hc & _ & Hsum).
  fold c in Hc. rewrite Z.add_0_l in Hsum.
  pose proof (sum_products_bound l) as Hsp.
  exists l. split; [exact Hc | split; [exact Hsum | split]].
  - rewrite (subtotal_exact HST_RATE c l Hc) by lia. apply toZ_ofZ. lia.
  - intros c' Hp.
    destruct (Permutation_Forall2 Hp Hc) as (l' & Hll' & Hc').
    assert (Hsub : subtotal (computeTotals HST_RATE c') = subtotal (computeTotals HST_RATE c)).
    { assert (Hl' : sum_magnitudes l' < 2 ^ 53)
        by (rewrite <- (sum_magnitudes_perm l l' Hll'); lia).
      rewrite (subtotal_exact HST_RATE c l), (subtotal_exact HST_RATE c' l');
        try assumption; try lia.
      f_equal. symmetry. apply sum_products_perm. exact Hll'. }
    unfold computeTotals in *. cbn [subtotal] in Hsub. rewrite Hsub. reflexivity.
Qed.

(** ** [money]: the division by 100 and [toFixed(2)] *)

Lemma shr_iter_mantissa (k : nat) (mrs : shr_record) :
  0 <= shr_m mrs ->
  shr_m (Nat.iter k shr_1 mrs) = shr_m mrs / 2 ^ Z.of_nat k.
Proof.
  intros Hm. induction k as [|k IH].
  - cbn [Nat.iter]. change (Z.of_nat 0) with 0. rewrite Z.pow_0_r, Z.div_1_r. reflexivity.
  - change (Nat.iter (S k) shr_1 mrs) with (shr_1 (Nat.iter k shr_1 mrs)).
    assert (Hp : 0 < 2 ^ Z.of_nat k) by (apply Z.pow_pos_nonneg; lia).
    destruct (Nat.iter k shr_1 mrs) as [q r t] eqn:Eit. cbn [shr_m] in IH.
    rewrite shr_1_spec by (rewrite IH; apply Z.div_pos; lia).
    cbn [shr_m]. rewrite IH, Z.div_div by lia.
    rewrite Nat2Z.inj_succ, Z.pow_succ_r by lia. f_equal. ring.
Qed.

(** The mantissa after a shift, whatever round and sticky bits come in. *)
Lemma shr_mantissa (mrs : shr_record) (e n : Z) :
  0 <= shr_m mrs -> 0 <= n ->
  shr_m (fst (shr mrs e n)) = shr_m mrs / 2 ^ n /\ snd (shr mrs e n) = e + n.
Proof.
  intros Hm Hn. destruct n as [|p|p]; [| | lia].
  - cbn [shr fst snd]. rewrite Z.pow_0_r, Z.div_1_r, Z.add_0_r. split; reflexivity.
  - unfold shr. cbn [fst snd]. rewrite iter_pos_nat, shr_iter_mantissa by assumption.
    rewrite positive_nat_Z. split; reflexivity.
Qed.

(** The last step of a rounding: a mantissa that has just been rounded to 53
    bits, or to 2^53. *)
Lemma round_finish (s : bool) (q : Z) (e : Z) :
  2 ^ 52 <= q <= 2 ^ 53 -> -1074 <= e -> e < 971 ->
  exists m1 e1,
    (let '(mrs, e') := shr_fexp prec emax q e loc_Exact in
     match shr_m mrs with
     | 0 => S754_zero s
     | Zpos m => if e' <=? emax - prec then S754_finite s m e' else S754_infinity s
     | Zneg _ => S754_nan
     end) = S754_finite s m1 e1 /\
    Zpos m1 < 2 ^ 53 /\ e <= e1 <= e + 1 /\ q = Zpos m1 * 2 ^ (e1 - e).
Proof.
  intros Hq Hlo Hhi.
  destruct q as [|p|p]; [lia | | lia].
  destruct (Z.eq_dec (Zpos p) (2 ^ 53)) as [Htop | Htop].
  - assert (Hdp : Zpos (digits2_pos p) = 54).
    { apply digits2_pos_unique. rewrite Htop. split; [reflexivity | lia]. }
    assert (H2 : shr_fexp prec emax (Zpos p) e loc_Exact
                 = (Build_shr_record (2 ^ 52) false false, e + 1)).
    { unfold shr_fexp. cbn [Zdigits2 shr_record_of_loc]. rewrite Hdp.
      rewrite fexp_normal by lia.
      replace (54 + e - 53 - e) with 1 by lia.
      rewrite shr_spec by lia. rewrite Htop. reflexivity. }
    rewrite H2. cbn [shr_m].
    change (2 ^ 52) with (Zpos 4503599627370496). cbv iota.
    replace (e + 1 <=? emax - prec) with true
      by (symmetry; apply Z.leb_le; unfold emax, prec; lia).
    exists 4503599627370496%positive, (e + 1).
    repeat split; try lia.
    replace (e + 1 - e) with 1 by lia. rewrite Htop. reflexivity.
  - assert (Hdp : Zpos (digits2_pos p) = 53) by (apply digits2_pos_unique; lia).
    assert (H2 : shr_fexp prec emax (Zpos p) e loc_Exact
                 = (Build_shr_record (Zpos p) false false, e)).
    { unfold shr_fexp. cbn [Zdigits2 shr_record_of_loc]. rewrite Hdp.
      rewrite fexp_normal by lia.
      replace (53 + e - 53 - e) with 0 by lia. reflexivity. }
    rewrite H2. cbn [shr_m].
    replace (e <=? emax - prec) with true
      by (symmetry; apply Z.leb_le; unfold emax, prec; lia).
    exists p, e. repeat split; try lia.
    replace (e - e) with 0 by lia. rewrite Z.pow_0_r. lia.
Qed.

Lemma shr_record_of_loc_m (m : Z) (l : location) : shr_m (shr_record_of_loc m l) = m.
Proof. destruct l as [|[| |]]; reflexivity. Qed.

(** Rounding a mantissa of at least 53 bits that comes with a location, as
    the quotient of a division does: the result is at most one unit of the
    last place away from the mantissa. *)
Lemma binary_round_aux_located (s : bool) (m : positive) (e : Z) (lx : location) :
  let n := Zpos (digits2_pos m) - 53 in
  0 <= n -> -1074 <= e + n -> e + n < 971 ->
  exists m1 e1 M1,
    binary_round_aux prec emax s (Zpos m) e lx = S754_finite s m1 e1 /\
    Zpos m1 < 2 ^ 53 /\ e + n <= e1 <= e + n + 1 /\
    M1 = Zpos m1 * 2 ^ (e1 - (e + n)) /\
    Zpos m / 2 ^ n <= M1 <= Zpos m / 2 ^ n + 1.
Proof.
  intros n Hn Hlo Hhi.
  pose proof (digits2_pos_bounds m) as [Hdlo Hdhi].
  set (d := Zpos (digits2_pos m)) in *.
  assert (Hd : d = 53 + n) by (unfold n; lia).
  assert (H2n : 0 < 2 ^ n) by (apply Z.pow_pos_nonneg; lia).
  set (q := Zpos m / 2 ^ n).
  assert (Hq : 2 ^ 52 <= q < 2 ^ 53).
  { unfold q. rewrite Hd in Hdlo, Hdhi.
    replace (53 + n - 1) with (52 + n) in Hdlo by lia.
    rewrite Z.pow_add_r in Hdlo, Hdhi by lia. split.
    - apply Z.div_le_lower_bound; lia.
    - apply Z.div_lt_upper_bound; lia. }
  unfold binary_round_aux.
  assert (H1 : exists r t, shr_fexp prec emax (Zpos m) e lx = (Build_shr_record q r t, e + n)).
  { unfold shr_fexp. cbn [Zdigits2]. fold d.
    rewrite fexp_normal by lia. replace (d + e - 53 - e) with n by lia.
    pose proof (shr_mantissa (shr_record_of_loc (Zpos m) lx) e n) as [Hm He];
      [rewrite shr_record_of_loc_m; lia | lia |].
    rewrite shr_record_of_loc_m in Hm. fold q in Hm.
    destruct (shr (shr_record_of_loc (Zpos m) lx) e n) as [[q0 r t] e0].
    cbn [fst snd shr_m] in Hm, He. subst q0 e0. exists r, t. reflexivity. }
  destruct H1 as (r & t & ->). cbn [shr_m].
  pose proof (round_nearest_even_bounds q r t) as [Hq' _].
  set (q' := round_nearest_even q _) in *.
  destruct (round_finish s q' (e + n) ltac:(lia) Hlo Hhi) as (m1 & e1 & Hres & Hm1 & He1 & HM1).
  exists m1, e1, q'. rewrite Hres. repeat split; try lia.
Qed.

Lemma div_eucl_div_mod (a b : Z) :
  Z.div_eucl a b = (a / b, a mod b).
Proof. unfold Z.div, Z.modulo. destruct (Z.div_eucl a b). reflexivity. Qed.

(** A positive integer of cents below 2^50 divided by 100: the quotient is a
    Number [m1 * 2^e1] with [e1 < 0] that [toFixed(2)] rounds back to the
    cents. *)
Lemma div_100_window (c : positive) :
  Zpos c < 2 ^ 50 ->
  exists m1 e1,
    div (ofZ (Zpos c)) (ofZ 100) = S754_finite false m1 e1 /\
    Zpos m1 < 2 ^ 53 /\ e1 < 0 /\
    (200 * Zpos m1 + 2 ^ (- e1)) / 2 ^ (1 - e1) = Zpos c.
Proof.
  intros Hc.
  rewrite ofZ_pos by lia.
  change (ofZ 100) with (S754_finite false 7036874417766400 (-46)).
  pose proof (digits_le_53 c ltac:(lia)) as Hdc.
  pose proof (digits2_pos_bounds c) as [Hclo Hchi].
  set (dc := Zpos (digits2_pos c)) in *.
  assert (Hdc50 : dc <= 50).
  { destruct (Z.le_gt_cases dc 50) as [|Hgt]; [assumption|].
    assert (2 ^ 50 <= 2 ^ (dc - 1)) by (apply Z.pow_le_mono_r; lia). lia. }
  set (W := 2 ^ (53 - dc)).
  assert (HW : 0 < W) by (apply Z.pow_pos_nonneg; lia).
  unfold canon. fold dc. fold W.
  set (mc := Z.to_pos (Zpos c * W)).
  assert (Hmc : Zpos mc = Zpos c * W) by (unfold mc; rewrite Z2Pos.id; nia).
  assert (Hdmc : Zpos (digits2_pos mc) = 53).
  { rewrite (digits2_pos_shift c mc (53 - dc)); fold dc; [lia | lia | exact Hmc]. }
  unfold div, SFdiv, SFdiv_core_binary. cbn [Zdigits2 xorb]. rewrite Hdmc.
  change (Zpos (digits2_pos 7036874417766400)) with 53.
  replace (53 + (dc - 53) - (53 + -46)) with (dc - 7) by lia.
  rewrite fexp_normal by lia.
  replace (Z.min (dc - 7 - 53) (dc - 53 - -46)) with (dc - 60) by lia.
  replace (dc - 53 - -46 - (dc - 60)) with 53 by lia.
  cbv iota. rewrite Z.shiftl_mul_pow2 by lia.
  rewrite div_eucl_div_mod.
  set (m' := Zpos mc * 2 ^ 53).
  set (q := m' / Zpos 7036874417766400).
  set (lx := new_location (Zpos 7036874417766400) (m' mod Zpos 7036874417766400)).
  (* the quotient has 53 or 54 bits *)
  assert (Hmcr : 2 ^ 52 <= Zpos mc < 2 ^ 53).
  { pose proof (digits2_pos_bounds mc) as Hb. rewrite Hdmc in Hb. exact Hb. }
  assert (Hqdef : 7036874417766400 * q <= m' < 7036874417766400 * q + 7036874417766400).
  { unfold q. pose proof (Z.div_mod m' 7036874417766400 ltac:(lia)).
    pose proof (Z.mod_pos_bound m' 7036874417766400 ltac:(lia)). lia. }
  assert (Hqr : 2 ^ 52 <= q < 2 ^ 54) by (unfold m' in Hqdef; lia).
  destruct q as [|pq|pq] eqn:Eq; [lia | | lia].
  pose proof (digits2_pos_bounds pq) as [Hdqlo Hdqhi].
  set (dq := Zpos (digits2_pos pq)) in *.
  assert (Hdq : 53 <= dq <= 54).
  { split.
    - assert (Hlt : 2 ^ 52 < 2 ^ dq) by lia.
      apply Z.pow_lt_mono_r_iff in Hlt; lia.
    - assert (Hlt : 2 ^ (dq - 1) < 2 ^ 54) by lia.
      apply Z.pow_lt_mono_r_iff in Hlt; lia. }
  destruct (binary_round_aux_located false pq (dc - 60) lx)
    as (m1 & e1 & M1 & Hres & Hm1 & He1 & HM1 & Hwin); fold dq; try lia.
  fold dq in He1, HM1, Hwin.
  exists m1, e1. split; [exact Hres|]. split; [exact Hm1|]. split; [lia|].
  set (n := dq - 53) in *.
  set (G := 60 - dc - n).
  assert (HG : 9 <= G) by (unfold G, n; lia).
  replace (dc - 60 + n) with (- G) in * by (unfold G; lia).
  set (pn := 2 ^ n) in *. set (pG := 2 ^ G).
  assert (Hpn : 0 < pn) by (apply Z.pow_pos_nonneg; unfold n; lia).
  assert (HpG : 512 <= pG).
  { change 512 with (2 ^ 9). apply Z.pow_le_mono_r; lia. }
  assert (HnG : pn * pG = 128 * W).
  { unfold pn, pG, W. rewrite <- Z.pow_add_r by (unfold n; lia).
    change 128 with (2 ^ 7). rewrite <- Z.pow_add_r by lia. f_equal. unfold G. lia. }
  (* 100 q <= 128 c W < 100 q + 100 *)
  set (cW := Zpos c * W) in *.
  assert (H100 : 100 * Zpos pq <= 128 * cW < 100 * Zpos pq + 100).
  { unfold m' in Hqdef. rewrite Hmc in Hqdef. lia. }
  set (X := pn * M1).
  assert (HX : Zpos pq - pn + 1 <= X <= Zpos pq + pn).
  { pose proof (Z.div_mod (Zpos pq) pn ltac:(lia)) as Hdm.
    pose proof (Z.mod_pos_bound (Zpos pq) pn Hpn) as Hmb.
    destruct Hwin as [Hw1 Hw2].
    assert (pn * (Zpos pq / pn) <= X) by (apply Z.mul_le_mono_nonneg_l; lia).
    assert (X <= pn * (Zpos pq / pn + 1)) by (apply Z.mul_le_mono_nonneg_l; lia).
    lia. }
  assert (Hpp : 512 * pn <= 128 * W).
  { rewrite <- HnG. rewrite (Z.mul_comm pn pG). apply Z.mul_le_mono_nonneg_r; lia. }
  assert (HA : (2 * Zpos c - 1) * pG <= 200 * M1).
  { apply (Z.mul_le_mono_pos_l _ _ pn Hpn).
    replace (pn * ((2 * Zpos c - 1) * pG)) with ((2 * Zpos c - 1) * (pn * pG)) by ring.
    rewrite HnG.
    replace ((2 * Zpos c - 1) * (128 * W)) with (256 * cW - 128 * W) by (unfold cW; ring).
    replace (pn * (200 * M1)) with (200 * X) by (unfold X; ring).
    lia. }
  assert (HB : 200 * M1 < (2 * Zpos c + 1) * pG).
  { apply (Z.mul_lt_mono_pos_l pn _ _ Hpn).
    replace (pn * ((2 * Zpos c + 1) * pG)) with ((2 * Zpos c + 1) * (pn * pG)) by ring.
    rewrite HnG.
    replace ((2 * Zpos c + 1) * (128 * W)) with (256 * cW + 128 * W) by (unfold cW; ring).
    replace (pn * (200 * M1)) with (200 * X) by (unfold X; ring).
    lia. }
  assert (HpG0 : 0 < pG) by lia.
  destruct (Z.eq_dec e1 (- G)) as [-> | Hne].
  - replace (- G - - G) with 0 in HM1 by lia. rewrite Z.pow_0_r, Z.mul_1_r in HM1.
    subst M1. replace (- - G) with G by lia. replace (1 - - G) with (Z.succ G) by lia.
    rewrite Z.pow_succ_r by lia. fold pG.
    apply Z.le_antisymm.
    + apply Z.lt_succ_r. apply Z.div_lt_upper_bound; lia.
    + apply Z.div_le_lower_bound; lia.
  - assert (e1 = - G + 1) by lia. subst e1.
    replace (- G + 1 - - G) with 1 in HM1 by lia. rewrite Z.pow_1_r in HM1.
    subst M1. replace (1 - (- G + 1)) with G by lia.
    replace (- (- G + 1)) with (G - 1) by lia. fold pG.
    assert (HpG2 : pG = 2 * 2 ^ (G - 1)).
    { unfold pG. rewrite <- Z.pow_succ_r by lia. f_equal. lia. }
    set (pG' := 2 ^ (G - 1)) in *.
    apply Z.le_antisymm.
    + apply Z.lt_succ_r. apply Z.div_lt_upper_bound; lia.
    + apply Z.div_le_lower_bound; lia.
Qed.

Lemma money_dollars (c : Z) :
  0 <= c < 2 ^ 50 -> money (ofZ c) = dollars c.
Proof.
  intros [Hc0 Hc]. destruct c as [|p|p]; [reflexivity | | lia].
  destruct (div_100_window p Hc) as (m1 & e1 & Hdiv & Hm1 & He1 & Hn).
  unfold money, dollars. rewrite Hdiv. unfold toFixed2.
  replace (0 <=? e1) with false by (symmetry; apply Z.leb_gt; lia).
  rewrite Hn.
  replace (10 ^ 21 * 2 ^ (- e1) <=? Zpos m1) with false; [reflexivity|].
  symmetry. apply Z.leb_gt.
  assert (1 <= 2 ^ (- e1)) by (assert (0 < 2 ^ (- e1)) by (apply Z.pow_pos_nonneg; lia); lia).
  assert (2 ^ 53 < 10 ^ 21) by reflexivity. nia.
Qed.

(** X1: [money] prints a non-negative integer of cents below 2^50 as its
    dollars, a point and its two digits of cents: the division by 100 and
    the rounding of [toFixed(2)] lose nothing. *)
Theorem money_of_cents (c : Z) :
  0 <= c < 2 ^ 50 ->
  money (ofZ c) = Txt (decimal (c / 100) ++ "." ++ two_digits (c mod 100)).
Proof. exact (money_dollars c). Qed.

Lemma money_of_cents_witness :
  money (ofZ 2712) = Txt "27.12".
Proof. exact (money_of_cents 2712 ltac:(lia)). Defined.

(** ** Carts hold one line per sku, taken from the catalog *)

Lemma find_sku_none (k : string) (c : list cart_line) :
  find (fun x => String.eqb (sku x) k) c = None -> ~ In k (map sku c).
Proof.
  induction c as [|x c IH]; simpl; [intros _ []|].
  destruct (String.eqb (sku x) k) eqn:E; [discriminate|].
  apply String.eqb_neq in E. intros Hn [H | H]; [congruence | exact (IH Hn H)].
Qed.

Lemma bump_skus (k : string) (q : number) (c : list cart_line) :
  map sku (bump k q c) = map sku c.
Proof.
  induction c as [|x c IH]; [reflexivity|]. cbn [bump].
  destruct (String.eqb (sku x) k); cbn [map]; [reflexivity | f_equal; exact IH].
Qed.

Lemma bump_catalog (k : string) (q : number) (c : list cart_line) :
  Forall catalog_line c -> Forall catalog_line (bump k q c).
Proof.
  induction 1 as [|x c Hx Hc IH]; [constructor|]. cbn [bump].
  destruct (String.eqb (sku x) k); constructor; assumption.
Qed.

Lemma getCart_twice (s : session) :
  fst (getCart (snd (getCart s))) = fst (getCart s).
Proof. unfold getCart. destruct (cart s) eqn:E; cbn [snd fst cart]; rewrite ?E; reflexivity. Qed.

Lemma get_cart_session (HST_RATE : number) (s : session) :
  snd (get_cart HST_RATE s) = snd (getCart s).
Proof. unfold get_cart. destruct (getCart s). reflexivity. Qed.

Lemma post_cart_add_sound (body : json) (s : session) :
  cart_sound (fst (getCart s)) ->
  cart_sound (fst (getCart (snd (post_cart_add body s)))).
Proof.
  intros [Hnd Hcat]. unfold post_cart_add.
  destruct (addSchema body) as [[k q]|] eqn:Hparse; [|split; assumption].
  destruct (addSchema_catalog _ _ _ Hparse) as (p & Hfind & Hp & Hk).
  rewrite Hfind. destruct (getCart s) as [c s1]. cbn [fst] in *.
  destruct (find (fun x => String.eqb (sku x) k) c) eqn:Ef; cbn [snd getCart cart fst].
  - split; [rewrite bump_skus; exact Hnd | apply bump_catalog; exact Hcat].
  - split.
    + rewrite map_app. cbn [map sku]. rewrite Hk.
      apply NoDup_app_remove_l with (l := []). cbn [app].
      apply (Permutation_NoDup (l := k :: map sku c)).
      * apply Permutation_cons_append.
      * constructor; [apply find_sku_none; exact Ef | exact Hnd].
    + apply Forall_app. split; [exact Hcat|]. constructor; [|constructor].
      exists p. repeat split; assumption.
Qed.

Lemma cart_sound_nil : cart_sound [].
Proof. split; constructor. Qed.

Lemma handle_sound (HST_RATE : number) (w : session * database) (r : request) :
  cart_sound (fst (getCart (fst w))) ->
  cart_sound (fst (getCart (fst (handle HST_RATE w r)))).
Proof.
  intros Hin. destruct r as [|body| |f]; cbn [handle fst].
  - rewrite get_cart_session, getCart_twice. exact Hin.
  - apply post_cart_add_sound. exact Hin.
  - exact cart_sound_nil.
  - destruct (post_checkout_cases HST_RATE f (fst w) (snd w))
      as [(_ & _ & _ & Hr) | (resp & db' & Hr & _)]; rewrite Hr; cbn [fst].
    + exact cart_sound_nil.
    + rewrite getCart_twice. exact Hin.
Qed.

Lemma run_sound (HST_RATE : number) (rs : list request) (w : session * database) :
  cart_sound (fst (getCart (fst w))) ->
  cart_sound (fst (getCart (fst (run HST_RATE rs w)))).
Proof.
  revert w. induction rs as [|r rs IH]; intros w Hin; [exact Hin|].
  cbn [run fold_left]. apply (IH (handle HST_RATE w r)). apply handle_sound. exact Hin.
Qed.

Lemma catalog_skus (c : list cart_line) :
  Forall catalog_line c -> incl (map sku c) sku_enum.
Proof.
  intros Hc k Hk. apply in_map_iff in Hk. destruct Hk as (it & <- & Hit).
  rewrite Forall_forall in Hc. destruct (Hc it Hit) as (p & Hp & -> & _).
  destruct Hp as [<- | [<- | [<- | []]]]; simpl; auto.
Qed.

(** X6: whatever requests a session sends, in whatever order and with whatever
    bodies, its cart has at most one line per sku and at most three lines,
    and every line carries the name and the price the catalog gives to its
    sku. *)
Theorem session_cart_catalog (HST_RATE : number) (rs : list request) (db : database) :
  let c := fst (getCart (fst (run HST_RATE rs (Session None, db)))) in
  NoDup (map sku c) /\ Forall catalog_line c /\ (List.length c <= 3)%nat.
Proof.
  intros c.
  destruct (run_sound HST_RATE rs (Session None, db) cart_sound_nil) as [Hnd Hcat].
  fold c in Hnd, Hcat. split; [exact Hnd | split; [exact Hcat|]].
  rewrite <- (length_map sku c).
  apply (NoDup_incl_length Hnd (catalog_skus c Hcat)).
Qed.

(** ** What [POST /api/cart/add] accepts *)

Lemma addSchema_valid (body : json) :
  valid_add_body body <-> exists k q, addSchema body = Some (k, q).
Proof.
  split.
  - intros (fields & k & -> & Hsku & Hk & Hq). unfold addSchema. rewrite Hsku.
    cbn [parse_sku].
    replace (existsb (String.eqb k) sku_enum) with true
      by (symmetry; apply existsb_exists; exists k; split; [exact Hk | apply String.eqb_refl]).
    destruct Hq as [-> | (x & z & -> & Hz & Hr)]; cbn [parse_qty].
    + eexists _, _. reflexivity.
    + rewrite Hz.
      replace ((1 <=? z) && (z <=? 10)) with true
        by (symmetry; apply andb_true_iff; split; apply Z.leb_le; lia).
      eexists _, _. reflexivity.
  - intros (k & q & Hparse). unfold addSchema in Hparse.
    destruct body as [| | | | |fields]; try discriminate.
    exists fields.
    destruct (field "sku" fields) as [[| | |s| |]|] eqn:Es; try discriminate.
    cbn [parse_sku] in Hparse.
    destruct (existsb (String.eqb s) sku_enum) eqn:Ee; [|discriminate].
    exists s. split; [reflexivity | split; [reflexivity | split]].
    + apply existsb_exists in Ee. destruct Ee as (x & Hx & Ex).
      apply String.eqb_eq in Ex. subst x. exact Hx.
    + destruct (field "qty" fields) as [v|]; [|left; reflexivity].
      right. destruct v as [| |x| | |]; try discriminate.
      cbn [parse_qty] in Hparse.
      destruct (toZ x) as [z|] eqn:Ez; [|discriminate].
      destruct ((1 <=? z) && (z <=? 10)) eqn:Er; [|discriminate].
      apply andb_true_iff in Er. destruct Er as [H1 H2].
      apply Z.leb_le in H1. apply Z.leb_le in H2.
      exists x, z. split; [reflexivity | split; [exact Ez | lia]].
Qed.

(** X5: [POST /api/cart/add] has two answers only. It answers [{ ok: true }]
    exactly when the body is an object whose sku is a string of the catalog
    and whose qty is missing or an integer Number from 1 to 10; to every
    other body (not an object, a sku that is missing or not a string, a qty
    that is null, a string, a fraction or out of bounds) it answers 400
    [invalid_input] and leaves the session as it was. *)
Theorem add_answers (body : json) (s : session) :
  (valid_add_body body <-> fst (post_cart_add body s) = RespOk) /\
  (~ valid_add_body body ->
   post_cart_add body s = (RespError 400 "invalid_input", s)).
Proof.
  assert (Hok : forall k q, addSchema body = Some (k, q) -> fst (post_cart_add body s) = RespOk).
  { intros k q Hparse. unfold post_cart_add. rewrite Hparse.
    destruct (addSchema_catalog _ _ _ Hparse) as (p & Hfind & _).
    rewrite Hfind. destruct (getCart s) as [c s1].
    destruct (find (fun x => String.eqb (sku x) k) c); reflexivity. }
  split; [split|].
  - intros Hv. apply addSchema_valid in Hv. destruct Hv as (k & q & Hparse).
    exact (Hok k q Hparse).
  - intros Hr. apply addSchema_valid.
    unfold post_cart_add in Hr. destruct (addSchema body) as [[k q]|]; [|discriminate Hr].
    eexists _, _. reflexivity.
  - intros Hnv. unfold post_cart_add.
    destruct (addSchema body) as [[k q]|] eqn:Hparse; [|reflexivity].
    exfalso. apply Hnv. apply addSchema_valid. eexists _, _. exact Hparse.
Qed.

(** ** Totals of an empty cart, and a rate that is not a number *)

(** X3: on a cart without lines (a fresh session included) and with any finite
    rate, [GET /api/cart] shows no line and the three amounts 0.00. *)
Theorem empty_cart_view (HST_RATE : number) (v : Q) (s : session) :
  toQ HST_RATE = Some v -> fst (getCart s) = [] ->
  get_cart HST_RATE s
  = (RespCart [] (TotalsView (Txt "0.00") (Txt "0.00") (Txt "0.00") HST_RATE),
     Session (Some [])).
Proof.
  intros Hv Hc. unfold get_cart.
  assert (Hs : getCart s = ([], Session (Some []))).
  { unfold getCart in *. destruct (cart s) as [c|] eqn:E; cbn [fst] in Hc.
    - subst c. destruct s as [cs]. cbn [cart] in E. subst cs. reflexivity.
    - reflexivity. }
  rewrite Hs.
  destruct HST_RATE as [sr|sr| |sr m e]; try discriminate; destruct sr; reflexivity.
Qed.

Lemma empty_cart_view_witness :
  get_cart HST_RATE_default (Session None)
  = (RespCart [] (TotalsView (Txt "0.00") (Txt "0.00") (Txt "0.00") HST_RATE_default),
     Session (Some [])).
Proof.
  exact (empty_cart_view HST_RATE_default _ (Session None) eq_refl eq_refl).
Defined.

Lemma mul_nan_r (x : number) : mul x S754_nan = S754_nan.
Proof. destruct x; reflexivity. Qed.

Lemma add_nan_r (x : number) : add x S754_nan = S754_nan.
Proof. destruct x; reflexivity. Qed.

(** X4: when [HST_RATE] is NaN, as [Number] makes it of a variable that is not a
    number, the tax and the total of every cart are NaN, whatever the lines,
    and [money] prints them through [Number::toString] instead of two
    decimals. *)
Theorem nan_rate_totals (c : list cart_line) :
  let t := computeTotals S754_nan c in
  hst t = S754_nan /\ total t = S754_nan /\
  money (hst t) = ToString S754_nan /\ money (total t) = ToString S754_nan.
Proof.
  intros t.
  assert (Hh : hst t = S754_nan).
  { change (hst t) with (Math_round (mul (subtotal t) S754_nan)). rewrite mul_nan_r. reflexivity. }
  assert (Ht : total t = S754_nan).
  { change (total t) with (add (subtotal t) (hst t)). rewrite Hh. apply add_nan_r. }
  split; [exact Hh | split; [exact Ht | split]].
  - rewrite Hh. reflexivity.
  - rewrite Ht. reflexivity.
Qed.

(** ** The store under any sequence of requests *)

Lemma NoDup_snoc {A : Type} (l : list A) (x : A) :
  NoDup l -> ~ In x l -> NoDup (l ++ [x]).
Proof.
  induction l as [|a l IH]; intros Hnd Hx; cbn [app].
  - constructor; [intros [] | constructor].
  - inversion Hnd as [|a' l' Ha Hl]; subst. constructor.
    + rewrite in_app_iff. intros [H | [H | []]]; [exact (Ha H) |].
      apply Hx. left. symmetry. exact H.
    + apply IH; [exact Hl |]. intros H. apply Hx. right. exact H.
Qed.

Lemma line_rows_order_id (id : Z) (c : list cart_line) :
  Forall (fun i => oi_order_id i = id) (line_rows id c).
Proof. induction c as [|it c IH]; constructor; [reflexivity | exact IH]. Qed.

Lemma post_checkout_linked (HST_RATE : number) (f : faults) (s : session) (db : database) :
  Forall (fun o => order_id o < next_order_id db) (orders db) ->
  store_linked db ->
  store_linked (snd (post_checkout HST_RATE f s db)).
Proof.
  intros Hord (Hnd & Hhas & Hin).
  destruct (post_checkout_cases HST_RATE f s db)
    as [(Hne & _ & _ & ->) | (resp & db' & -> & Ho & Hi & Hn & _)]; cbn [snd].
  - set (c := fst (getCart s)) in *. set (id := next_order_id db).
    unfold store_linked. cbn [orders order_items next_order_id].
    split; [| split].
    + rewrite map_app. cbn [map order_id]. apply NoDup_snoc; [exact Hnd|].
      intros Hid. apply in_map_iff in Hid. destruct Hid as (o & Eo & Hoo).
      rewrite Forall_forall in Hord. specialize (Hord o Hoo). cbv beta in Hord.
      fold id in Hord. lia.
    + apply Forall_app. split.
      * eapply Forall_impl; [|exact Hhas]. cbv beta. intros o Hoo.
        rewrite items_of_app. intros E. apply app_eq_nil in E. exact (Hoo (proj1 E)).
      * constructor; [|constructor]. cbn [order_id].
        rewrite items_of_app, filter_line_rows_same.
        intros E. apply app_eq_nil in E. destruct E as [_ E].
        apply Hne. destruct c; [reflexivity | discriminate E].
    + rewrite map_app. apply Forall_app. split.
      * eapply Forall_impl; [|exact Hin]. cbv beta. intros i Hii.
        apply in_or_app. left. exact Hii.
      * eapply Forall_impl; [|apply line_rows_order_id]. cbv beta. intros i ->.
        apply in_or_app. right. left. reflexivity.
  - unfold store_linked. rewrite Ho, Hi.
    assert (Hitems : forall k, items_of db' k = items_of db k)
      by (intros k; unfold items_of; rewrite Hi; reflexivity).
    split; [exact Hnd | split; [| exact Hin]].
    eapply Forall_impl; [|exact Hhas]. cbv beta. intros o Hoo. rewrite Hitems. exact Hoo.
Qed.

(** X19: the tables only grow, and only by checkouts: after any sequence of
    requests the orders and the lines that were stored are still there,
    unchanged and in their place, followed by at most one new order per
    checkout request; the key counter never goes back. *)
Theorem store_append_only (HST_RATE : number) (rs : list request) (w : session * database) :
  let db := snd w in
  let db' := snd (run HST_RATE rs w) in
  exists os ls,
    orders db' = orders db ++ os /\ order_items db' = order_items db ++ ls /\
    (List.length os <= checkouts rs)%nat /\
    next_order_id db <= next_order_id db'.
Proof.
  revert w. induction rs as [|r rs IH]; intros w; cbn zeta.
  - exists [], []. rewrite !app_nil_r. cbn. repeat split; lia.
  - cbn [run fold_left]. fold (run HST_RATE rs (handle HST_RATE w r)).
    destruct (IH (handle HST_RATE w r)) as (os & ls & Ho & Hi & Hlen & Hn).
    cbn zeta in *.
    assert (Hstep : exists os1 ls1,
               orders (snd (handle HST_RATE w r)) = orders (snd w) ++ os1 /\
               order_items (snd (handle HST_RATE w r)) = order_items (snd w) ++ ls1 /\
               (List.length os1 + checkouts rs <= checkouts (r :: rs))%nat /\
               next_order_id (snd w) <= next_order_id (snd (handle HST_RATE w r))).
    { destruct r as [|body| |f]; cbn [handle snd checkouts];
        try (exists [], []; rewrite !app_nil_r; cbn; repeat split; lia).
      destruct (post_checkout_cases HST_RATE f (fst w) (snd w))
        as [(_ & _ & _ & ->) | (resp & db' & -> & Ho' & Hi' & Hn' & _)].
      - eexists [_], _. cbn [orders order_items next_order_id snd List.length].
        repeat split; lia.
      - exists [], []. rewrite !app_nil_r. cbn [snd List.length]. repeat split; try assumption; lia. }
    destruct Hstep as (os1 & ls1 & Ho1 & Hi1 & Hlen1 & Hn1).
    exists (os1 ++ os), (ls1 ++ ls). rewrite Ho, Hi, Ho1, Hi1, !app_assoc, length_app.
    repeat split; lia.
Qed.

(** ** Checkouts that get no answer, and the retry of a failed checkout *)

(** X15: when the connection cannot be obtained, or when a call of the transaction
    fails and the rollback fails too, the promise of the handler rejects: it
    sends no response itself, the tables keep their rows and the session
    keeps its cart. *)
Theorem checkout_unanswered (HST_RATE : number) (f : faults)
    (s : session) (db : database) (c : list cart_line) :
  cart s = Some c -> c <> [] ->
  f_connect f = true \/ (tx_fails f (List.length c) /\ f_rollback f = true) ->
  exists db',
    post_checkout HST_RATE f s db = (None, s, db') /\
    orders db' = orders db /\ order_items db' = order_items db.
Proof.
  intros Hs Hne Hf.
  assert (Hg : getCart s = (c, s)).
  { unfold getCart. rewrite Hs. reflexivity. }
  unfold post_checkout, checkout_attempt. rewrite Hg.
  destruct c as [|it c']; [congruence|].
  destruct (f_connect f) eqn:Econ.
  { exists db. repeat split. }
  destruct Hf as [Hf | [Hfail Hrb]]; [discriminate Hf|].
  destruct (checkout_tx_cases HST_RATE f (it :: c') (computeTotals HST_RATE (it :: c')) db)
    as [[Hok _] | (_ & Hr & Ho & Hi & _)].
  - exfalso. eapply tx_fails_not_succeeds; eassumption.
  - destruct (checkout_tx HST_RATE f (it :: c') (computeTotals HST_RATE (it :: c'))
                (getConnection db)) as [[x|] cn]; [discriminate Hr|].
    cbn [snd] in *. unfold rollback. rewrite Hrb. cbn [release committed].
    eexists. split; [reflexivity | split; assumption].
Qed.

(** The commit and then the rollback fail. *)
Lemma checkout_unanswered_witness :
  exists db',
    post_checkout HST_RATE_default (Faults false false false (fun _ => false) true true)
      (Session (Some sample_cart)) empty_store
    = (None, Session (Some sample_cart), db') /\
    orders db' = [] /\ order_items db' = [].
Proof.
  apply (checkout_unanswered HST_RATE_default
           (Faults false false false (fun _ => false) true true)
           (Session (Some sample_cart)) empty_store sample_cart).
  - reflexivity.
  - discriminate.
  - right. split; [|reflexivity]. right. right. right. reflexivity.
Defined.

(** X16: a checkout that failed and was rolled back can be sent again: the
    session still holds the cart, so a second checkout whose calls succeed
    commits one order with the same totals and the same lines after the rows
    the tables held before the failure, answers the receipt of these lines
    and empties the cart. The id of the order is not below the key the
    failed attempt could have used. *)
Theorem checkout_retry (HST_RATE : number) (f g : faults)
    (s : session) (db : database) (c : list cart_line) :
  cart s = Some c -> c <> [] ->
  f_connect f = false -> f_rollback f = false -> tx_fails f (List.length c) ->
  f_connect g = false -> tx_succeeds g (List.length c) ->
  let t := computeTotals HST_RATE c in
  exists db1 id,
    post_checkout HST_RATE f s db = (Some (RespError 500 "checkout_failed"), s, db1) /\
    next_order_id db <= id /\
    post_checkout HST_RATE g s db1
    = (Some (RespReceipt (receipt_of HST_RATE id c t)), Session (Some []),
       Database (orders db ++ [OrderRow id (subtotal t) HST_RATE (hst t) (total t)])
                (order_items db ++ line_rows id c) (id + 1)).
Proof.
  intros Hs Hne Hcon Hrb Hfail Hcong Hok t.
  assert (H1 : exists db1,
             post_checkout HST_RATE f s db = (Some (RespError 500 "checkout_failed"), s, db1) /\
             orders db1 = orders db /\ order_items db1 = order_items db /\
             next_order_id db <= next_order_id db1).
  { unfold post_checkout, checkout_attempt, getCart. rewrite Hs.
    destruct c as [|it c']; [congruence|]. rewrite Hcon.
    destruct (checkout_tx_cases HST_RATE f (it :: c') (computeTotals HST_RATE (it :: c')) db)
      as [[Hok' _] | (_ & Hr & Ho & Hi & Hn)].
    - exfalso. eapply tx_fails_not_succeeds; eassumption.
    - destruct (checkout_tx HST_RATE f (it :: c') (computeTotals HST_RATE (it :: c'))
                  (getConnection db)) as [[x|] cn]; [discriminate Hr|].
      cbn [snd] in *. unfold rollback. rewrite Hrb. cbn [release committed].
      eexists. split; [reflexivity | repeat split; assumption]. }
  destruct H1 as (db1 & E1 & Ho & Hi & Hn).
  exists db1, (next_order_id db1). split; [exact E1 | split; [exact Hn |]].
  rewrite (post_checkout_committed HST_RATE g s db1 c) by assumption.
  rewrite Ho, Hi. reflexivity.
Qed.

(** The insert of the order fails, then everything succeeds. *)
Lemma checkout_retry_witness :
  let t := computeTotals HST_RATE_default sample_cart in
  exists db1 id,
    post_checkout HST_RATE_default (Faults false false true (fun _ => false) false false)
      (Session (Some sample_cart)) empty_store
    = (Some (RespError 500 "checkout_failed"), Session (Some sample_cart), db1) /\
    next_order_id empty_store <= id /\
    post_checkout HST_RATE_default no_faults (Session (Some sample_cart)) db1
    = (Some (RespReceipt (receipt_of HST_RATE_default id sample_cart t)), Session (Some []),
       Database (orders empty_store ++ [OrderRow id (subtotal t) HST_RATE_default (hst t) (total t)])
                (order_items empty_store ++ line_rows id sample_cart) (id + 1)).
Proof.
  apply (checkout_retry HST_RATE_default
           (Faults false false true (fun _ => false) false false) no_faults
           (Session (Some sample_cart)) empty_store sample_cart).
  - reflexivity.
  - discriminate.
  - reflexivity.
  - reflexivity.
  - right. left. reflexivity.
  - reflexivity.
  - repeat split.
Defined.

(** ** An add raises the subtotal by the catalog price of what was added *)

Lemma catalog_price (p : product) (k : string) :
  In p PRODUCTS -> p_sku p = k ->
  price_cents p = ofZ (catalog_cents k) /\
  (catalog_cents k = 1000 \/ catalog_cents k = 800 \/ catalog_cents k = 300).
Proof.
  intros [<- | [<- | [<- | []]]] <-; split; try reflexivity; cbn; auto.
Qed.

Lemma sum_products_app (l l' : list (Z * Z)) :
  sum_products (l ++ l') = sum_products l + sum_products l'.
Proof. induction l as [|x l IH]; simpl; [reflexivity|]. fold (sum_products (l ++ l')). lia. Qed.

Lemma bump_sum (k : string) (z : Z) (c : list cart_line) (l : list (Z * Z)) :
  1 <= z <= 10 ->
  Forall2 int_line c l -> Forall catalog_line c ->
  Forall (fun aq => 0 <= snd aq) l ->
  sum_magnitudes l + 10000 < 2 ^ 53 ->
  In k (map sku c) ->
  exists l',
    Forall2 int_line (bump k (ofZ z) c) l' /\
    sum_products l' = sum_products l + catalog_cents k * z /\
    sum_magnitudes l' <= sum_magnitudes l + 10000.
Proof.
  intros Hz Hc. induction Hc as [|it [a q] c l Hit Hc IH]; intros Hcat Hq Hb Hin.
  { destruct Hin. }
  inversion Hcat as [|? ? Hcit Hcat']; subst.
  inversion Hq as [|? ? Hq0 Hq']; subst. cbn [snd] in Hq0.
  pose proof (sum_magnitudes_nonneg l) as Hl.
  cbn [sum_magnitudes fold_right fst snd] in Hb. fold (sum_magnitudes l) in Hb.
  destruct Hit as (Hp & Hqi & Ha & Hqb). cbn [fst snd] in Hp, Hqi, Ha, Hqb.
  cbn [bump]. destruct (String.eqb (sku it) k) eqn:E.
  - apply String.eqb_eq in E.
    destruct Hcit as (p & Hpin & Hsku & _ & Hprice).
    destruct (catalog_price p k Hpin ltac:(congruence)) as [Hpc Hval].
    assert (Hak : a = catalog_cents k).
    { assert (Ht : toZ (ofZ a) = toZ (ofZ (catalog_cents k))) by congruence.
      rewrite !toZ_ofZ in Ht by lia. congruence. }
    exists ((a, q + z) :: l). split; [| split].
    + constructor; [|exact Hc].
      unfold int_line. cbn [fst snd add_qty unit_price_cents qty].
      split; [exact Hp | split; [| split; [exact Ha | lia]]].
      rewrite Hqi. apply add_ofZ; lia.
    + cbn [sum_products fold_right fst snd]. fold (sum_products l). rewrite Hak. lia.
    + cbn [sum_magnitudes fold_right fst snd]. fold (sum_magnitudes l). lia.
  - apply String.eqb_neq in E. destruct Hin as [Hin | Hin]; [congruence|].
    assert (Ha0 : 0 <= Z.abs (a * q)) by lia.
    destruct (IH Hcat' Hq' ltac:(lia) Hin) as (l' & Hc' & Hsp & Hsm).
    exists ((a, q) :: l'). split; [| split].
    + constructor; [|exact Hc']. unfold int_line. cbn [fst snd]. tauto.
    + cbn [sum_products fold_right fst snd]. fold (sum_products l) (sum_products l'). lia.
    + cbn [sum_magnitudes fold_right fst snd]. fold (sum_magnitudes l) (sum_magnitudes l'). lia.
Qed.

(** X8: on a cart of catalog lines with integer quantities whose subtotal is an
    exact integer, a valid add of [z] units of the sku [k] raises the
    subtotal by exactly [z] times the catalog price of [k], whether the cart
    held a line of [k] or not. *)
Theorem add_raises_subtotal (HST_RATE : number) (k : string) (z : Z)
    (s : session) (l : list (Z * Z)) :
  In k sku_enum -> 1 <= z <= 10 ->
  Forall catalog_line (fst (getCart s)) ->
  Forall2 int_line (fst (getCart s)) l ->
  Forall (fun aq => 0 <= snd aq) l ->
  sum_magnitudes l + 10000 < 2 ^ 53 ->
  let c' := fst (getCart (snd (post_cart_add (add_request k (ofZ z)) s))) in
  subtotal (computeTotals HST_RATE (fst (getCart s))) = ofZ (sum_products l) /\
  subtotal (computeTotals HST_RATE c') = ofZ (sum_products l + catalog_cents k * z).
Proof.
  intros Hk Hz Hcat Hc Hq Hb c'.
  pose proof (sum_magnitudes_nonneg l) as Hl.
  split; [apply subtotal_exact; [exact Hc | lia] |].
  assert (Hparse : addSchema (add_request k (ofZ z)) = Some (k, ofZ z)).
  { apply (addSchema_add_request k (ofZ z) z Hk); [apply toZ_ofZ; lia | exact Hz]. }
  destruct (addSchema_catalog _ _ _ Hparse) as (p & Hfind & Hp & Hpk).
  destruct (catalog_price p k Hp Hpk) as [Hpc Hval].
  assert (Hl' : exists l', Forall2 int_line c' l' /\
                           sum_products l' = sum_products l + catalog_cents k * z /\
                           sum_magnitudes l' <= sum_magnitudes l + 10000).
  { subst c'. unfold post_cart_add. rewrite Hparse, Hfind.
    destruct (getCart s) as [c s1]. cbn [fst] in Hcat, Hc.
    destruct (find (fun x => String.eqb (sku x) k) c) as [x|] eqn:Ef;
      cbn [snd getCart cart fst].
    - apply bump_sum; try assumption.
      apply find_some in Ef. destruct Ef as [Hx Ex]. apply String.eqb_eq in Ex.
      apply in_map_iff. exists x. split; assumption.
    - exists (l ++ [(catalog_cents k, z)]). split; [| split].
      + apply Forall2_app; [exact Hc|]. constructor; [|constructor].
        unfold int_line. cbn [fst snd unit_price_cents qty].
        split; [exact Hpc | split; [reflexivity | lia]].
      + rewrite sum_products_app. cbn. lia.
      + rewrite sum_magnitudes_app. cbn [sum_magnitudes fold_right fst snd]. lia. }
  destruct Hl' as (l' & Hc' & Hsp & Hsm).
  rewrite (subtotal_exact HST_RATE c' l' Hc') by lia. rewrite Hsp. reflexivity.
Qed.

Lemma sample_cart_catalog : Forall catalog_line sample_cart.
Proof.
  repeat constructor.
  - exists (Product "burger" "Burger" (ofZ 1000)). cbn. tauto.
  - exists (Product "fries" "Fries" (ofZ 800)). cbn. tauto.
  - exists (Product "coke" "Coke" (ofZ 300)). cbn. tauto.
Defined.

(** Three more cokes on the sample cart: 2400 becomes 3300. *)
Lemma add_raises_subtotal_witness :
  let s := Session (Some sample_cart) in
  let c' := fst (getCart (snd (post_cart_add (add_request "coke" (ofZ 3)) s))) in
  subtotal (computeTotals HST_RATE_default (fst (getCart s))) = ofZ 2400 /\
  subtotal (computeTotals HST_RATE_default c') = ofZ 3300.
Proof.
  apply (add_raises_subtotal HST_RATE_default "coke" 3 (Session (Some sample_cart))
           [(1000, 1); (800, 1); (300, 2)]).
  - simpl; auto.
  - lia.
  - exact sample_cart_catalog.
  - int_lines.
  - repeat constructor; discriminate.
  - closed_bounds.
Defined.

(** ** Adds of one sku accumulate into one line *)

Lemma total_of_nonneg (zs : list Z) :
  Forall (fun z => 1 <= z <= 10) zs -> 0 <= total_of zs.
Proof. induction 1 as [|z zs Hz _ IH]; cbn [total_of fold_right]; [lia|]. fold (total_of zs). lia. Qed.

Lemma adds_same_sku (HST_RATE : number) (k n : string) (a : number) (db : database)
    (zs : list Z) :
  In k sku_enum -> Forall (fun z => 1 <= z <= 10) zs ->
  forall (s : session) (q0 : Z),
    fst (getCart s) = [CartLine k n a (ofZ q0)] ->
    0 <= q0 -> q0 + total_of zs < 2 ^ 53 ->
    fst (getCart (fst (run HST_RATE (map (fun z => CartAdd (add_request k (ofZ z))) zs) (s, db))))
    = [CartLine k n a (ofZ (q0 + total_of zs))].
Proof.
  intros Hk Hzs. induction Hzs as [|z zs Hz Hzs IH]; intros s q0 Hs Hq0 Hb.
  - cbn [map run fold_left fst total_of fold_right]. rewrite Z.add_0_r. exact Hs.
  - cbn [total_of fold_right] in Hb |- *. fold (total_of zs) in Hb |- *.
    pose proof (total_of_nonneg zs Hzs) as Ht.
    cbn [map run fold_left handle fst snd].
    assert (Hparse : addSchema (add_request k (ofZ z)) = Some (k, ofZ z)).
    { apply (addSchema_add_request k (ofZ z) z Hk); [apply toZ_ofZ; lia | exact Hz]. }
    rewrite (post_cart_add_existing _ s k (ofZ z) [] [] (CartLine k n a (ofZ q0)) Hparse Hs
               eq_refl ltac:(intros x [])).
    cbn [snd app]. unfold add_qty. cbn [sku name unit_price_cents qty].
    rewrite add_ofZ by lia.
    replace (q0 + (z + total_of zs)) with ((q0 + z) + total_of zs) by lia.
    fold (run HST_RATE (map (fun z0 => CartAdd (add_request k (ofZ z0))) zs)
            (Session (Some [CartLine k n a (ofZ (q0 + z))]), db)).
    apply (IH (Session (Some [CartLine k n a (ofZ (q0 + z))]))); [reflexivity | lia | lia].
Qed.

(** X7: any number of valid adds of one sku to a fresh session leave one line,
    with the name and the price of the catalog and, as long as the sum stays
    below 2^53, the sum of the quantities that were requested. *)
Theorem repeated_adds_accumulate (HST_RATE : number) (k : string) (zs : list Z)
    (db : database) :
  In k sku_enum -> zs <> [] ->
  Forall (fun z => 1 <= z <= 10) zs -> total_of zs < 2 ^ 53 ->
  exists p, In p PRODUCTS /\ p_sku p = k /\
    fst (getCart (fst (run HST_RATE (map (fun z => CartAdd (add_request k (ofZ z))) zs)
                         (Session None, db))))
    = [CartLine k (p_name p) (price_cents p) (ofZ (total_of zs))].
Proof.
  intros Hk Hne Hzs Hb. destruct zs as [|z zs]; [congruence|].
  inversion Hzs as [|? ? Hz Hzs']; subst.
  assert (Hparse : addSchema (add_request k (ofZ z)) = Some (k, ofZ z)).
  { apply (addSchema_add_request k (ofZ z) z Hk); [apply toZ_ofZ; lia | exact Hz]. }
  destruct (post_cart_add_new _ (Session None) k (ofZ z) Hparse ltac:(intros x []))
    as (p & Hp & Hpk & Hadd).
  exists p. split; [exact Hp | split; [exact Hpk|]].
  cbn [map run fold_left handle fst snd]. rewrite Hadd.
  cbn [snd getCart cart fst app].
  cbn [total_of fold_right] in Hb |- *. fold (total_of zs) in Hb |- *.
  apply (adds_same_sku HST_RATE k (p_name p) (price_cents p) db zs Hk Hzs'
           (Session (Some [CartLine k (p_name p) (price_cents p) (ofZ z)])) z);
    [reflexivity | lia | exact Hb].
Qed.

Lemma repeated_adds_accumulate_witness :
  exists p, In p PRODUCTS /\ p_sku p = "fries"%string /\
    fst (getCart (fst (run HST_RATE_default
                         (map (fun z => CartAdd (add_request "fries" (ofZ z))) [10; 10; 3])
                         (Session None, empty_store))))
    = [CartLine "fries" (p_name p) (price_cents p) (ofZ (total_of [10; 10; 3]))].
Proof.
  apply (repeated_adds_accumulate HST_RATE_default "fries" [10; 10; 3] empty_store).
  - simpl; auto.
  - discriminate.
  - repeat constructor; discriminate.
  - reflexivity.
Defined.

(** ** The amounts a client reads *)

Lemma totals_texts (c : list cart_line) (l : list (Z * Z)) :
  Forall2 int_line c l -> sum_magnitudes l <= 2 ^ 48 -> 0 <= sum_products l ->
  let t := computeTotals HST_RATE_default c in
  let tax := (13 * sum_products l + 50) / 100 in
  money (subtotal t) = dollars (sum_products l) /\
  money (hst t) = dollars tax /\
  money (total t) = dollars (sum_products l + tax).
Proof.
  intros Hc Hmag Hpos t tax.
  pose proof (sum_products_bound l) as Hb.
  assert (Hsub : subtotal t = ofZ (sum_products l)) by (apply subtotal_exact; [exact Hc | lia]).
  assert (Hh : hst t = ofZ tax).
  { change (hst t) with (Math_round (mul (subtotal t) HST_RATE_default)).
    rewrite Hsub. apply hst_default_exact. lia. }
  assert (Hrange : 0 <= tax <= sum_products l + 1).
  { subst tax. split; [apply Z.div_pos; lia | apply Z.div_le_upper_bound; lia]. }
  assert (Htot : total t = ofZ (sum_products l + tax)).
  { change (total t) with (add (subtotal t) (hst t)). rewrite Hsub, Hh. apply add_ofZ; lia. }
  rewrite Hsub, Hh, Htot. repeat split; apply money_dollars; lia.
Qed.

Lemma sum_products_positive (c : list cart_line) (l : list (Z * Z)) :
  Forall2 int_line c l -> Forall (fun aq => 1 <= snd aq) l ->
  sum_products l = sum_magnitudes l.
Proof.
  induction 1 as [|it [a q] c l Hit _ IH]; intros Hq; [reflexivity|].
  inversion Hq as [|? ? Hq0 Hq']; subst. cbn [snd] in Hq0.
  destruct Hit as (_ & _ & Ha & _). cbn [fst] in Ha.
  cbn [sum_products sum_magnitudes fold_right fst snd].
  fold (sum_products l) (sum_magnitudes l). rewrite (IH Hq').
  assert (0 <= a * q) by (apply Z.mul_nonneg_nonneg; lia). lia.
Qed.

Lemma line_money (it : cart_line) (a q bound : Z) :
  int_line it (a, q) -> 1 <= q -> a * q <= bound -> bound <= 2 ^ 48 ->
  money (unit_price_cents it) = dollars a /\
  money (mul (unit_price_cents it) (qty it)) = dollars (a * q).
Proof.
  intros (Hp & Hq & Ha & Hqb) Hq1 Hb Hbound. cbn [fst snd] in *.
  assert (Haq : a <= a * q).
  { rewrite <- (Z.mul_1_r a) at 1. apply Z.mul_le_mono_nonneg_l; lia. }
  assert (H0 : 0 <= a * q) by (apply Z.mul_nonneg_nonneg; lia).
  rewrite Hp, Hq. split; [apply money_dollars; lia|].
  destruct (mul_ofZ a q) as [-> | [-> ->]]; try lia.
  - apply money_dollars. lia.
  - reflexivity.
Qed.

Lemma lines_money (c : list cart_line) (l : list (Z * Z)) :
  Forall2 int_line c l -> Forall (fun aq => 1 <= snd aq) l ->
  sum_magnitudes l <= 2 ^ 48 ->
  Forall2 (fun it aq => qty it = ofZ (snd aq) /\
                        money (unit_price_cents it) = dollars (fst aq) /\
                        money (mul (unit_price_cents it) (qty it))
                        = dollars (fst aq * snd aq)) c l.
Proof.
  induction 1 as [|it [a q] c l Hit Hc IH]; intros Hq Hb; [constructor|].
  inversion Hq as [|? ? Hq0 Hq']; subst. cbn [snd] in Hq0.
  pose proof (sum_magnitudes_nonneg l) as Hl.
  cbn [sum_magnitudes fold_right fst snd] in Hb. fold (sum_magnitudes l) in Hb.
  constructor; [| apply IH; [exact Hq' | lia]].
  cbn [fst snd]. split; [exact (proj1 (proj2 Hit))|].
  apply (line_money it a q (Z.abs (a * q))); [exact Hit | exact Hq0 | lia | lia].
Qed.

(** X10: with the default rate, on a cart of integer lines with quantities of at
    least 1 and a subtotal of at most 2^48 cents, [GET /api/cart] shows every
    unit price, the subtotal, the tax (13 % of the subtotal, rounded half up)
    and the total as exact decimals, the total being the sum of the other
    two in cents, and does not change the cart. *)
Theorem cart_view_exact (s : session) (l : list (Z * Z)) :
  Forall2 int_line (fst (getCart s)) l ->
  Forall (fun aq => 1 <= snd aq) l ->
  sum_magnitudes l <= 2 ^ 48 ->
  let tax := (13 * sum_products l + 50) / 100 in
  exists items,
    get_cart HST_RATE_default s
    = (RespCart items
         (TotalsView (dollars (sum_products l)) (dollars tax)
                     (dollars (sum_products l + tax)) HST_RATE_default),
       snd (getCart s)) /\
    map cv_line items = fst (getCart s) /\
    Forall2 (fun v aq => cv_unit_price v = dollars (fst aq)) items l /\
    fst (getCart (snd (getCart s))) = fst (getCart s).
Proof.
  intros Hc Hq Hb tax.
  pose proof (sum_magnitudes_nonneg l) as Hl.
  assert (Hpos : 0 <= sum_products l) by (rewrite (sum_products_positive _ l Hc Hq); exact Hl).
  destruct (totals_texts _ l Hc Hb Hpos) as (Hsub & Hh & Htot). fold tax in Hh, Htot.
  pose proof (lines_money _ l Hc Hq Hb) as Hlines.
  pose proof (getCart_twice s) as Ht.
  unfold get_cart.
  destruct (getCart s) as [c s1] eqn:Eg. cbn [fst snd] in *.
  eexists. rewrite Hsub, Hh, Htot. split; [reflexivity | split; [| split]].
  - rewrite map_map. cbn [cv_line]. apply map_id.
  - clear -Hlines. induction Hlines as [|it aq c l Hit _ IH]; [constructor|].
    cbn [map]. constructor; [exact (proj1 (proj2 Hit)) | exact IH].
  - exact Ht.
Qed.

(** The sample cart shows 24.00, 3.12 and 27.12. *)
Lemma cart_view_exact_witness :
  exists items,
    get_cart HST_RATE_default (Session (Some sample_cart))
    = (RespCart items (TotalsView (Txt "24.00") (Txt "3.12") (Txt "27.12") HST_RATE_default),
       Session (Some sample_cart)) /\
    map cv_line items = sample_cart /\
    Forall2 (fun v aq => cv_unit_price v = dollars (fst aq)) items
            [(1000, 1); (800, 1); (300, 2)] /\
    fst (getCart (snd (getCart (Session (Some sample_cart))))) = sample_cart.
Proof.
  apply (cart_view_exact (Session (Some sample_cart)) [(1000, 1); (800, 1); (300, 2)]).
  - int_lines.
  - repeat constructor; discriminate.
  - closed_bounds.
Defined.

(** X13: with the default rate, on a cart of integer lines with quantities of at
    least 1 and a subtotal of at most 2^48 cents, the receipt of a checkout
    that succeeds carries the id of the order and prints every unit price,
    every line total (unit price times quantity), the subtotal (the sum of
    the line totals), the tax and the total as exact decimals. *)
Theorem receipt_exact (f : faults) (s : session) (db : database)
    (c : list cart_line) (l : list (Z * Z)) :
  cart s = Some c -> c <> [] ->
  f_connect f = false -> tx_succeeds f (List.length c) ->
  Forall2 int_line c l -> Forall (fun aq => 1 <= snd aq) l ->
  sum_magnitudes l <= 2 ^ 48 ->
  let tax := (13 * sum_products l + 50) / 100 in
  exists r,
    fst (fst (post_checkout HST_RATE_default f s db)) = Some (RespReceipt r) /\
    r_order_id r = next_order_id db /\
    Forall2 (fun rl aq => r_qty rl = ofZ (snd aq) /\
                          r_unit_price rl = dollars (fst aq) /\
                          r_line_total rl = dollars (fst aq * snd aq)) (r_items r) l /\
    r_subtotal r = dollars (sum_products l) /\
    r_hst r = dollars tax /\
    r_total r = dollars (sum_products l + tax).
Proof.
  intros Hs Hne Hcon Hok Hc Hq Hb tax.
  pose proof (sum_magnitudes_nonneg l) as Hl.
  assert (Hpos : 0 <= sum_products l) by (rewrite (sum_products_positive _ l Hc Hq); exact Hl).
  destruct (totals_texts c l Hc Hb Hpos) as (Hsub & Hh & Htot). fold tax in Hh, Htot.
  pose proof (lines_money c l Hc Hq Hb) as Hlines.
  rewrite (post_checkout_committed HST_RATE_default f s db c) by assumption.
  cbn [fst]. eexists. split; [reflexivity|].
  unfold receipt_of. cbn [r_order_id r_items r_subtotal r_hst r_total].
  split; [reflexivity | split; [| split; [exact Hsub | split; [exact Hh | exact Htot]]]].
  clear -Hlines. induction Hlines as [|it aq c l Hit _ IH]; [constructor|].
  cbn [map]. constructor; [exact Hit | exact IH].
Qed.

Lemma receipt_exact_witness :
  exists r,
    fst (fst (post_checkout HST_RATE_default no_faults (Session (Some sample_cart)) empty_store))
    = Some (RespReceipt r) /\
    r_order_id r = 1 /\
    Forall2 (fun rl aq => r_qty rl = ofZ (snd aq) /\
                          r_unit_price rl = dollars (fst aq) /\
                          r_line_total rl = dollars (fst aq * snd aq)) (r_items r)
            [(1000, 1); (800, 1); (300, 2)] /\
    r_subtotal r = Txt "24.00" /\ r_hst r = Txt "3.12" /\ r_total r = Txt "27.12".
Proof.
  apply (receipt_exact no_faults (Session (Some sample_cart)) empty_store sample_cart
           [(1000, 1); (800, 1); (300, 2)]).
  - reflexivity.
  - discriminate.
  - reflexivity.
  - repeat split.
  - int_lines.
  - repeat constructor; discriminate.
  - closed_bounds.
Defined.

(** X11: whatever requests a session has sent, every line [GET /api/cart] shows
    carries the sku, the name and the price text that [GET /api/products]
    lists for one product. *)
Theorem cart_prices_match_products (HST_RATE : number) (rs : list request) (db : database) :
  let s := fst (run HST_RATE rs (Session None, db)) in
  Forall (fun v => exists pv, In pv get_products /\
                              p_sku (pv_product pv) = sku (cv_line v) /\
                              p_name (pv_product pv) = name (cv_line v) /\
                              pv_price pv = cv_unit_price v)
         (view_items (fst (get_cart HST_RATE s))).
Proof.
  intros s.
  destruct (run_sound HST_RATE rs (Session None, db) cart_sound_nil) as [_ Hcat].
  fold s in Hcat. unfold get_cart. destruct (getCart s) as [c s1]. cbn [fst view_items] in *.
  apply Forall_map. eapply Forall_impl; [|exact Hcat]. cbv beta.
  intros it (p & Hp & Hsku & Hname & Hprice).
  exists (ProductView p (money (price_cents p))).
  cbn [pv_product pv_price cv_line cv_unit_price].
  split; [| split; [congruence | split; [congruence | rewrite Hprice; reflexivity]]].
  unfold get_products. apply in_map_iff. exists p. split; [reflexivity | exact Hp].
Qed.

(** ** Examples of the bounds *)

Lemma tax_default_rate_exact_witness :
  let t := computeTotals HST_RATE_default sample_cart in
  let tax := round_half_up (inject_Z 2400 * (13 # 100)) in
  toZ (hst t) = Some tax /\ toZ (total t) = Some (2400 + tax).
Proof.
  apply (tax_default_rate_exact sample_cart [(1000, 1); (800, 1); (300, 2)]).
  - int_lines.
  - closed_bounds.
  - closed_bounds.
Defined.

Lemma checkout_order_exact_witness :
  exists o rows tax,
    snd (post_checkout HST_RATE_default no_faults (Session (Some sample_cart)) empty_store)
    = Database ([] ++ [o]) ([] ++ rows) (1 + 1) /\
    Forall2 (fun row aq => toZ (oi_unit_price_cents row) = Some (fst aq) /\
                           toZ (oi_qty row) = Some (snd aq) /\
                           toZ (line_total_cents row) = Some (fst aq * snd aq)) rows
            [(1000, 1); (800, 1); (300, 2)] /\
    toZ (subtotal_cents o) = Some 2400 /\
    toZ (hst_cents o) = Some tax /\
    tax = round_half_up (inject_Z 2400 * (13 # 100)) /\
    toZ (total_cents o) = Some (2400 + tax).
Proof.
  apply (checkout_order_exact no_faults (Session (Some sample_cart)) empty_store sample_cart
           [(1000, 1); (800, 1); (300, 2)]).
  - reflexivity.
  - discriminate.
  - reflexivity.
  - repeat split.
  - int_lines.
  - closed_bounds.
  - closed_bounds.
Defined.

Lemma session_cart_exact_witness :
  let rs := [ CartAdd (add_request "burger" (ofZ 2)); CartView;
              CartAdd (add_request "coke" (ofZ 10)); CartAdd JNull;
              CartAdd (add_request "burger" (ofZ 1)) ] in
  let c := fst (getCart (fst (run HST_RATE_default rs (Session None, empty_store)))) in
  exists l,
    Forall2 int_line c l /\ sum_magnitudes l <= 10000 * adds rs /\
    toZ (subtotal (computeTotals HST_RATE_default c)) = Some (sum_products l) /\
    forall c', Permutation c c' ->
               computeTotals HST_RATE_default c' = computeTotals HST_RATE_default c.
Proof.
  apply (session_cart_exact HST_RATE_default
           [ CartAdd (add_request "burger" (ofZ 2)); CartView;
             CartAdd (add_request "coke" (ofZ 10)); CartAdd JNull;
             CartAdd (add_request "burger" (ofZ 1)) ] empty_store).
  - repeat constructor.
  - closed_bounds.
Defined.

(** ** Clearing the cart, and a second checkout *)

(** X12: [POST /api/cart/clear] answers [{ ok: true }] whatever the session held,
    and leaves an empty cart: with a finite rate the next view shows no line
    and three amounts 0.00, and the next checkout is refused with 400
    [cart_empty] without touching the store, whatever calls would fail. *)
Theorem clear_empties_cart (HST_RATE : number) (v : Q) (f : faults)
    (s : session) (db : database) :
  toQ HST_RATE = Some v ->
  let s' := snd (post_cart_clear s) in
  fst (post_cart_clear s) = RespOk /\
  get_cart HST_RATE s'
  = (RespCart [] (TotalsView (Txt "0.00") (Txt "0.00") (Txt "0.00") HST_RATE), s') /\
  post_checkout HST_RATE f s' db = (Some (RespError 400 "cart_empty"), s', db).
Proof.
  intros Hv s'. split; [reflexivity | split; [| reflexivity]].
  subst s'. cbn [post_cart_clear snd]. unfold get_cart. cbn [getCart cart].
  destruct HST_RATE as [sr|sr| |sr m e]; try discriminate; destruct sr; reflexivity.
Qed.

Lemma clear_empties_cart_witness :
  let s' := snd (post_cart_clear (Session (Some sample_cart))) in
  fst (post_cart_clear (Session (Some sample_cart))) = RespOk /\
  get_cart HST_RATE_default s'
  = (RespCart [] (TotalsView (Txt "0.00") (Txt "0.00") (Txt "0.00") HST_RATE_default), s') /\
  post_checkout HST_RATE_default no_faults s' empty_store
  = (Some (RespError 400 "cart_empty"), s', empty_store).
Proof.
  exact (clear_empties_cart HST_RATE_default _ no_faults (Session (Some sample_cart))
           empty_store eq_refl).
Defined.

(** X17: a cart is sold once: after a checkout that succeeded, a second checkout
    of the same session is refused with 400 [cart_empty], whatever its calls
    would do, and the store keeps the one order the first one added. *)
Theorem checkout_not_repeated (HST_RATE : number) (f g : faults)
    (s : session) (db : database) (c : list cart_line) :
  cart s = Some c -> c <> [] ->
  f_connect f = false -> tx_succeeds f (List.length c) ->
  let w := post_checkout HST_RATE f s db in
  post_checkout HST_RATE g (snd (fst w)) (snd w)
  = (Some (RespError 400 "cart_empty"), snd (fst w), snd w) /\
  List.length (orders (snd w)) = S (List.length (orders db)).
Proof.
  intros Hs Hne Hcon Hok w. subst w.
  rewrite (post_checkout_committed HST_RATE f s db c) by assumption.
  cbn [fst snd orders]. split; [reflexivity|].
  rewrite length_app. cbn [List.length]. lia.
Qed.

Lemma checkout_not_repeated_witness :
  let w := post_checkout HST_RATE_default no_faults (Session (Some sample_cart)) empty_store in
  post_checkout HST_RATE_default no_faults (snd (fst w)) (snd w)
  = (Some (RespError 400 "cart_empty"), snd (fst w), snd w) /\
  List.length (orders (snd w)) = 1%nat.
Proof.
  apply (checkout_not_repeated HST_RATE_default no_faults no_faults
           (Session (Some sample_cart)) empty_store sample_cart).
  - reflexivity.
  - discriminate.
  - reflexivity.
  - repeat split.
Defined.

(** ** The store under the requests of a session *)

(** At the default rate, the checkout of a cart worth at most 2^48 cents
    keeps the store exact. *)
Lemma post_checkout_within (f : faults) (s : session) (db : database) (bound : Z) :
  cart_within bound (fst (getCart s)) -> bound <= 2 ^ 48 ->
  store_exact db ->
  store_exact (snd (post_checkout HST_RATE_default f s db)).
Proof.
  intros (l & Hc & Hok & Hsum) Hb Hdb.
  assert (Hq : Forall (fun aq => 1 <= snd aq) l)
    by (eapply Forall_impl; [|exact Hok]; cbv beta; intros aq H; exact (proj2 H)).
  pose proof (sum_magnitudes_nonneg l) as Hl.
  assert (Hpos : sum_products l = sum_magnitudes l) by exact (sum_products_positive _ l Hc Hq).
  set (tax := (13 * sum_products l + 50) / 100).
  assert (Hrange : 0 <= tax <= sum_products l + 1).
  { subst tax. split; [apply Z.div_pos; lia | apply Z.div_le_upper_bound; lia]. }
  apply (post_checkout_exact HST_RATE_default f s db l tax); try assumption; try lia.
  left. set (c := fst (getCart s)) in *.
  change (hst (computeTotals HST_RATE_default c))
    with (Math_round (mul (subtotal (computeTotals HST_RATE_default c)) HST_RATE_default)).
  rewrite (subtotal_exact HST_RATE_default c l Hc) by lia.
  apply hst_default_exact. lia.
Qed.

Lemma run_store (rs : list request) :
  Forall wire_request rs ->
  forall (w : session * database) (bound : Z),
    0 <= bound -> bound + 10000 * adds rs <= 2 ^ 48 ->
    cart_within bound (fst (getCart (fst w))) ->
    store_exact (snd w) -> store_linked (snd w) ->
    store_exact (snd (run HST_RATE_default rs w)) /\
    store_linked (snd (run HST_RATE_default rs w)).
Proof.
  induction 1 as [|r rs Hr _ IH]; intros w bound Hb0 Hb Hin Hex Hl.
  - split; assumption.
  - pose proof (adds_nonneg rs) as Hrs. pose proof (adds_nonneg [r]) as Hr1.
    assert (Hsplit : adds (r :: rs) = adds [r] + adds rs)
      by (destruct r; cbn [adds]; lia).
    rewrite Hsplit in Hb.
    cbn [run fold_left]. fold (run HST_RATE_default rs (handle HST_RATE_default w r)).
    apply (IH (handle HST_RATE_default w r) (bound + 10000 * adds [r])); [lia | lia | | |].
    + apply handle_within; try assumption; lia.
    + destruct r as [|body| |f]; cbn [handle snd]; try exact Hex.
      pose proof (post_checkout_within f (fst w) (snd w) bound Hin ltac:(lia) Hex) as H.
      destruct (post_checkout HST_RATE_default f (fst w) (snd w)) as [[resp s'] db'].
      exact H.
    + destruct r as [|body| |f]; cbn [handle snd]; try exact Hl.
      pose proof (post_checkout_linked HST_RATE_default f (fst w) (snd w)
                    (proj1 (proj2 Hex)) Hl) as H.
      destruct (post_checkout HST_RATE_default f (fst w) (snd w)) as [[resp s'] db'].
      exact H.
Qed.

(** X18: at the default rate, whatever requests a fresh session sends (views,
    adds with any body that [express.json] can deliver, clears, checkouts
    with any failing calls), as long as at most 2^48 / 10000 of them are
    adds, a store that starts well formed stays so: every order satisfies
    the three equations of section 3 in integer minor units over its own
    lines (total = subtotal + tax, subtotal = sum of the line totals, line
    total = unit price * quantity), the order ids are distinct and below the
    next key, every order has at least one line and every line belongs to an
    order of the table. *)
Theorem store_stays_well_formed (rs : list request) (db : database) :
  Forall wire_request rs -> 10000 * adds rs <= 2 ^ 48 ->
  store_exact db -> store_linked db ->
  let db' := snd (run HST_RATE_default rs (Session None, db)) in
  store_exact db' /\ store_linked db'.
Proof.
  intros Hw Hb Hex Hl.
  apply (run_store rs Hw (Session None, db) 0); try assumption; try lia.
  apply cart_within_nil. lia.
Qed.

(** Two sales with a failed checkout between them, from the empty store. *)
Lemma store_stays_well_formed_witness :
  let db' := snd (run HST_RATE_default
                    [ CartAdd (add_request "burger" (ofZ 2)); Checkout no_faults;
                      CartAdd (add_request "coke" (ofZ 1));
                      Checkout (Faults false false false (fun _ => true) false false);
                      Checkout no_faults ]
                    (Session None, empty_store)) in
  store_exact db' /\ store_linked db'.
Proof.
  apply (store_stays_well_formed
           [ CartAdd (add_request "burger" (ofZ 2)); Checkout no_faults;
             CartAdd (add_request "coke" (ofZ 1));
             Checkout (Faults false false false (fun _ => true) false false);
             Checkout no_faults ] empty_store).
  - repeat constructor.
  - closed_bounds.
  - repeat split; constructor.
  - repeat split; constructor.
Defined.
